(** * System-Check: the metric-collection and threshold-warning model

    A shallow embedding of [system_check.py].  The program queries the host
    (through [platform], [getpass] and [psutil]), derives a few quantities
    in Python's [float] arithmetic and prints them, with a warning when a
    fixed threshold is crossed.

    - Python [int] is [Z]; Python [float] is an IEEE 754 binary64 number,
      [spec_float] with [prec = 53] and [emax = 1024], and the arithmetic
      is the Standard Library's specification of it ([SFdiv], [SFmul],
      [SFsub], [SFcompare]).
    - The host is a record of query results, [Host]; a query that can raise
      returns a [result].
    - A method is a computation in a writer-and-exception monad [prog]: it
      prints lines and either returns or raises.
    - A printed line is an f-string before rendering: literal text and
      formatted fields (value and format specification). *)

From Stdlib Require Import ZArith Bool List String Ascii Lia.
From Stdlib Require Import Floats.SpecFloat.
Import ListNotations.

Local Open Scope string_scope.
Local Open Scope list_scope.
Local Open Scope Z_scope.

(** ** Python values *)

Definition float := spec_float.

Definition prec : Z := 53.
Definition emax : Z := 1024.

(** Exceptions the run can meet.  [FileNotFoundError] and
    [PermissionError] are subclasses of [OSError]. *)
Inductive pyexn : Type :=
| OSError
| FileNotFoundError
| PermissionError
| ZeroDivisionError
| OverflowError
| AttributeError
| KeyError.

(** [isinstance(e, OSError)], what [except OSError] tests. *)
Definition is_OSError (e : pyexn) : bool :=
  match e with
  | OSError | FileNotFoundError | PermissionError => true
  | _ => false
  end.

Inductive result (A : Type) : Type :=
| Ok (a : A)
| Raise (e : pyexn).
Arguments Ok {A} a.
Arguments Raise {A} e.

(** ** Float arithmetic as Python performs it *)

(** [float(z)] for an [int] that converts without overflow. *)
Definition float_of_int (z : Z) : float := binary_normalize prec emax z 0 false.

(** [a / b] on two [int]s: the correctly rounded quotient.  The operands
    enter the IEEE division as the integers they are (exponent 0), so
    nothing is rounded before the quotient is. *)
Definition int_truediv (a b : Z) : result float :=
  match b with
  | Z0 => Raise ZeroDivisionError
  | _ =>
    match a with
    | Z0 => Ok (S754_zero (b <? 0))
    | _ =>
      match SFdiv prec emax
              (S754_finite (a <? 0) (Z.to_pos (Z.abs a)) 0)
              (S754_finite (b <? 0) (Z.to_pos (Z.abs b)) 0) with
      | S754_infinity _ => Raise OverflowError
      | q => Ok q
      end
    end
  end.

(** [x / y] on two [float]s: a zero divisor raises, anything else is the
    IEEE quotient. *)
Definition float_truediv (x y : float) : result float :=
  match y with
  | S754_zero _ => Raise ZeroDivisionError
  | _ => Ok (SFdiv prec emax x y)
  end.

Definition float_sub (x y : float) : float := SFsub prec emax x y.
Definition float_mul (x y : float) : float := SFmul prec emax x y.

(** [x > y] and [x < y]; both are [False] when an operand is NaN. *)
Definition float_gt (x y : float) : bool := SFltb y x.
Definition float_lt (x y : float) : bool := SFltb x y.
Definition float_le (x y : float) : bool := SFleb x y.

(** ** Printed lines *)

Inductive pyval : Type :=
| VStr (s : string)
| VInt (z : Z)
| VFloat (f : float)
| VNone.

(** A piece of an f-string: literal text, or a value with its format
    specification (the empty specification is [str(v)]). *)
Inductive fragment : Type :=
| Lit (s : string)
| Fmt (v : pyval) (spec : string).

Definition line : Type := list fragment.

Definition nl : string := String (ascii_of_nat 10) EmptyString.

(** ** The monad of a method body: output so far, and a value or an
    exception *)

Definition prog (A : Type) : Type := (list line * result A)%type.

Definition ret {A} (a : A) : prog A := ([], Ok a).

Definition bind {A B} (m : prog A) (k : A -> prog B) : prog B :=
  match m with
  | (o, Ok a) => let '(o', r) := k a in (o ++ o', r)
  | (o, Raise e) => (o, Raise e)
  end.

Definition print (l : line) : prog unit := ([l], Ok tt).

Definition call {A} (r : result A) : prog A := ([], r).

(** [try: body  except <class>: handler] *)
Definition try_except {A} (body : prog A) (catches : pyexn -> bool)
    (handler : prog A) : prog A :=
  match body with
  | (o, Raise e) =>
    if catches e then let '(o', r) := handler in (o ++ o', r) else (o, Raise e)
  | done => done
  end.

Declare Scope prog_scope.
Delimit Scope prog_scope with prog.
Notation "x <- m ;; k" := (bind m (fun x => k))
  (at level 61, m at next level, right associativity) : prog_scope.
Notation "m ;; k" := (bind m (fun _ => k))
  (at level 61, right associativity) : prog_scope.
Local Open Scope prog_scope.

Definition output {A} (p : prog A) : list line := fst p.
Definition outcome {A} (p : prog A) : result A := snd p.

(** ** The host *)

Record sdiskusage : Type := { du_total : Z; du_used : Z }.
Record scpufreq : Type := { current : float }.
Record svmem : Type := { vm_total : Z; vm_used : Z }.
Record snetio : Type :=
  { bytes_sent : Z; bytes_recv : Z; packets_sent : Z; packets_recv : Z }.
Record datetime : Type :=
  { day : Z; month : Z; year : Z; hour : Z; minute : Z; second : Z }.

Record Host : Type := {
  platform_platform : string;               (* platform.platform() *)
  uname_node : string;                      (* platform.uname().node *)
  getuser : result string;                  (* getpass.getuser() *)
  boot_time : result float;                 (* psutil.boot_time() *)
  fromtimestamp : float -> result datetime; (* datetime.fromtimestamp *)
  disk_usage : string -> result sdiskusage; (* psutil.disk_usage(path) *)
  cpu_freq : option scpufreq;               (* psutil.cpu_freq(), or None *)
  cpu_percent : Z -> float;                 (* psutil.cpu_percent(interval) *)
  cpu_count : option Z;                     (* psutil.cpu_count(logical=False) *)
  virtual_memory : nat -> svmem;            (* n-th psutil.virtual_memory() *)
  net_io_counters : snetio                  (* psutil.net_io_counters() *)
}.

(** ** class SystemCheck *)

Record SystemCheck : Type := { os : string }.

Definition init (h : Host) : SystemCheck := {| os := platform_platform h |}.

Definition startswith (s p : string) : bool := String.prefix p s.

Definition check_system_info (h : Host) (self : SystemCheck) : prog unit :=
  let machine_name := uname_node h in
  username <- call (getuser h) ;;
  boot_time_timestamp <- call (boot_time h) ;;
  bt <- call (fromtimestamp h boot_time_timestamp) ;;
  print [Lit "------SYSTEM INFORMATION------"] ;;
  print [Lit "OS: "; Fmt (VStr (os self)) ""] ;;
  print [Lit "Machine Name: "; Fmt (VStr machine_name) ""] ;;
  print [Lit "Logged in User: "; Fmt (VStr username) ""] ;;
  print [Lit "Boot Time: "; Fmt (VInt (day bt)) ""; Lit "/";
         Fmt (VInt (month bt)) ""; Lit "/"; Fmt (VInt (year bt)) ""; Lit " ";
         Fmt (VInt (hour bt)) ""; Lit ":"; Fmt (VInt (minute bt)) ""; Lit ":";
         Fmt (VInt (second bt)) ""; Lit nl].

(** The root directory the disk group asks about. *)
Definition root_path (self : SystemCheck) : string :=
  if startswith (os self) "Windows" then "C:" else "/".

Definition disk_warning : line :=
  [Lit "Warning: Available disk space is less than 20%."].

(** [disk[0]] *)
Definition first_char (s : string) : string :=
  match s with
  | String c _ => String c EmptyString
  | EmptyString => EmptyString
  end.

(** The four assignments both the disk and the memory method open with,
    [divisor] being [1024 ** 3] for the disk and [1024 ** 2] for memory:
<<
    total = <total bytes> / divisor
    used = <used bytes> / divisor
    free = total - used
    percentage_used = (used / total) * 100
>>
    [sizes] is the first three, [derive] all four. *)
Record usage : Type :=
  { total : float; used : float; free : float; percentage_used : float }.

Definition sizes (total_bytes used_bytes divisor : Z)
    : prog (float * float * float) :=
  total <- call (int_truediv total_bytes divisor) ;;
  used <- call (int_truediv used_bytes divisor) ;;
  let free := float_sub total used in
  ret (total, used, free).

Definition derive (total_bytes used_bytes divisor : Z) : prog usage :=
  s <- sizes total_bytes used_bytes divisor ;;
  let '(total, used, free) := s in
  ratio <- call (float_truediv used total) ;;
  let percentage_used := float_mul ratio (float_of_int 100) in
  ret {| total := total; used := used; free := free;
         percentage_used := percentage_used |}.

(** The body of the [try] block, from the query's answer on. *)
Definition disk_report (disk : string) (disk_usage : sdiskusage) : prog unit :=
  u <- derive (du_total disk_usage) (du_used disk_usage) (1024 ^ 3) ;;
  print [Lit "----------DISK USAGE----------"] ;;
  print [Lit "Disk: "; Fmt (VStr (first_char disk)) ""] ;;
  print [Lit "Total: "; Fmt (VFloat (total u)) ",.2f"; Lit "GB"] ;;
  print [Lit "Used : "; Fmt (VFloat (used u)) ",.2f"; Lit "GB"] ;;
  print [Lit "Free: "; Fmt (VFloat (free u)) ",.2f"; Lit "GB"] ;;
  print [Lit "% Disk used: "; Fmt (VFloat (percentage_used u)) ".2f"; Lit "%"] ;;
  (if float_gt (percentage_used u) (float_of_int 80)
   then print disk_warning else ret tt) ;;
  print [].

Definition check_disk_usage (h : Host) (self : SystemCheck) : prog unit :=
  let disk := root_path self in
  try_except
    (disk_usage <- call (disk_usage h disk) ;;
     disk_report disk disk_usage)
    is_OSError
    (print [Fmt (VStr disk) ""; Lit " does not exist."]).

Definition cpu_warning : line := [Lit "Warning: CPU Usage exceeds 80%"].

(** [psutil.cpu_freq().current]: attribute access on [None] raises. *)
Definition get_current (f : option scpufreq) : result float :=
  match f with
  | Some f => Ok (current f)
  | None => Raise AttributeError
  end.

Definition pyval_of_option_int (o : option Z) : pyval :=
  match o with
  | Some z => VInt z
  | None => VNone
  end.

Definition check_cpu_usage (h : Host) (self : SystemCheck) : prog unit :=
  cpu_frequency <- call (get_current (cpu_freq h)) ;;
  let cpu_usage := cpu_percent h 1 in
  let cpu_cores := cpu_count h in
  print [Lit "-----------CPU USAGE-----------"] ;;
  print [Lit "CPU Frequency: "; Fmt (VFloat cpu_frequency) ""] ;;
  print [Lit "Physical Cores: "; Fmt (pyval_of_option_int cpu_cores) ""] ;;
  print [Lit "CPU Usage: "; Fmt (VFloat cpu_usage) ""; Lit "%"] ;;
  (if float_gt cpu_usage (float_of_int 80)
   then print cpu_warning else ret tt) ;;
  print [].

Definition memory_warning : line :=
  [Lit "Warning: Available memory is less than 500MB"].

(** [psutil.virtual_memory()] is called twice: the total is read from the
    first answer and the used amount from the second. *)
Definition check_memory_usage (h : Host) (self : SystemCheck) : prog unit :=
  u <- derive (vm_total (virtual_memory h 0)) (vm_used (virtual_memory h 1))
         (1024 ^ 2) ;;
  print [Lit "---------MEMORY USAGE---------"] ;;
  print [Lit "Total: "; Fmt (VFloat (total u)) ",.2f"; Lit "MB"] ;;
  print [Lit "Used: "; Fmt (VFloat (used u)) ",.2f"; Lit "MB"] ;;
  print [Lit "Free: "; Fmt (VFloat (free u)) ",.2f"; Lit "MB"] ;;
  print [Lit "% Memory used: "; Fmt (VFloat (percentage_used u)) ".2f"; Lit "%"] ;;
  (if float_lt (free u) (float_of_int 500)
   then print memory_warning else ret tt) ;;
  print [].

Definition check_network_usage (h : Host) (self : SystemCheck) : prog unit :=
  let network_usage := net_io_counters h in
  mb_sent <- call (int_truediv (bytes_sent network_usage) (1024 ^ 2)) ;;
  mb_received <- call (int_truediv (bytes_recv network_usage) (1024 ^ 2)) ;;
  let packets_sent := packets_sent network_usage in
  let packets_received := packets_recv network_usage in
  print [Lit "---------NETWORK USAGE---------"] ;;
  print [Lit "MB sent: "; Fmt (VFloat mb_sent) ",.2f"] ;;
  print [Lit "MB received: "; Fmt (VFloat mb_received) ",.2f"; Lit nl] ;;
  print [Lit "Packets sent: "; Fmt (VInt packets_sent) ",d"] ;;
  print [Lit "Packets received: "; Fmt (VInt packets_received) ",d"; Lit nl].

(** The script body under [if __name__ == '__main__']. *)
Definition main (h : Host) : prog unit :=
  let system_check := init h in
  check_system_info h system_check ;;
  check_disk_usage h system_check ;;
  check_cpu_usage h system_check ;;
  check_memory_usage h system_check ;;
  check_network_usage h system_check.

(** ** Quantities the properties are stated with *)

(** [sub in s]: [sub] occurs somewhere in [s]. *)
Fixpoint contains (s sub : string) : bool :=
  String.prefix sub s ||
  match s with
  | EmptyString => false
  | String _ s' => contains s' sub
  end.

(** The percentage taken on the byte counters themselves, with no unit
    conversion: [used_bytes / total_bytes * 100]. *)
Definition raw_percentage (total_bytes used_bytes : Z) : prog float :=
  ratio <- call (int_truediv used_bytes total_bytes) ;;
  ret (float_mul ratio (float_of_int 100)).

(** A run that ends without an exception. *)
Definition completes {A} (p : prog A) : Prop := exists a, outcome p = Ok a.

(** The float [f] is the rational [n / d], with nothing rounded away
    ([n >= 0], [d > 0]). *)
Definition exact_quotient (f : float) (n d : Z) : Prop :=
  match f with
  | S754_zero _ => n = 0
  | S754_finite false m e => e <= 0 /\ Zpos m * d = n * 2 ^ (- e)
  | _ => False
  end.

(** ** Sample hosts *)

Definition GiB : Z := 1024 ^ 3.
Definition MiB : Z := 1024 ^ 2.

(** A Linux machine: 80 GiB of a 100 GiB disk used, the processor 80%
    busy, 524 MiB of 1024 MiB of memory used. *)
Definition linux_host : Host := {|
  platform_platform := "Linux-6.1.0-18-amd64-x86_64-with-glibc2.36";
  uname_node := "build01";
  getuser := Ok "alice";
  boot_time := Ok (float_of_int 1700000000);
  fromtimestamp := fun _ =>
    Ok {| day := 14; month := 11; year := 2023;
          hour := 22; minute := 13; second := 20 |};
  disk_usage := fun _ => Ok {| du_total := 100 * GiB; du_used := 80 * GiB |};
  cpu_freq := Some {| current := float_of_int 2400 |};
  cpu_percent := fun _ => float_of_int 80;
  cpu_count := Some 4;
  virtual_memory := fun _ => {| vm_total := 1024 * MiB; vm_used := 524 * MiB |};
  net_io_counters :=
    {| bytes_sent := 123456789; bytes_recv := 987654321;
       packets_sent := 120000; packets_recv := 340000 |}
|}.

Definition with_platform (h : Host) (name : string) : Host := {|
  platform_platform := name;
  uname_node := uname_node h; getuser := getuser h; boot_time := boot_time h;
  fromtimestamp := fromtimestamp h; disk_usage := disk_usage h;
  cpu_freq := cpu_freq h; cpu_percent := cpu_percent h; cpu_count := cpu_count h;
  virtual_memory := virtual_memory h; net_io_counters := net_io_counters h
|}.

Definition with_getuser (h : Host) (r : result string) : Host := {|
  platform_platform := platform_platform h;
  uname_node := uname_node h; getuser := r; boot_time := boot_time h;
  fromtimestamp := fromtimestamp h; disk_usage := disk_usage h;
  cpu_freq := cpu_freq h; cpu_percent := cpu_percent h; cpu_count := cpu_count h;
  virtual_memory := virtual_memory h; net_io_counters := net_io_counters h
|}.

Definition with_disk (h : Host) (r : result sdiskusage) : Host := {|
  platform_platform := platform_platform h;
  uname_node := uname_node h; getuser := getuser h; boot_time := boot_time h;
  fromtimestamp := fromtimestamp h; disk_usage := fun _ => r;
  cpu_freq := cpu_freq h; cpu_percent := cpu_percent h; cpu_count := cpu_count h;
  virtual_memory := virtual_memory h; net_io_counters := net_io_counters h
|}.

Definition with_cpu_freq (h : Host) (f : option scpufreq) : Host := {|
  platform_platform := platform_platform h;
  uname_node := uname_node h; getuser := getuser h; boot_time := boot_time h;
  fromtimestamp := fromtimestamp h; disk_usage := disk_usage h;
  cpu_freq := f; cpu_percent := cpu_percent h; cpu_count := cpu_count h;
  virtual_memory := virtual_memory h; net_io_counters := net_io_counters h
|}.

Definition with_memory (h : Host) (m : svmem) : Host := {|
  platform_platform := platform_platform h;
  uname_node := uname_node h; getuser := getuser h; boot_time := boot_time h;
  fromtimestamp := fromtimestamp h; disk_usage := disk_usage h;
  cpu_freq := cpu_freq h; cpu_percent := cpu_percent h; cpu_count := cpu_count h;
  virtual_memory := fun _ => m; net_io_counters := net_io_counters h
|}.

(** Hosts that answer a zero total, a missing root directory, no user
    name, no CPU frequency. *)
Definition zero_memory_host : Host :=
  with_memory linux_host {| vm_total := 0; vm_used := 0 |}.

Definition zero_disk_host : Host :=
  with_disk linux_host (Ok {| du_total := 0; du_used := 0 |}).

Definition zero_totals_host : Host :=
  with_memory zero_disk_host {| vm_total := 0; vm_used := 0 |}.


Definition no_user_host : Host := with_getuser linux_host (Raise KeyError).

Definition no_freq_host : Host := with_cpu_freq linux_host None.

(** The same machine with 85 GiB, and with 90 GiB, of the disk used. *)
Definition disk_85_host : Host :=
  with_disk linux_host (Ok {| du_total := 100 * GiB; du_used := 85 * GiB |}).

Definition disk_90_host : Host :=
  with_disk linux_host (Ok {| du_total := 100 * GiB; du_used := 90 * GiB |}).

(** The same machine with 600 MiB, and with 700 MiB, of the memory used. *)
Definition memory_600_host : Host :=
  with_memory linux_host {| vm_total := 1024 * MiB; vm_used := 600 * MiB |}.

Definition memory_700_host : Host :=
  with_memory linux_host {| vm_total := 1024 * MiB; vm_used := 700 * MiB |}.

(** A volume of 5 * 10^15 + 1 bytes with 4 * 10^15 + 1 used: a little more
    than four fifths. *)
Definition petabyte_host : Host :=
  with_disk linux_host
    (Ok {| du_total := 5 * 10 ^ 15 + 1; du_used := 4 * 10 ^ 15 + 1 |}).

(** What [platform.platform()] answers under Cygwin. *)
Definition cygwin_platform : string :=
  "CYGWIN_NT-10.0-19045-3.4.10-1.x86_64-x86_64-64bit-WindowsPE".

(** A volume of 2^63 + 1024 bytes, a little over 80% used. *)
Definition huge_disk : sdiskusage :=
  {| du_total := 2 ^ 63 + 1024; du_used := 7205759403792795 * 1024 |}.

(** ** Rounding, as the IEEE operations perform it

    The operations round a positive rational [N / D], scaled by a power of
    two, to the nearest 53-bit integer, ties to even.  [loc_of] is where
    the remainder lies within one unit, [rne_div] the rounded quotient,
    [finalize] the last step of [binary_round_aux] (one more shift when the
    rounding carried into a 54th bit), [nround] its value on a quotient
    already 53 bits wide, and [conv] the float nearest to [n / 2 ^ k]. *)

Definition loc_of (r D : Z) : location :=
  if r =? 0 then loc_Exact else loc_Inexact (2 * r ?= D).

Definition represents (mrs : shr_record) (N D : Z) : Prop :=
  shr_m mrs = N / D /\ loc_of_shr_record mrs = loc_of (N mod D) D.

Definition rne_div (N D : Z) : Z :=
  round_nearest_even (N / D) (loc_of (N mod D) D).

Definition finalize (m e : Z) : float :=
  let '(mrs, e') := shr_fexp prec emax m e loc_Exact in
  match shr_m mrs with
  | Z0 => S754_zero false
  | Zpos p => if e' <=? emax - prec then S754_finite false p e' else S754_infinity false
  | Zneg _ => S754_nan
  end.

Definition nround (N D e : Z) : float :=
  let m := rne_div N D in
  if m <? 2 ^ 53 then S754_finite false (Z.to_pos m) e
  else S754_finite false (Z.to_pos (2 ^ 52)) (e + 1).

Definition conv (n k : Z) : float :=
  nround (n * 2 ^ (64 - Zdigits2 n)) (2 ^ 11) (Zdigits2 n - 53 - k).

(** [n / 2 ^ k] for a counter [n], zero included. *)
Definition scaled (n k : Z) : float :=
  if n =? 0 then S754_zero false else conv n k.

(** The value [percentage_used] takes on counters [t] and [u] with the
    divisor [2 ^ k]. *)
Definition percentage_of (t u k : Z) : float :=
  float_mul (SFdiv prec emax (scaled u k) (scaled t k)) (float_of_int 100).

(** Whether a method returned. *)
Definition ok {A} (p : prog A) : bool :=
  match outcome p with
  | Ok _ => true
  | Raise _ => false
  end.

(** The three warning lines. *)
Definition is_warning (l : line) : Prop :=
  l = disk_warning \/ l = cpu_warning \/ l = memory_warning.

(** ** Facts about rounding *)

(** *** Counting bits *)

Lemma digits2_pos_bounds (p : positive) :
  2 ^ (Zpos (digits2_pos p) - 1) <= Zpos p < 2 ^ Zpos (digits2_pos p).
Proof.
  induction p as [p IH | p IH |]; cbn [digits2_pos].
  - rewrite Pos2Z.inj_succ, (Pos2Z.inj_xI p).
    replace (Z.succ (Zpos (digits2_pos p)) - 1) with (Z.succ (Zpos (digits2_pos p) - 1)) by lia.
    rewrite !Z.pow_succ_r by lia.
    destruct IH as [IH1 IH2]. revert IH1 IH2.
    generalize (2 ^ (Zpos (digits2_pos p) - 1)) (2 ^ Zpos (digits2_pos p)). lia.
  - rewrite Pos2Z.inj_succ, (Pos2Z.inj_xO p).
    replace (Z.succ (Zpos (digits2_pos p)) - 1) with (Z.succ (Zpos (digits2_pos p) - 1)) by lia.
    rewrite !Z.pow_succ_r by lia.
    destruct IH as [IH1 IH2]. revert IH1 IH2.
    generalize (2 ^ (Zpos (digits2_pos p) - 1)) (2 ^ Zpos (digits2_pos p)). lia.
  - simpl. lia.
Qed.

Lemma Zdigits2_bounds (m : Z) :
  0 < m -> 2 ^ (Zdigits2 m - 1) <= m < 2 ^ Zdigits2 m.
Proof.
  destruct m as [|p|p]; try lia. intros _. apply digits2_pos_bounds.
Qed.

Lemma Zdigits2_pos (m : Z) : 0 < m -> 0 < Zdigits2 m.
Proof. destruct m; simpl; lia. Qed.

Lemma Zdigits2_unique (m d : Z) :
  2 ^ (d - 1) <= m < 2 ^ d -> 0 < m -> Zdigits2 m = d.
Proof.
  intros Hd Hm.
  pose proof (Zdigits2_bounds m Hm) as Hb.
  pose proof (Zdigits2_pos m Hm) as Hp.
  assert (0 < d).
  { destruct (Z_lt_le_dec 0 d) as [|Hle]; [assumption|].
    destruct (Z.eq_dec d 0) as [->|]. simpl in Hd. lia.
    rewrite (Z.pow_neg_r 2 d) in Hd by lia. lia. }
  destruct (Z.lt_trichotomy (Zdigits2 m) d) as [Hlt | [Heq | Hgt]]; [|assumption|].
  - assert (2 ^ Zdigits2 m <= 2 ^ (d - 1)) by (apply Z.pow_le_mono_r; lia). lia.
  - assert (2 ^ d <= 2 ^ (Zdigits2 m - 1)) by (apply Z.pow_le_mono_r; lia). lia.
Qed.

(** *** Shifting right with a round bit and a sticky bit *)

Lemma loc_of_record_of_loc (m : Z) (l : location) :
  loc_of_shr_record (shr_record_of_loc m l) = l.
Proof. destruct l as [|[]]; reflexivity. Qed.

Lemma shr_1_represents (mrs : shr_record) (N D : Z) :
  0 < D -> 0 <= N -> represents mrs N D -> represents (shr_1 mrs) N (2 * D).
Proof.
  intros HD HN [Hm Hl].
  pose proof (Z.div_mod N D ltac:(lia)) as Hdm.
  pose proof (Z.mod_pos_bound N D HD) as Hr.
  assert (Hq : 0 <= N / D) by (apply Z.div_pos; lia).
  set (q := N / D) in *. set (r := N mod D) in *.
  assert (Hdiv : N / (2 * D) = q / 2).
  { rewrite Z.mul_comm. rewrite <- Z.div_div by lia. reflexivity. }
  assert (Hmod : N mod (2 * D) = (q mod 2) * D + r).
  { pose proof (Z.div_mod N (2 * D) ltac:(lia)) as H2. rewrite Hdiv in H2.
    pose proof (Z.div_mod q 2 ltac:(lia)). nia. }
  unfold represents. rewrite Hdiv, Hmod.
  destruct mrs as [m rb sb]. simpl in Hm. subst m.
  assert (Hloc : orb rb sb = negb (r =? 0)).
  { unfold loc_of in Hl. destruct (r =? 0); destruct rb, sb; simpl in Hl; try discriminate; reflexivity. }
  pose proof (Z.mod_pos_bound q 2 ltac:(lia)) as Hq2.
  pose proof (Z.div_mod q 2 ltac:(lia)) as Hq2'.
  unfold shr_1.
  destruct q as [|[p|p|]|p]; try lia; cbn [shr_m loc_of_shr_record]; rewrite Hloc.
  - (* 0 *) split; [reflexivity|]. change (0 mod 2) with 0. unfold loc_of.
    replace (0 * D + r) with r by lia. destruct (Z.eqb_spec r 0); cbn [negb]; [reflexivity|].
    f_equal. symmetry. apply Z.compare_lt_iff. lia.
  - (* xI *) split. { rewrite (Pos2Z.inj_xI p). apply Z.div_unique with 1; lia. }
    assert (Zpos p~1 mod 2 = 1) as ->. { rewrite (Pos2Z.inj_xI p). symmetry. apply Z.mod_unique with (Zpos p); lia. }
    unfold loc_of. destruct (Z.eqb_spec (1 * D + r) 0); [lia|].
    destruct (Z.eqb_spec r 0); cbn [negb]; f_equal; symmetry.
    + apply Z.compare_eq_iff. lia.
    + apply Z.compare_gt_iff. lia.
  - (* xO *) split. { rewrite (Pos2Z.inj_xO p). apply Z.div_unique with 0; lia. }
    assert (Zpos p~0 mod 2 = 0) as ->. { rewrite (Pos2Z.inj_xO p). symmetry. apply Z.mod_unique with (Zpos p); lia. }
    unfold loc_of. replace (0 * D + r) with r by lia.
    destruct (Z.eqb_spec r 0); cbn [negb]; [reflexivity|].
    f_equal. symmetry. apply Z.compare_lt_iff. lia.
  - (* 1 *) split; [reflexivity|]. change (1 mod 2) with 1.
    unfold loc_of. destruct (Z.eqb_spec (1 * D + r) 0); [lia|].
    destruct (Z.eqb_spec r 0); cbn [negb]; f_equal; symmetry.
    + apply Z.compare_eq_iff. lia.
    + apply Z.compare_gt_iff. lia.
Qed.

Lemma iter_shr_1_represents (p : positive) :
  forall (mrs : shr_record) (N D : Z),
    0 < D -> 0 <= N -> represents mrs N D ->
    represents (iter_pos shr_1 p mrs) N (D * 2 ^ Zpos p).
Proof.
  induction p as [p IH | p IH |]; intros mrs N D HD HN H; cbn [iter_pos].
  - assert (Hp : 0 < 2 ^ Zpos p) by (apply Z.pow_pos_nonneg; lia).
    replace (D * 2 ^ Zpos p~1) with ((2 * D) * 2 ^ Zpos p * 2 ^ Zpos p).
    2:{ rewrite (Pos2Z.inj_xI p), Z.pow_add_r, Z.pow_twice_r by lia. change (2 ^ 1) with 2. ring. }
    apply IH; [nia | lia |]. apply IH; [lia | lia |].
    apply shr_1_represents; assumption.
  - assert (Hp : 0 < 2 ^ Zpos p) by (apply Z.pow_pos_nonneg; lia).
    replace (D * 2 ^ Zpos p~0) with (D * 2 ^ Zpos p * 2 ^ Zpos p).
    2:{ rewrite (Pos2Z.inj_xO p), Z.pow_twice_r by lia. ring. }
    apply IH; [nia | lia |]. apply IH; assumption.
  - replace (D * 2 ^ 1) with (2 * D) by lia. apply shr_1_represents; assumption.
Qed.

Lemma shr_represents (mrs : shr_record) (e n N D : Z) :
  0 < D -> 0 <= N -> represents mrs N D ->
  represents (fst (shr mrs e n)) N (D * 2 ^ Z.max n 0) /\
  snd (shr mrs e n) = e + Z.max n 0.
Proof.
  intros HD HN H. destruct n as [|p|p]; cbn [shr fst snd].
  - change (Z.max 0 0) with 0. rewrite Z.mul_1_r, Z.add_0_r. split; [assumption | reflexivity].
  - rewrite Z.max_l by lia. split; [|reflexivity].
    apply iter_shr_1_represents; assumption.
  - rewrite Z.max_r by lia. rewrite Z.mul_1_r, Z.add_0_r. split; [assumption | reflexivity].
Qed.

Lemma binary_round_aux_rne (m e : Z) (l : location) (N D n : Z) :
  0 < D -> 0 <= N -> m = N / D -> l = loc_of (N mod D) D ->
  n = Z.max (fexp prec emax (Zdigits2 m + e) - e) 0 ->
  binary_round_aux prec emax false m e l = finalize (rne_div N (D * 2 ^ n)) (e + n).
Proof.
  intros HD HN Hm Hl Hn.
  assert (Hrep : represents (shr_record_of_loc m l) N D).
  { split; [destruct l as [|[]]; exact Hm | rewrite loc_of_record_of_loc; exact Hl]. }
  destruct (shr_represents (shr_record_of_loc m l) e
              (fexp prec emax (Zdigits2 m + e) - e) N D HD HN Hrep) as [[H1 H2] H3].
  rewrite <- Hn in H1, H2, H3.
  unfold binary_round_aux. unfold shr_fexp at 1.
  destruct (shr (shr_record_of_loc m l) e (fexp prec emax (Zdigits2 m + e) - e)) as [mrs' e'].
  cbn [fst snd] in H1, H2, H3. subst e'.
  unfold rne_div. rewrite <- H1, <- H2. reflexivity.
Qed.

(** *** Rounding to nearest, ties to even *)

Lemma rne_div_cases (N D : Z) :
  0 < D -> 0 <= N ->
  let q := N / D in let r := N mod D in
  N = D * q + r /\ 0 <= r < D /\ 0 <= q /\
  ((rne_div N D = q /\ (2 * r < D \/ (2 * r = D /\ Z.even q = true))) \/
   (rne_div N D = q + 1 /\ (D < 2 * r \/ (2 * r = D /\ Z.even q = false)))).
Proof.
  intros HD HN q r.
  pose proof (Z.div_mod N D ltac:(lia)) as Hdm.
  pose proof (Z.mod_pos_bound N D HD) as Hr.
  assert (Hq : 0 <= N / D) by (apply Z.div_pos; lia).
  fold q in Hdm, Hq. fold r in Hdm, Hr.
  repeat split; try assumption; try lia.
  unfold rne_div, loc_of, round_nearest_even. fold q. fold r.
  destruct (Z.eqb_spec r 0) as [Hr0|Hr0].
  - left. split; [reflexivity | lia].
  - destruct (Z.compare_spec (2 * r) D) as [He|Hl|Hg].
    + destruct (Z.even q) eqn:Hev; [left | right]; (split; [reflexivity | lia]).
    + left. split; [reflexivity | lia].
    + right. split; [reflexivity | lia].
Qed.

Lemma rne_div_range (N D : Z) :
  0 < D -> 0 <= N -> N / D <= rne_div N D <= N / D + 1.
Proof.
  intros HD HN. destruct (rne_div_cases N D HD HN) as (_ & _ & _ & [[-> _] | [-> _]]); lia.
Qed.

Lemma rne_div_exact (k D : Z) : 0 < D -> 0 <= k -> rne_div (k * D) D = k.
Proof.
  intros HD Hk. unfold rne_div.
  rewrite Z.div_mul, Z.mod_mul by lia. reflexivity.
Qed.

Lemma rne_div_mono (N1 D1 N2 D2 : Z) :
  0 < D1 -> 0 < D2 -> 0 <= N1 -> N1 * D2 <= N2 * D1 ->
  rne_div N1 D1 <= rne_div N2 D2.
Proof.
  intros HD1 HD2 HN1 Hle.
  assert (HN2 : 0 <= N2) by nia.
  destruct (rne_div_cases N1 D1 HD1 HN1) as (E1 & R1 & Q1 & C1).
  destruct (rne_div_cases N2 D2 HD2 HN2) as (E2 & R2 & Q2 & C2).
  set (q1 := N1 / D1) in *. set (r1 := N1 mod D1) in *.
  set (q2 := N2 / D2) in *. set (r2 := N2 mod D2) in *.
  clearbody q1 r1 q2 r2.
  assert (Hq : q1 <= q2).
  { destruct (Z_le_gt_dec q1 q2) as [|Hgt]; [assumption|exfalso].
    assert (q2 + 1 <= q1) by lia.
    assert (D1 * D2 * (q2 + 1) <= D1 * D2 * q1) by (apply Z.mul_le_mono_nonneg_l; nia).
    nia. }
  destruct (Z.eq_dec q1 q2) as [Heq|Hne].
  - subst q2.
    assert (Hr : r1 * D2 <= r2 * D1) by nia.
    destruct C1 as [[-> _] | [-> H1]].
    + destruct C2 as [[-> _] | [-> _]]; lia.
    + destruct C2 as [[-> H2] | [-> _]]; [exfalso | lia].
      destruct H1 as [H1 | [H1 Ho]]; destruct H2 as [H2 | [H2 He]]; try nia.
      congruence.
  - destruct C1 as [[-> _] | [-> _]]; destruct C2 as [[-> _] | [-> _]]; lia.
Qed.

Lemma rne_div_scale (N D c : Z) :
  0 < D -> 0 < c -> 0 <= N -> rne_div (N * c) (D * c) = rne_div N D.
Proof.
  intros HD Hc HN. apply Z.le_antisymm; apply rne_div_mono; nia.
Qed.

Lemma rne_div_le (N D M : Z) :
  0 < D -> 0 <= N -> N <= M * D -> rne_div N D <= M.
Proof.
  intros HD HN H.
  assert (0 <= M) by nia.
  apply Z.le_trans with (rne_div (M * 1) 1).
  - apply rne_div_mono; nia.
  - rewrite rne_div_exact; lia.
Qed.

Lemma rne_div_ge (N D M : Z) :
  0 < D -> 0 <= M -> M * D <= N -> M <= rne_div N D.
Proof.
  intros HD HM H.
  apply Z.le_trans with (rne_div (M * 1) 1).
  - rewrite rne_div_exact; lia.
  - apply rne_div_mono; nia.
Qed.

Lemma finalize_normal (N D e : Z) :
  0 < D -> 2 ^ 52 * D <= N < 2 ^ 53 * D -> -1074 <= e <= 970 ->
  finalize (rne_div N D) e = nround N D e.
Proof.
  intros HD HN He.
  assert (H52 : 2 ^ 52 <= rne_div N D) by (apply rne_div_ge; lia).
  assert (H53 : rne_div N D <= 2 ^ 53) by (apply rne_div_le; lia).
  unfold nround, finalize, shr_fexp. cbv zeta.
  destruct (Z.ltb_spec (rne_div N D) (2 ^ 53)) as [Hlt|Hge].
  - rewrite (Zdigits2_unique (rne_div N D) 53) by (change (53 - 1) with 52; lia).
    replace (fexp prec emax (53 + e) - e) with 0 by (unfold fexp, emin, prec, emax; lia).
    cbn [shr shr_record_of_loc shr_m].
    destruct (rne_div N D) as [|p|p] eqn:E; try lia.
    destruct (Z.leb_spec e (emax - prec)) as [|Hov]; [reflexivity|].
    unfold emax, prec in Hov. lia.
  - assert (E : rne_div N D = 2 ^ 53) by lia. rewrite E.
    change (Zdigits2 (2 ^ 53)) with 54.
    replace (fexp prec emax (54 + e) - e) with 1 by (unfold fexp, emin, prec, emax; lia).
    cbn [shr shr_record_of_loc iter_pos]. cbn [shr_1 Z.pow Z.pow_pos Pos.iter Z.mul Pos.mul shr_m].
    destruct (Z.leb_spec (e + 1) (emax - prec)) as [|Hov]; [reflexivity|].
    unfold emax, prec in Hov. lia.
Qed.

(** *** Division *)

Lemma new_location_loc_of (D r : Z) : new_location D r = loc_of r D.
Proof.
  unfold new_location, new_location_even, new_location_odd, loc_of.
  destruct (Z.even D) eqn:Hev; [reflexivity|].
  destruct (r =? 0); [reflexivity|]. f_equal.
  assert (Hne : 2 * r <> D).
  { intros <-. rewrite Z.even_mul in Hev. discriminate. }
  destruct (Z.compare_spec (2 * r + 1) D); destruct (Z.compare_spec (2 * r) D);
    try reflexivity; lia.
Qed.

Lemma SFdiv_nround (mx my : positive) (ex ey : Z) :
  let d1 := Zpos (digits2_pos mx) in
  let d2 := Zpos (digits2_pos my) in
  let e' := d1 + ex - (d2 + ey) - 53 in
  let N := Zpos mx * 2 ^ (53 + d2 - d1) in
  let n := if 2 ^ 53 <=? N / Zpos my then 1 else 0 in
  d1 <= d2 + 53 -> -1074 <= e' <= 969 ->
  SFdiv prec emax (S754_finite false mx ex) (S754_finite false my ey) =
  nround N (Zpos my * 2 ^ n) (e' + n).
Proof.
  intros d1 d2 e' N n Hd He.
  pose proof (digits2_pos_bounds mx) as Bx. pose proof (digits2_pos_bounds my) as By.
  fold d1 in Bx. fold d2 in By.
  assert (Hs : 0 <= 53 + d2 - d1) by lia.
  assert (HS : 2 ^ (d1 - 1) * 2 ^ (53 + d2 - d1) = 2 ^ 53 * 2 ^ (d2 - 1)).
  { rewrite <- !Z.pow_add_r by (unfold d1, d2; lia). f_equal. lia. }
  assert (Hd1 : 2 ^ d1 = 2 * 2 ^ (d1 - 1)).
  { rewrite <- Z.pow_succ_r by (unfold d1; lia). f_equal. lia. }
  assert (Hd2 : 2 ^ d2 = 2 * 2 ^ (d2 - 1)).
  { rewrite <- Z.pow_succ_r by (unfold d2; lia). f_equal. lia. }
  assert (HB : 0 < 2 ^ (d2 - 1)) by (apply Z.pow_pos_nonneg; unfold d2; lia).
  assert (HSp : 0 < 2 ^ (53 + d2 - d1)) by (apply Z.pow_pos_nonneg; lia).
  rewrite Hd1 in Bx. rewrite Hd2 in By.
  assert (HN : 2 ^ 53 * 2 ^ (d2 - 1) <= N < 2 ^ 54 * 2 ^ (d2 - 1)).
  { unfold N. revert HS Bx HSp HB. 
    generalize (2 ^ (d1 - 1)) (2 ^ (53 + d2 - d1)) (2 ^ (d2 - 1)). intros A S B. nia. }
  assert (Hq : 2 ^ 52 <= N / Zpos my < 2 ^ 54).
  { split.
    - apply Z.div_le_lower_bound; [lia|]. revert HN By. generalize (2 ^ (d2 - 1)). intros; nia.
    - apply Z.div_lt_upper_bound; [lia|]. revert HN By. generalize (2 ^ (d2 - 1)). intros; nia. }
  pose proof (Z.div_mod N (Zpos my) ltac:(lia)) as Hdm.
  pose proof (Z.mod_pos_bound N (Zpos my) ltac:(lia)) as Hr.
  unfold SFdiv, SFdiv_core_binary. cbn [xorb Zdigits2]. fold d1. fold d2.
  replace (Z.min (fexp prec emax (d1 + ex - (d2 + ey))) (ex - ey)) with e'
    by (unfold fexp, emin, prec, emax, e'; lia).
  replace (ex - ey - e') with (53 + d2 - d1) by (unfold e'; lia).
  assert (Hm' : match 53 + d2 - d1 with
                | Z0 => Zpos mx
                | Zpos _ => Z.shiftl (Zpos mx) (53 + d2 - d1)
                | Zneg _ => 0
                end = N).
  { unfold N. destruct (53 + d2 - d1) as [|s|s] eqn:Es; try lia.
    rewrite Z.shiftl_mul_pow2 by lia. reflexivity. }
  rewrite Hm'.
  assert (Hde : Z.div_eucl N (Zpos my) = (N / Zpos my, N mod Zpos my)).
  { unfold Z.div, Z.modulo. destruct (Z.div_eucl N (Zpos my)); reflexivity. }
  rewrite Hde. rewrite new_location_loc_of.
  rewrite (binary_round_aux_rne (N / Zpos my) e' (loc_of (N mod Zpos my) (Zpos my)) N (Zpos my) n);
    try reflexivity; try lia.
  - apply finalize_normal.
    + unfold n. destruct (2 ^ 53 <=? N / Zpos my); lia.
    + unfold n. destruct (Z.leb_spec (2 ^ 53) (N / Zpos my)) as [Hge|Hlt].
      * change (2 ^ 1) with 2. revert HN By. generalize (2 ^ (d2 - 1)). intros; nia.
      * change (2 ^ 0) with 1. nia.
    + unfold n. destruct (2 ^ 53 <=? N / Zpos my); lia.
  - unfold n. destruct (Z.leb_spec (2 ^ 53) (N / Zpos my)) as [Hge|Hlt].
    + rewrite (Zdigits2_unique (N / Zpos my) 54) by (change (54 - 1) with 53; lia).
      unfold fexp, emin, prec, emax. lia.
    + rewrite (Zdigits2_unique (N / Zpos my) 53) by (change (53 - 1) with 52; lia).
      unfold fexp, emin, prec, emax. lia.
Qed.

(** *** Order on positive floats *)

Lemma SFleb_finite (m1 m2 : positive) (e1 e2 : Z) :
  SFleb (S754_finite false m1 e1) (S754_finite false m2 e2) = true <->
  e1 < e2 \/ (e1 = e2 /\ Zpos m1 <= Zpos m2).
Proof.
  unfold SFleb, SFcompare.
  destruct (Z.compare_spec e1 e2) as [He|He|He].
  - change (Pos.compare_cont Eq m1 m2) with (Pos.compare m1 m2).
    destruct (Pos.compare_spec m1 m2) as [Hm|Hm|Hm]; split; intros H; try discriminate;
      try reflexivity; try lia.
  - split; [intros _; lia | reflexivity].
  - split; [discriminate | lia].
Qed.

Lemma SFltb_finite (m1 m2 : positive) (e1 e2 : Z) :
  SFltb (S754_finite false m1 e1) (S754_finite false m2 e2) = true <->
  e1 < e2 \/ (e1 = e2 /\ Zpos m1 < Zpos m2).
Proof.
  unfold SFltb, SFcompare.
  destruct (Z.compare_spec e1 e2) as [He|He|He].
  - change (Pos.compare_cont Eq m1 m2) with (Pos.compare m1 m2).
    destruct (Pos.compare_spec m1 m2) as [Hm|Hm|Hm]; split; intros H; try discriminate;
      try reflexivity; try lia.
  - split; [intros _; lia | reflexivity].
  - split; [discriminate | lia].
Qed.

(** What a rounded normal number looks like. *)
Lemma nround_finite (N D e : Z) :
  0 < D -> 2 ^ 52 * D <= N < 2 ^ 53 * D ->
  exists (m : positive) (e' : Z),
    nround N D e = S754_finite false m e' /\
    2 ^ 52 <= Zpos m < 2 ^ 53 /\
    ((e' = e /\ Zpos m = rne_div N D) \/
     (e' = e + 1 /\ Zpos m = 2 ^ 52 /\ rne_div N D = 2 ^ 53)).
Proof.
  intros HD HN.
  assert (H52 : 2 ^ 52 <= rne_div N D) by (apply rne_div_ge; lia).
  assert (H53 : rne_div N D <= 2 ^ 53) by (apply rne_div_le; lia).
  unfold nround. cbv zeta. destruct (Z.ltb_spec (rne_div N D) (2 ^ 53)) as [Hlt|Hge].
  - exists (Z.to_pos (rne_div N D)), e. rewrite Z2Pos.id by lia.
    split; [reflexivity|]. split; [lia|]. left. split; reflexivity.
  - exists (Z.to_pos (2 ^ 52)), (e + 1). rewrite Z2Pos.id by lia.
    split; [reflexivity|]. split; [lia|]. right. repeat split; lia.
Qed.

Lemma nround_scale (N D c e : Z) :
  0 < D -> 0 < c -> 0 <= N -> nround (N * c) (D * c) e = nround N D e.
Proof. intros. unfold nround. rewrite rne_div_scale by assumption. reflexivity. Qed.

Lemma nround_le (N1 D1 e1 N2 D2 e2 : Z) :
  0 < D1 -> 2 ^ 52 * D1 <= N1 < 2 ^ 53 * D1 ->
  0 < D2 -> 2 ^ 52 * D2 <= N2 < 2 ^ 53 * D2 ->
  e1 < e2 \/ (e1 = e2 /\ N1 * D2 <= N2 * D1) ->
  SFleb (nround N1 D1 e1) (nround N2 D2 e2) = true.
Proof.
  intros HD1 HN1 HD2 HN2 Hle.
  destruct (nround_finite N1 D1 e1 HD1 HN1) as (m1 & e1' & -> & B1 & C1).
  destruct (nround_finite N2 D2 e2 HD2 HN2) as (m2 & e2' & -> & B2 & C2).
  apply SFleb_finite.
  destruct Hle as [Hlt | [Heq Hle]].
  - destruct C1 as [[-> E1] | (-> & E1 & _)]; destruct C2 as [[-> E2] | (-> & E2 & _)]; lia.
  - subst e2.
    assert (Hm : rne_div N1 D1 <= rne_div N2 D2) by (apply rne_div_mono; lia).
    destruct C1 as [[-> E1] | (-> & E1 & F1)]; destruct C2 as [[-> E2] | (-> & E2 & F2)]; lia.
Qed.

Lemma nround_le_finite (N D e : Z) (M : positive) (E : Z) :
  0 < D -> 2 ^ 52 * D <= N < 2 ^ 53 * D ->
  2 ^ 52 <= Zpos M < 2 ^ 53 ->
  e < E \/ (e = E /\ N <= Zpos M * D) ->
  SFleb (nround N D e) (S754_finite false M E) = true.
Proof.
  intros HD HN HM Hle.
  replace (S754_finite false M E) with (nround (Zpos M) 1 E).
  - apply nround_le; lia.
  - unfold nround. replace (rne_div (Zpos M) 1) with (Zpos M).
    + cbv zeta. destruct (Z.ltb_spec (Zpos M) (2 ^ 53)); [reflexivity | lia].
    + symmetry. rewrite <- (Z.mul_1_r (Zpos M)) at 1. apply rne_div_exact; lia.
Qed.

(** *** Division of integers *)

Lemma int_truediv_pos (a b : positive) :
  int_truediv (Zpos a) (Zpos b) =
  match SFdiv prec emax (S754_finite false a 0) (S754_finite false b 0) with
  | S754_infinity _ => Raise OverflowError
  | q => Ok q
  end.
Proof. reflexivity. Qed.

Lemma int_truediv_nround (a b : positive) :
  let d1 := Zpos (digits2_pos a) in
  let d2 := Zpos (digits2_pos b) in
  let N := Zpos a * 2 ^ (53 + d2 - d1) in
  let n := if 2 ^ 53 <=? N / Zpos b then 1 else 0 in
  d1 <= d2 + 53 -> d2 <= d1 + 1021 ->
  int_truediv (Zpos a) (Zpos b) = Ok (nround N (Zpos b * 2 ^ n) (d1 - d2 - 53 + n)).
Proof.
  intros d1 d2 N n H1 H2.
  rewrite int_truediv_pos.
  pose proof (SFdiv_nround a b 0 0) as H. cbv zeta in H.
  fold d1 d2 N n in H.
  replace (d1 + 0 - (d2 + 0) - 53) with (d1 - d2 - 53) in H by lia.
  rewrite H by lia.
  unfold nround. cbv zeta. destruct (_ <? _); reflexivity.
Qed.

Lemma pow2_split (a b : Z) : 0 <= a -> 0 <= b -> 2 ^ (a + b) = 2 ^ a * 2 ^ b.
Proof. intros. apply Z.pow_add_r; assumption. Qed.

Lemma int_truediv_pow2 (n k : Z) :
  0 < n < 2 ^ 64 -> 10 <= k <= 64 ->
  int_truediv n (2 ^ k) =
  Ok (nround (n * 2 ^ (64 - Zdigits2 n)) (2 ^ 11) (Zdigits2 n - 53 - k)).
Proof.
  intros Hn Hk.
  pose proof (Zdigits2_bounds n ltac:(lia)) as Bn.
  pose proof (Zdigits2_pos n ltac:(lia)) as Pn.
  assert (Hd : Zdigits2 n <= 64).
  { destruct (Z_le_gt_dec (Zdigits2 n) 64) as [|Hgt]; [assumption|exfalso].
    assert (2 ^ 64 <= 2 ^ (Zdigits2 n - 1)) by (apply Z.pow_le_mono_r; lia). lia. }
  assert (Hb : 0 < 2 ^ k) by (apply Z.pow_pos_nonneg; lia).
  assert (Hdb : Zdigits2 (2 ^ k) = k + 1).
  { apply Zdigits2_unique; [|assumption].
    replace (k + 1 - 1) with k by lia. split; [lia|].
    rewrite pow2_split by lia. change (2 ^ 1) with 2. lia. }
  destruct n as [|a|a]; try lia. destruct (2 ^ k) as [|b|b] eqn:Eb; try lia.
  cbn [Zdigits2] in *. set (d := Zpos (digits2_pos a)) in *.
  pose proof (int_truediv_nround a b) as H. cbv zeta in H.
  fold d in H. rewrite Hdb in H.
  assert (Hc : 0 < 2 ^ (k - 10)) by (apply Z.pow_pos_nonneg; lia).
  assert (HF : 0 < 2 ^ (64 - d)) by (apply Z.pow_pos_nonneg; lia).
  assert (E1 : 2 ^ (53 + (k + 1) - d) = 2 ^ (64 - d) * 2 ^ (k - 10)).
  { rewrite <- pow2_split by lia. f_equal. lia. }
  assert (E2 : Zpos b * 2 = 2 ^ 11 * 2 ^ (k - 10)).
  { rewrite <- Eb. replace k with (10 + (k - 10)) at 1 by lia.
    rewrite pow2_split by lia. change (2 ^ 11) with (2 ^ 10 * 2). ring. }
  assert (E3 : 2 ^ (d - 1) * 2 ^ (64 - d) = 2 ^ 63).
  { rewrite <- pow2_split by lia. f_equal. lia. }
  assert (Eb' : Zpos b = 2 ^ 10 * 2 ^ (k - 10)).
  { rewrite <- Eb. rewrite <- pow2_split by lia. f_equal. lia. }
  assert (Hflag : (2 ^ 53 <=? Zpos a * 2 ^ (53 + (k + 1) - d) / Zpos b) = true).
  { apply Z.leb_le. apply Z.div_le_lower_bound; [lia|].
    rewrite E1, Eb'. revert E3 Bn Hc HF.
    generalize (2 ^ (d - 1)) (2 ^ (64 - d)) (2 ^ (k - 10)). intros A F c E3 [Bn _] Hc HF.
    assert (2 ^ 63 <= Zpos a * F) by (rewrite <- E3; apply Z.mul_le_mono_nonneg_r; lia).
    replace (2 ^ 10 * c * 2 ^ 53) with (2 ^ 63 * c) by (change (2 ^ 63) with (2 ^ 10 * 2 ^ 53); ring).
    rewrite Z.mul_assoc. apply Z.mul_le_mono_nonneg_r; lia. }
  rewrite Hflag in H. change (2 ^ 1) with 2 in H.
  rewrite H by lia.
  rewrite E1, E2, Z.mul_assoc.
  rewrite nround_scale by nia.
  f_equal. f_equal. lia.
Qed.

(** *** Dividing a counter by a power of two *)

Lemma Zdigits2_le_64 (n : Z) : 0 < n < 2 ^ 64 -> 0 < Zdigits2 n <= 64.
Proof.
  intros Hn. pose proof (Zdigits2_bounds n ltac:(lia)) as Bn.
  split; [apply Zdigits2_pos; lia|].
  destruct (Z_le_gt_dec (Zdigits2 n) 64) as [|Hgt]; [assumption|exfalso].
  assert (2 ^ 64 <= 2 ^ (Zdigits2 n - 1)) by (apply Z.pow_le_mono_r; lia). lia.
Qed.

Lemma Zdigits2_mono (n1 n2 : Z) : 0 < n1 <= n2 -> Zdigits2 n1 <= Zdigits2 n2.
Proof.
  intros Hn.
  pose proof (Zdigits2_bounds n1 ltac:(lia)) as B1.
  pose proof (Zdigits2_bounds n2 ltac:(lia)) as B2.
  pose proof (Zdigits2_pos n1 ltac:(lia)).
  destruct (Z_le_gt_dec (Zdigits2 n1) (Zdigits2 n2)) as [|Hgt]; [assumption|exfalso].
  assert (2 ^ Zdigits2 n2 <= 2 ^ (Zdigits2 n1 - 1)) by (apply Z.pow_le_mono_r; lia). lia.
Qed.

(** [n] shifted to exactly 64 bits. *)
Lemma shift64_bounds (n : Z) :
  0 < n < 2 ^ 64 -> 2 ^ 63 <= n * 2 ^ (64 - Zdigits2 n) < 2 ^ 64.
Proof.
  intros Hn. pose proof (Zdigits2_bounds n ltac:(lia)) as Bn.
  pose proof (Zdigits2_le_64 n Hn) as Hd.
  assert (E3 : 2 ^ (Zdigits2 n - 1) * 2 ^ (64 - Zdigits2 n) = 2 ^ 63).
  { rewrite <- pow2_split by lia. f_equal. lia. }
  assert (E4 : 2 ^ Zdigits2 n * 2 ^ (64 - Zdigits2 n) = 2 ^ 64).
  { rewrite <- pow2_split by lia. f_equal. lia. }
  assert (HF : 0 < 2 ^ (64 - Zdigits2 n)) by (apply Z.pow_pos_nonneg; lia).
  revert E3 E4 Bn HF.
  generalize (2 ^ (Zdigits2 n - 1)) (2 ^ Zdigits2 n) (2 ^ (64 - Zdigits2 n)).
  intros A A' F E3 E4 Bn HF. rewrite <- E3, <- E4. split.
  - apply Z.mul_le_mono_nonneg_r; lia.
  - apply Z.mul_lt_mono_pos_r; lia.
Qed.

Lemma conv_finite (n k : Z) :
  0 < n < 2 ^ 64 ->
  exists (m : positive) (e : Z),
    conv n k = S754_finite false m e /\ 2 ^ 52 <= Zpos m < 2 ^ 53 /\
    Zdigits2 n - 53 - k <= e <= Zdigits2 n - 52 - k.
Proof.
  intros Hn. pose proof (shift64_bounds n Hn) as HF.
  destruct (nround_finite (n * 2 ^ (64 - Zdigits2 n)) (2 ^ 11) (Zdigits2 n - 53 - k))
    as (m & e & E & B & C); [lia | lia |].
  exists m, e. split; [exact E|]. split; [exact B|].
  destruct C as [[-> _] | (-> & _)]; lia.
Qed.

Lemma conv_mono (n1 n2 k : Z) :
  0 < n1 <= n2 -> n2 < 2 ^ 64 -> SFleb (conv n1 k) (conv n2 k) = true.
Proof.
  intros H1 H2.
  pose proof (shift64_bounds n1 ltac:(lia)) as F1.
  pose proof (shift64_bounds n2 ltac:(lia)) as F2.
  pose proof (Zdigits2_mono n1 n2 H1) as Hd.
  apply nround_le; try lia.
  destruct (Z.eq_dec (Zdigits2 n1) (Zdigits2 n2)) as [E|NE]; [right | left; lia].
  split; [lia|]. rewrite E.
  assert (0 < 2 ^ (64 - Zdigits2 n2)).
  { apply Z.pow_pos_nonneg; [lia|]. pose proof (Zdigits2_le_64 n2 ltac:(lia)). lia. }
  nia.
Qed.

Lemma conv_exact (n k : Z) :
  0 < n < 2 ^ 53 ->
  conv n k = S754_finite false (Z.to_pos (n * 2 ^ (53 - Zdigits2 n))) (Zdigits2 n - 53 - k).
Proof.
  intros Hn. pose proof (Zdigits2_bounds n ltac:(lia)) as Bn.
  pose proof (Zdigits2_pos n ltac:(lia)) as Pn.
  assert (Hd : Zdigits2 n <= 53).
  { destruct (Z_le_gt_dec (Zdigits2 n) 53) as [|Hgt]; [assumption|exfalso].
    assert (2 ^ 53 <= 2 ^ (Zdigits2 n - 1)) by (apply Z.pow_le_mono_r; lia). lia. }
  pose proof (shift64_bounds n ltac:(lia)) as HF.
  assert (E : n * 2 ^ (64 - Zdigits2 n) = n * 2 ^ (53 - Zdigits2 n) * 2 ^ 11).
  { replace (64 - Zdigits2 n) with (53 - Zdigits2 n + 11) by lia.
    rewrite pow2_split by lia. ring. }
  unfold conv, nround. cbv zeta. rewrite E in *.
  rewrite rne_div_exact by (try apply Z.mul_nonneg_nonneg; try apply Z.pow_nonneg; lia).
  destruct (Z.ltb_spec (n * 2 ^ (53 - Zdigits2 n)) (2 ^ 53)) as [|Hge]; [reflexivity|].
  change (2 ^ 64) with (2 ^ 53 * 2 ^ 11) in HF. nia.
Qed.

(** *** Quotients and percentages *)

Lemma digits2_pos_53 (m : positive) :
  2 ^ 52 <= Zpos m < 2 ^ 53 -> Zpos (digits2_pos m) = 53.
Proof.
  intros H. change (Zpos (digits2_pos m)) with (Zdigits2 (Zpos m)).
  apply Zdigits2_unique; [exact H | lia].
Qed.

(** The quotient of two normal numbers, the first not above the second,
    is a normal number not above one. *)
Lemma SFdiv_le_one (mx my : positive) (ex ey : Z) :
  2 ^ 52 <= Zpos mx < 2 ^ 53 -> 2 ^ 52 <= Zpos my < 2 ^ 53 ->
  -1000 <= ex - ey ->
  SFleb (S754_finite false mx ex) (S754_finite false my ey) = true ->
  exists (mq : positive) (eq : Z),
    SFdiv prec emax (S754_finite false mx ex) (S754_finite false my ey) =
      S754_finite false mq eq /\
    2 ^ 52 <= Zpos mq < 2 ^ 53 /\
    (eq < -52 \/ (eq = -52 /\ Zpos mq = 2 ^ 52)) /\
    ex - ey - 53 <= eq.
Proof.
  intros Hx Hy Hrange Hle.
  apply SFleb_finite in Hle.
  pose proof (SFdiv_nround mx my ex ey) as H. cbv zeta in H.
  rewrite (digits2_pos_53 mx Hx), (digits2_pos_53 my Hy) in H.
  replace (53 + 53 - 53) with 53 in H by lia.
  replace (53 + ex - (53 + ey) - 53) with (ex - ey - 53) in H by lia.
  rewrite H by lia. clear H.
  set (N := Zpos mx * 2 ^ 53).
  destruct (Z.leb_spec (2 ^ 53) (N / Zpos my)) as [Hge|Hlt].
  - (* the mantissa of x is at least that of y *)
    assert (Hmm : Zpos my <= Zpos mx).
    { destruct (Z_le_gt_dec (Zpos my) (Zpos mx)) as [|Hgt]; [assumption|exfalso].
      assert (N / Zpos my < 2 ^ 53) by (apply Z.div_lt_upper_bound; unfold N; lia). lia. }
    change (2 ^ 1) with 2.
    destruct (nround_finite N (Zpos my * 2) (ex - ey - 53 + 1)) as (mq & eq & -> & B & C);
      [lia | unfold N; lia |].
    exists mq, eq. split; [reflexivity|]. split; [exact B|].
    destruct Hle as [Hlt | [He Hm]].
    + destruct C as [[-> E] | (-> & E & _)]; lia.
    + assert (Zpos mx = Zpos my) by lia.
      assert (Er : rne_div N (Zpos my * 2) = 2 ^ 52).
      { unfold N. replace (Zpos mx * 2 ^ 53) with (2 ^ 52 * (Zpos my * 2)) by lia.
        apply rne_div_exact; lia. }
      destruct C as [[-> E] | (-> & E & F)]; lia.
  - change (2 ^ 0) with 1. rewrite Z.mul_1_r.
    assert (HN : N < 2 ^ 53 * Zpos my).
    { pose proof (Z.div_mod N (Zpos my) ltac:(lia)).
      pose proof (Z.mod_pos_bound N (Zpos my) ltac:(lia)). nia. }
    destruct (nround_finite N (Zpos my) (ex - ey - 53 + 0)) as (mq & eq & -> & B & C);
      [lia | unfold N in *; lia |].
    exists mq, eq. split; [reflexivity|]. split; [exact B|].
    assert (ex <= ey) by lia.
    destruct C as [[-> E] | (-> & E & _)]; lia.
Qed.

Lemma float_of_int_100 : float_of_int 100 = S754_finite false 7036874417766400 (-46).
Proof. reflexivity. Qed.

Lemma float_of_int_80 : float_of_int 80 = S754_finite false 5629499534213120 (-46).
Proof. reflexivity. Qed.

Lemma float_of_int_500 : float_of_int 500 = S754_finite false 8796093022208000 (-44).
Proof. reflexivity. Qed.

(** A normal number not above one, times 100, is not above 100. *)
Lemma SFmul_100_le (mq : positive) (eq : Z) :
  2 ^ 52 <= Zpos mq < 2 ^ 53 ->
  eq < -52 \/ (eq = -52 /\ Zpos mq = 2 ^ 52) ->
  -1000 <= eq ->
  exists (m : positive) (e : Z),
    float_mul (S754_finite false mq eq) (float_of_int 100) = S754_finite false m e /\
    SFleb (S754_finite false m e) (float_of_int 100) = true.
Proof.
  intros Hq Hle Hrange.
  rewrite float_of_int_100. unfold float_mul, SFmul. cbn [xorb].
  set (N := Zpos (mq * 7036874417766400)).
  assert (EN : N = Zpos mq * 7036874417766400) by (unfold N; rewrite Pos2Z.inj_mul; reflexivity).
  assert (HN : 2 ^ 104 <= N < 2 ^ 106) by lia.
  set (n := if N <? 2 ^ 105 then 52 else 53).
  assert (Hdig : Zdigits2 N = 53 + n).
  { unfold n. destruct (Z.ltb_spec N (2 ^ 105)).
    - apply Zdigits2_unique; [change (53 + 52 - 1) with 104; change (53 + 52) with 105|]; lia.
    - apply Zdigits2_unique; [change (53 + 53 - 1) with 105; change (53 + 53) with 106|]; lia. }
  assert (Hn : 52 <= n <= 53) by (unfold n; destruct (N <? 2 ^ 105); lia).
  rewrite (binary_round_aux_rne N (eq + -46) loc_Exact N 1 n); try lia.
  - rewrite Z.mul_1_l.
    assert (Hnorm : 2 ^ 52 * 2 ^ n <= N < 2 ^ 53 * 2 ^ n).
    { unfold n in *. destruct (Z.ltb_spec N (2 ^ 105)).
      + change (2 ^ 52 * 2 ^ 52) with (2 ^ 104). change (2 ^ 53 * 2 ^ 52) with (2 ^ 105). lia.
      + change (2 ^ 52 * 2 ^ 53) with (2 ^ 105). change (2 ^ 53 * 2 ^ 53) with (2 ^ 106). lia. }
    assert (Hpn : 0 < 2 ^ n) by (apply Z.pow_pos_nonneg; lia).
    rewrite finalize_normal by lia.
    destruct (nround_finite N (2 ^ n) (eq + -46 + n) Hpn Hnorm) as (m & e & E & B & C).
    exists m, e. split; [exact E|]. rewrite <- E.
    apply nround_le_finite; try lia.
    unfold n in *. destruct (Z.ltb_spec N (2 ^ 105)).
    + destruct Hle as [Hlt | [-> Hm]]; [left; lia | right].
      split; [lia|]. rewrite EN, Hm. change (2 ^ 52) with 4503599627370496. lia.
    + destruct Hle as [Hlt | [-> Hm]].
      * destruct (Z.eq_dec eq (-53)) as [->|]; [right | left; lia].
        split; [lia|]. rewrite EN. change (2 ^ 53) with 9007199254740992. lia.
      * exfalso. rewrite EN, Hm in *. change (2 ^ 52) with 4503599627370496 in *.
        change (2 ^ 105) with 40564819207303340847894502572032 in *. lia.
  - rewrite Z.div_1_r. reflexivity.
  - rewrite Z.mod_1_r. reflexivity.
  - rewrite Hdig. unfold fexp, emin, prec, emax. lia.
Qed.

(** *** Results that need no rounding *)

Lemma iter_xO (d p : positive) : Zpos (Pos.iter xO p d) = Zpos p * 2 ^ Zpos d.
Proof.
  induction d as [|d IH] using Pos.peano_ind.
  - cbn [Pos.iter]. rewrite (Pos2Z.inj_xO p). change (2 ^ 1) with 2. ring.
  - rewrite Pos.iter_succ, (Pos2Z.inj_xO (Pos.iter xO p d)), IH, Pos2Z.inj_succ.
    rewrite Z.pow_succ_r by lia. ring.
Qed.

Lemma shl_align_fst (mx : positive) (ex ex' : Z) :
  ex' <= ex -> Zpos (fst (shl_align mx ex ex')) = Zpos mx * 2 ^ (ex - ex').
Proof.
  intros H. unfold shl_align.
  destruct (ex' - ex) as [|d|d] eqn:E; cbn [fst]; try lia.
  - replace (ex - ex') with 0 by lia. rewrite Z.mul_1_r. reflexivity.
  - rewrite iter_xO. f_equal. f_equal. lia.
Qed.

Lemma shl_align_eq (mx : positive) (ex ex' : Z) :
  shl_align mx ex ex' =
  if ex' <? ex then (fst (shl_align mx ex ex'), ex') else (mx, ex).
Proof.
  unfold shl_align. destruct (Z.ltb_spec ex' ex); destruct (ex' - ex) eqn:E; try lia; reflexivity.
Qed.

(** Rounding a number that a normal float holds returns that float. *)
Lemma binary_round_exact (m M : positive) (e E : Z) :
  2 ^ 52 <= Zpos M < 2 ^ 53 -> -1074 <= E <= 970 ->
  (E <= e -> Zpos M = Zpos m * 2 ^ (e - E)) ->
  (e <= E -> Zpos m = Zpos M * 2 ^ (E - e)) ->
  binary_round prec emax false m e = S754_finite false M E.
Proof.
  intros HM HE H1 H2.
  assert (Hfin : finalize (Zpos M) E = S754_finite false M E).
  { replace (Zpos M) with (rne_div (Zpos M * 1) 1) at 1 by (apply rne_div_exact; lia).
    rewrite finalize_normal by lia. unfold nround. cbv zeta.
    rewrite rne_div_exact by lia.
    destruct (Z.ltb_spec (Zpos M) (2 ^ 53)); [reflexivity | lia]. }
  assert (Hdig : Zpos (digits2_pos m) + e = 53 + E).
  { change (Zpos (digits2_pos m)) with (Zdigits2 (Zpos m)).
    destruct (Z_le_gt_dec E e) as [Hle|Hgt].
    - specialize (H1 Hle).
      assert (Hp : 0 < 2 ^ (e - E)) by (apply Z.pow_pos_nonneg; lia).
      pose proof (Zdigits2_bounds (Zpos m) ltac:(lia)) as Bm.
      pose proof (Zdigits2_pos (Zpos m) ltac:(lia)) as Pm.
      set (d := Zdigits2 (Zpos m)) in *.
      destruct (Z.lt_trichotomy (d + e) (53 + E)) as [Hlt | [Heq | Hgt]]; [exfalso|assumption|exfalso].
      + assert (2 ^ d * 2 ^ (e - E) <= 2 ^ 52).
        { rewrite <- pow2_split by lia. apply Z.pow_le_mono_r; lia. }
        nia.
      + assert (2 ^ 53 <= 2 ^ (d - 1) * 2 ^ (e - E)).
        { rewrite <- pow2_split by lia. apply Z.pow_le_mono_r; lia. }
        nia.
    - specialize (H2 ltac:(lia)).
      assert (Hp : 0 < 2 ^ (E - e)) by (apply Z.pow_pos_nonneg; lia).
      assert (Zdigits2 (Zpos m) = 53 + (E - e)); [|lia].
      apply Zdigits2_unique; [|lia]. rewrite H2.
      replace (53 + (E - e) - 1) with (52 + (E - e)) by lia.
      rewrite !pow2_split by lia. nia. }
  unfold binary_round. rewrite Hdig.
  replace (fexp prec emax (53 + E)) with E by (unfold fexp, emin, prec, emax; lia).
  rewrite shl_align_eq.
  destruct (Z.ltb_spec E e) as [Hlt|Hge].
  - assert (Hm : Zpos (fst (shl_align m e E)) = Zpos M).
    { rewrite shl_align_fst by lia. symmetry. apply H1. lia. }
    rewrite Hm.
    rewrite (binary_round_aux_rne (Zpos M) E loc_Exact (Zpos M) 1 0); try lia.
    + rewrite Z.mul_1_l, Z.add_0_r. change (2 ^ 0) with 1.
      rewrite <- (Z.mul_1_r (Zpos M)) at 1. rewrite rne_div_exact by lia. exact Hfin.
    + rewrite Z.div_1_r. reflexivity.
    + rewrite Z.mod_1_r. reflexivity.
    + change (Zdigits2 (Zpos M)) with (Zpos (digits2_pos M)).
      rewrite (digits2_pos_53 M HM). unfold fexp, emin, prec, emax. lia.
  - specialize (H2 Hge).
    rewrite (binary_round_aux_rne (Zpos m) e loc_Exact (Zpos m) 1 (E - e)); try lia.
    + rewrite Z.mul_1_l. replace (e + (E - e)) with E by lia.
      rewrite H2. rewrite rne_div_exact; [exact Hfin | apply Z.pow_pos_nonneg; lia | lia].
    + rewrite Z.div_1_r. reflexivity.
    + rewrite Z.mod_1_r. reflexivity.
    + change (Zdigits2 (Zpos m)) with (Zpos (digits2_pos m)).
      replace (Zpos (digits2_pos m) + e) with (53 + E) by lia.
      unfold fexp, emin, prec, emax. lia.
Qed.

Lemma Zdigits2_le_53 (n : Z) : 0 < n < 2 ^ 53 -> 0 < Zdigits2 n <= 53.
Proof.
  intros Hn. pose proof (Zdigits2_bounds n ltac:(lia)) as Bn.
  split; [apply Zdigits2_pos; lia|].
  destruct (Z_le_gt_dec (Zdigits2 n) 53) as [|Hgt]; [assumption|exfalso].
  assert (2 ^ 53 <= 2 ^ (Zdigits2 n - 1)) by (apply Z.pow_le_mono_r; lia). lia.
Qed.

Lemma shift53_bounds (n : Z) :
  0 < n < 2 ^ 53 -> 2 ^ 52 <= n * 2 ^ (53 - Zdigits2 n) < 2 ^ 53.
Proof.
  intros Hn. pose proof (Zdigits2_bounds n ltac:(lia)) as Bn.
  pose proof (Zdigits2_le_53 n Hn) as Hd.
  assert (E3 : 2 ^ (Zdigits2 n - 1) * 2 ^ (53 - Zdigits2 n) = 2 ^ 52).
  { rewrite <- pow2_split by lia. f_equal. lia. }
  assert (E4 : 2 ^ Zdigits2 n * 2 ^ (53 - Zdigits2 n) = 2 ^ 53).
  { rewrite <- pow2_split by lia. f_equal. lia. }
  assert (HF : 0 < 2 ^ (53 - Zdigits2 n)) by (apply Z.pow_pos_nonneg; lia).
  revert E3 E4 Bn HF.
  generalize (2 ^ (Zdigits2 n - 1)) (2 ^ Zdigits2 n) (2 ^ (53 - Zdigits2 n)).
  intros A A' F E3 E4 Bn HF. rewrite <- E3, <- E4. split.
  - apply Z.mul_le_mono_nonneg_r; lia.
  - apply Z.mul_lt_mono_pos_r; lia.
Qed.

(** Below 2^53 the conversions are exact, and so is their difference. *)
Lemma float_sub_conv (t u k : Z) :
  0 < u < t -> t < 2 ^ 53 -> 0 <= k <= 900 ->
  float_sub (conv t k) (conv u k) = conv (t - u) k.
Proof.
  intros Hu Ht Hk.
  rewrite (conv_exact t), (conv_exact u), (conv_exact (t - u)) by lia.
  pose proof (shift53_bounds t ltac:(lia)) as Bt.
  pose proof (shift53_bounds u ltac:(lia)) as Bu.
  pose proof (shift53_bounds (t - u) ltac:(lia)) as Bw.
  pose proof (Zdigits2_le_53 t ltac:(lia)) as Dt.
  pose proof (Zdigits2_le_53 u ltac:(lia)) as Du.
  pose proof (Zdigits2_le_53 (t - u) ltac:(lia)) as Dw.
  pose proof (Zdigits2_mono u t ltac:(lia)) as Dut.
  set (dt := Zdigits2 t) in *. set (du := Zdigits2 u) in *. set (dw := Zdigits2 (t - u)) in *.
  unfold float_sub, SFsub. cbn [cond_Zopp].
  replace (Z.min (dt - 53 - k) (du - 53 - k)) with (du - 53 - k) by lia.
  rewrite !shl_align_fst by lia. rewrite !Z2Pos.id by lia.
  replace (du - 53 - k - (du - 53 - k)) with 0 by lia.
  replace (dt - 53 - k - (du - 53 - k)) with (dt - du) by lia.
  change (2 ^ 0) with 1. rewrite Z.mul_1_r.
  assert (Et : t * 2 ^ (53 - dt) * 2 ^ (dt - du) = t * 2 ^ (53 - du)).
  { rewrite <- Z.mul_assoc, <- pow2_split by lia. do 2 f_equal. lia. }
  rewrite Et. rewrite <- Z.mul_sub_distr_r.
  assert (Hp : 0 < 2 ^ (53 - du)) by (apply Z.pow_pos_nonneg; lia).
  destruct ((t - u) * 2 ^ (53 - du)) as [|p|p] eqn:Ep; try nia.
  cbn [binary_normalize].
  apply binary_round_exact.
  - rewrite Z2Pos.id by lia. exact Bw.
  - lia.
  - intros Hle. rewrite Z2Pos.id by lia. rewrite <- Ep.
    rewrite <- Z.mul_assoc, <- pow2_split by lia. do 2 f_equal. lia.
  - intros Hle. rewrite Z2Pos.id by lia. rewrite <- Ep.
    rewrite <- Z.mul_assoc, <- pow2_split by lia. do 2 f_equal. lia.
Qed.

(** On integers below 2^53 the conversion preserves strict order. *)
Lemma conv_lt_iff (a b k : Z) :
  0 < a < 2 ^ 53 -> 0 < b < 2 ^ 53 ->
  SFltb (conv a k) (conv b k) = true <-> a < b.
Proof.
  intros Ha Hb.
  rewrite (conv_exact a), (conv_exact b) by lia.
  pose proof (shift53_bounds a Ha) as Ba. pose proof (shift53_bounds b Hb) as Bb.
  pose proof (Zdigits2_le_53 a Ha) as Da. pose proof (Zdigits2_le_53 b Hb) as Db.
  rewrite SFltb_finite. rewrite !Z2Pos.id by lia.
  pose proof (Zdigits2_bounds a ltac:(lia)) as Xa.
  pose proof (Zdigits2_bounds b ltac:(lia)) as Xb.
  split.
  - intros [Hlt | [He Hm]].
    + assert (Zdigits2 a <= Zdigits2 b - 1) by lia.
      assert (2 ^ Zdigits2 a <= 2 ^ (Zdigits2 b - 1)) by (apply Z.pow_le_mono_r; lia). lia.
    + assert (E : Zdigits2 a = Zdigits2 b) by lia. rewrite E in Hm.
      assert (0 < 2 ^ (53 - Zdigits2 b)) by (apply Z.pow_pos_nonneg; lia). nia.
  - intros Hab. pose proof (Zdigits2_mono a b ltac:(lia)) as Hd.
    destruct (Z.eq_dec (Zdigits2 a) (Zdigits2 b)) as [E|NE]; [right | left; lia].
    split; [lia|]. rewrite E.
    assert (0 < 2 ^ (53 - Zdigits2 b)) by (apply Z.pow_pos_nonneg; lia). nia.
Qed.

(** ** Facts about the derived quantities *)

Lemma int_truediv_scaled (n k : Z) :
  0 <= n < 2 ^ 64 -> 10 <= k <= 64 -> int_truediv n (2 ^ k) = Ok (scaled n k).
Proof.
  intros Hn Hk. unfold scaled. destruct (Z.eqb_spec n 0) as [->|Hne].
  - assert (Hb : 0 < 2 ^ k) by (apply Z.pow_pos_nonneg; lia).
    unfold int_truediv. destruct (2 ^ k) as [|b|b]; try lia. reflexivity.
  - rewrite int_truediv_pow2 by lia. reflexivity.
Qed.

Lemma sizes_scaled (t u k : Z) :
  0 <= t < 2 ^ 64 -> 0 <= u < 2 ^ 64 -> 10 <= k <= 64 ->
  sizes t u (2 ^ k) =
  ([], Ok (scaled t k, scaled u k, float_sub (scaled t k) (scaled u k))).
Proof.
  intros Ht Hu Hk. unfold sizes.
  rewrite !int_truediv_scaled by lia. reflexivity.
Qed.

Lemma derive_scaled (t u k : Z) :
  0 < t < 2 ^ 64 -> 0 <= u < 2 ^ 64 -> 10 <= k <= 64 ->
  derive t u (2 ^ k) =
  ([], Ok {| total := scaled t k; used := scaled u k;
             free := float_sub (scaled t k) (scaled u k);
             percentage_used :=
               float_mul (SFdiv prec emax (scaled u k) (scaled t k))
                 (float_of_int 100) |}).
Proof.
  intros Ht Hu Hk. unfold derive. rewrite sizes_scaled by lia.
  destruct (conv_finite t k Ht) as (m & e & E & _).
  assert (Es : scaled t k = S754_finite false m e).
  { unfold scaled. destruct (Z.eqb_spec t 0); [lia | exact E]. }
  rewrite Es. reflexivity.
Qed.

Lemma derive_zero_total (u k : Z) :
  0 <= u < 2 ^ 64 -> 10 <= k <= 64 ->
  derive 0 u (2 ^ k) = ([], Raise ZeroDivisionError).
Proof.
  intros Hu Hk. unfold derive. rewrite sizes_scaled by lia. reflexivity.
Qed.

Lemma percentage_bounds (t u k : Z) :
  0 <= u <= t -> 0 < t < 2 ^ 64 -> 0 <= k <= 64 ->
  let p := float_mul (SFdiv prec emax (scaled u k) (scaled t k)) (float_of_int 100) in
  float_le (float_of_int 0) p = true /\ float_le p (float_of_int 100) = true.
Proof.
  intros Hu Ht Hk.
  destruct (conv_finite t k Ht) as (mt & et & Et & Bt & Rt).
  pose proof (Zdigits2_le_64 t Ht) as Dt.
  assert (Es : scaled t k = S754_finite false mt et).
  { unfold scaled. destruct (Z.eqb_spec t 0); [lia | exact Et]. }
  rewrite Es. unfold scaled. destruct (Z.eqb_spec u 0) as [->|Hne].
  - cbv zeta. rewrite float_of_int_100. split; reflexivity.
  - assert (Hu' : 0 < u < 2 ^ 64) by lia.
    destruct (conv_finite u k Hu') as (mu & eu & Eu & Bu & Ru).
    pose proof (Zdigits2_le_64 u Hu') as Du.
    pose proof (conv_mono u t k ltac:(lia) ltac:(lia)) as Hle.
    rewrite Eu, Et in Hle. rewrite Eu.
    destruct (SFdiv_le_one mu mt eu et Bu Bt ltac:(lia) Hle) as (mq & eq & -> & Bq & Cq & Rq).
    destruct (SFmul_100_le mq eq Bq Cq ltac:(lia)) as (m & e & -> & Hm).
    cbv zeta. split; [reflexivity | exact Hm].
Qed.

Lemma scaled_sub (t u k : Z) :
  0 <= u <= t -> t < 2 ^ 53 -> 0 <= k <= 900 ->
  float_sub (scaled t k) (scaled u k) = scaled (t - u) k.
Proof.
  intros Hu Ht Hk. unfold scaled.
  destruct (Z.eqb_spec u 0) as [->|Hu0].
  - rewrite Z.sub_0_r. destruct (Z.eqb_spec t 0) as [->|Ht0]; [reflexivity|].
    rewrite conv_exact by lia. reflexivity.
  - destruct (Z.eqb_spec t 0) as [->|Ht0]; [lia|].
    destruct (Z.eqb_spec (t - u) 0) as [E|NE].
    + assert (t = u) by lia. subst u.
      rewrite conv_exact by lia. unfold float_sub, SFsub. cbn [cond_Zopp].
      rewrite Z.min_id, Z.sub_diag. reflexivity.
    + apply float_sub_conv; lia.
Qed.

Lemma scaled_exact (n k : Z) :
  0 <= n < 2 ^ 53 -> 0 <= k -> exact_quotient (scaled n k) n (2 ^ k).
Proof.
  intros Hn Hk. unfold scaled. destruct (Z.eqb_spec n 0) as [->|Hne]; [reflexivity|].
  rewrite conv_exact by lia. cbn [exact_quotient].
  pose proof (Zdigits2_bounds n ltac:(lia)) as Bn.
  assert (Hd : Zdigits2 n <= 53).
  { destruct (Z_le_gt_dec (Zdigits2 n) 53) as [|Hgt]; [assumption|exfalso].
    assert (2 ^ 53 <= 2 ^ (Zdigits2 n - 1)) by (apply Z.pow_le_mono_r; lia). lia. }
  split; [lia|].
  assert (Hp : 0 < 2 ^ (53 - Zdigits2 n)) by (apply Z.pow_pos_nonneg; lia).
  rewrite Z2Pos.id by nia.
  replace (- (Zdigits2 n - 53 - k)) with (53 - Zdigits2 n + k) by lia.
  rewrite Z.pow_add_r by lia. ring.
Qed.

Lemma scaled_lt_iff (a b k : Z) :
  0 <= a < 2 ^ 53 -> 0 < b < 2 ^ 53 ->
  float_lt (scaled a k) (scaled b k) = true <-> a < b.
Proof.
  intros Ha Hb. unfold scaled, float_lt.
  destruct (Z.eqb_spec b 0) as [|_]; [lia|].
  destruct (Z.eqb_spec a 0) as [->|Hne].
  - rewrite conv_exact by lia. split; [lia | reflexivity].
  - apply conv_lt_iff; lia.
Qed.

Lemma SFeqb_not_lt (x y : float) : SFeqb x y = true -> SFltb y x = false.
Proof.
  unfold SFeqb, SFltb.
  destruct x as [sx|sx| |sx mx ex], y as [sy|sy| |sy my ey]; cbn [SFcompare];
    try discriminate; try reflexivity;
    try (destruct sx; discriminate); try (destruct sy; discriminate);
    try (destruct sx, sy; (discriminate || reflexivity)).
  destruct sx, sy; try discriminate.
  - destruct (Z.compare_spec ex ey) as [->|H|H]; try discriminate.
    rewrite Z.compare_refl.
    change (Pos.compare_cont Eq mx my) with (Pos.compare mx my).
    change (Pos.compare_cont Eq my mx) with (Pos.compare my mx).
    destruct (Pos.compare_spec mx my) as [->|H|H]; try discriminate.
    rewrite Pos.compare_refl. reflexivity.
  - destruct (Z.compare_spec ex ey) as [->|H|H]; try discriminate.
    rewrite Z.compare_refl.
    change (Pos.compare_cont Eq mx my) with (Pos.compare mx my).
    change (Pos.compare_cont Eq my mx) with (Pos.compare my mx).
    destruct (Pos.compare_spec mx my) as [->|H|H]; try discriminate.
    rewrite Pos.compare_refl. reflexivity.
Qed.

(** ** Facts about the monad and the methods *)

Lemma bind_Ok {A B} (o : list line) (a : A) (k : A -> prog B) :
  bind (o, Ok a) k = (o ++ output (k a), outcome (k a)).
Proof. unfold bind, output, outcome. destruct (k a); reflexivity. Qed.

Lemma bind_completes {A B} (m : prog A) (k : A -> prog B) (a : A) :
  outcome m = Ok a ->
  bind m k = (output m ++ output (k a), outcome (k a)).
Proof. destruct m as [o r]. cbn [outcome snd output fst]. intros ->. apply bind_Ok. Qed.

Lemma bind_raises {A B} (m : prog A) (k : A -> prog B) (e : pyexn) :
  outcome m = Raise e -> bind m k = (output m, Raise e).
Proof. destruct m as [o r]. cbn [outcome snd output fst]. intros ->. reflexivity. Qed.

Lemma prog_eta {A} (p : prog A) : p = (output p, outcome p).
Proof. destruct p; reflexivity. Qed.

Lemma check_disk_usage_ok (h : Host) (self : SystemCheck) (du : sdiskusage) (u : usage) :
  disk_usage h (root_path self) = Ok du ->
  derive (du_total du) (du_used du) (1024 ^ 3) = ([], Ok u) ->
  check_disk_usage h self =
  ([ [Lit "----------DISK USAGE----------"];
     [Lit "Disk: "; Fmt (VStr (first_char (root_path self))) ""];
     [Lit "Total: "; Fmt (VFloat (total u)) ",.2f"; Lit "GB"];
     [Lit "Used : "; Fmt (VFloat (used u)) ",.2f"; Lit "GB"];
     [Lit "Free: "; Fmt (VFloat (free u)) ",.2f"; Lit "GB"];
     [Lit "% Disk used: "; Fmt (VFloat (percentage_used u)) ".2f"; Lit "%"] ]
   ++ (if float_gt (percentage_used u) (float_of_int 80) then [disk_warning] else [])
   ++ [ [] ], Ok tt).
Proof.
  intros Hq Hd. unfold check_disk_usage, disk_report. rewrite Hq.
  unfold call. rewrite bind_Ok. rewrite Hd.
  cbv [bind print ret try_except output outcome fst snd].
  destruct (float_gt (percentage_used u) (float_of_int 80)); reflexivity.
Qed.

Lemma check_disk_usage_raises (h : Host) (self : SystemCheck) (du : sdiskusage) (e : pyexn) :
  disk_usage h (root_path self) = Ok du ->
  derive (du_total du) (du_used du) (1024 ^ 3) = ([], Raise e) ->
  is_OSError e = false ->
  check_disk_usage h self = ([], Raise e).
Proof.
  intros Hq Hd He. unfold check_disk_usage, disk_report. rewrite Hq.
  unfold call. rewrite bind_Ok. rewrite Hd. cbn. rewrite He. reflexivity.
Qed.

Lemma check_disk_usage_missing (h : Host) (self : SystemCheck) (e : pyexn) :
  disk_usage h (root_path self) = Raise e -> is_OSError e = true ->
  check_disk_usage h self =
  ([ [Fmt (VStr (root_path self)) ""; Lit " does not exist."] ], Ok tt).
Proof.
  intros Hq He. unfold check_disk_usage. rewrite Hq. cbn. rewrite He. reflexivity.
Qed.

Lemma check_memory_usage_ok (h : Host) (self : SystemCheck) (u : usage) :
  derive (vm_total (virtual_memory h 0)) (vm_used (virtual_memory h 1)) (1024 ^ 2)
    = ([], Ok u) ->
  check_memory_usage h self =
  ([ [Lit "---------MEMORY USAGE---------"];
     [Lit "Total: "; Fmt (VFloat (total u)) ",.2f"; Lit "MB"];
     [Lit "Used: "; Fmt (VFloat (used u)) ",.2f"; Lit "MB"];
     [Lit "Free: "; Fmt (VFloat (free u)) ",.2f"; Lit "MB"];
     [Lit "% Memory used: "; Fmt (VFloat (percentage_used u)) ".2f"; Lit "%"] ]
   ++ (if float_lt (free u) (float_of_int 500) then [memory_warning] else [])
   ++ [ [] ], Ok tt).
Proof.
  intros Hd. unfold check_memory_usage. rewrite Hd.
  cbv [bind print ret output outcome fst snd].
  destruct (float_lt (free u) (float_of_int 500)); reflexivity.
Qed.

Lemma check_memory_usage_raises (h : Host) (self : SystemCheck) (e : pyexn) :
  derive (vm_total (virtual_memory h 0)) (vm_used (virtual_memory h 1)) (1024 ^ 2)
    = ([], Raise e) ->
  check_memory_usage h self = ([], Raise e).
Proof. intros Hd. unfold check_memory_usage. rewrite Hd. reflexivity. Qed.

Lemma check_cpu_usage_ok (h : Host) (self : SystemCheck) (fr : scpufreq) :
  cpu_freq h = Some fr ->
  check_cpu_usage h self =
  ([ [Lit "-----------CPU USAGE-----------"];
     [Lit "CPU Frequency: "; Fmt (VFloat (current fr)) ""];
     [Lit "Physical Cores: "; Fmt (pyval_of_option_int (cpu_count h)) ""];
     [Lit "CPU Usage: "; Fmt (VFloat (cpu_percent h 1)) ""; Lit "%"] ]
   ++ (if float_gt (cpu_percent h 1) (float_of_int 80) then [cpu_warning] else [])
   ++ [ [] ], Ok tt).
Proof.
  intros Hf. unfold check_cpu_usage. rewrite Hf.
  cbv [bind print ret output outcome fst snd call get_current].
  destruct (float_gt (cpu_percent h 1) (float_of_int 80)); reflexivity.
Qed.

Lemma check_cpu_usage_no_freq (h : Host) (self : SystemCheck) :
  cpu_freq h = None -> check_cpu_usage h self = ([], Raise AttributeError).
Proof. intros Hf. unfold check_cpu_usage. rewrite Hf. reflexivity. Qed.

(** Without the unit conversion the quotient is the same float, as long as
    both counters are below 2^53. *)
Lemma ratio_scaled (t u k : Z) :
  0 < t < 2 ^ 53 -> 0 <= u < 2 ^ 53 -> 0 <= k <= 900 ->
  int_truediv u t = Ok (SFdiv prec emax (scaled u k) (scaled t k)).
Proof.
  intros Ht Hu Hk.
  pose proof (shift53_bounds t Ht) as Bt. pose proof (Zdigits2_le_53 t Ht) as Dt.
  assert (Est : scaled t k =
                S754_finite false (Z.to_pos (t * 2 ^ (53 - Zdigits2 t))) (Zdigits2 t - 53 - k)).
  { unfold scaled. destruct (Z.eqb_spec t 0); [lia | apply conv_exact; lia]. }
  rewrite Est. unfold scaled. destruct (Z.eqb_spec u 0) as [->|Hne].
  - destruct t as [|b|b]; try lia. reflexivity.
  - assert (Hu' : 0 < u < 2 ^ 53) by lia.
    pose proof (shift53_bounds u Hu') as Bu. pose proof (Zdigits2_le_53 u Hu') as Du.
    rewrite (conv_exact u k Hu').
    set (mu := Z.to_pos (u * 2 ^ (53 - Zdigits2 u))).
    set (mt := Z.to_pos (t * 2 ^ (53 - Zdigits2 t))).
    assert (Emu : Zpos mu = u * 2 ^ (53 - Zdigits2 u)) by (unfold mu; rewrite Z2Pos.id; lia).
    assert (Emt : Zpos mt = t * 2 ^ (53 - Zdigits2 t)) by (unfold mt; rewrite Z2Pos.id; lia).
    pose proof (SFdiv_nround mu mt (Zdigits2 u - 53 - k) (Zdigits2 t - 53 - k)) as H1.
    cbv zeta in H1.
    rewrite (digits2_pos_53 mu), (digits2_pos_53 mt) in H1 by lia.
    rewrite H1 by lia. clear H1.
    destruct u as [|a|a]; try lia. destruct t as [|b|b]; try lia.
    pose proof (int_truediv_nround a b) as H2. cbv zeta in H2.
    change (Zpos (digits2_pos a)) with (Zdigits2 (Zpos a)) in H2.
    change (Zpos (digits2_pos b)) with (Zdigits2 (Zpos b)) in H2.
    rewrite H2 by lia. clear H2.
    set (du := Zdigits2 (Zpos a)) in *. set (dt := Zdigits2 (Zpos b)) in *.
    set (c := 2 ^ (53 - dt)).
    assert (Hc : 0 < c) by (apply Z.pow_pos_nonneg; lia).
    set (N := Zpos a * 2 ^ (53 + dt - du)).
    assert (HN : 0 <= N).
    { unfold N. apply Z.mul_nonneg_nonneg; [lia | apply Z.pow_nonneg; lia]. }
    assert (EN : Zpos mu * 2 ^ (53 + 53 - 53) = N * c).
    { rewrite Emu. unfold N, c. rewrite <- !Z.mul_assoc, <- !pow2_split by lia.
      do 2 f_equal. lia. }
    rewrite EN, Emt. fold c.
    rewrite Z.div_mul_cancel_r by lia.
    f_equal.
    replace (Zpos b * c * 2 ^ (if 2 ^ 53 <=? N / Zpos b then 1 else 0))
      with (Zpos b * 2 ^ (if 2 ^ 53 <=? N / Zpos b then 1 else 0) * c) by ring.
    rewrite nround_scale; try lia.
    + f_equal. lia.
    + destruct (2 ^ 53 <=? N / Zpos b); lia.
Qed.

Lemma seq_completes {A B} (m : prog A) (k : prog B) :
  completes m -> bind m (fun _ => k) = (output m ++ output k, outcome k).
Proof. intros [a Ha]. apply (bind_completes m (fun _ => k) a Ha). Qed.

Lemma seq_raises {A B} (m : prog A) (k : prog B) (e : pyexn) :
  outcome m = Raise e -> bind m (fun _ => k) = (output m, Raise e).
Proof. apply bind_raises. Qed.

Lemma main_unfold (h : Host) :
  main h =
  (check_system_info h (init h) ;; check_disk_usage h (init h) ;;
   check_cpu_usage h (init h) ;; check_memory_usage h (init h) ;;
   check_network_usage h (init h)).
Proof. reflexivity. Qed.

Lemma completes_Ok {A} (o : list line) (a : A) : completes (o, Ok a).
Proof. exists a. reflexivity. Qed.

Lemma pow_1024_3 : 1024 ^ 3 = 2 ^ 30.
Proof. reflexivity. Qed.

Lemma pow_1024_2 : 1024 ^ 2 = 2 ^ 20.
Proof. reflexivity. Qed.

Lemma float_of_int_0 : float_of_int 0 = S754_zero false.
Proof. reflexivity. Qed.

(** ** The warning thresholds *)

Ltac lines_differ :=
  cbn [In app]; unfold disk_warning, memory_warning, cpu_warning;
  intuition (try discriminate; try congruence).

(** The two disk scenarios: 80 GiB of 100 GiB is exactly 80.0 and prints no
    warning; 85 GiB of 100 GiB is 85.0, prints it, and 15 GiB are free. *)
Example disk_scenario_80 :
  check_disk_usage linux_host (init linux_host) =
  ([ [Lit "----------DISK USAGE----------"];
     [Lit "Disk: "; Fmt (VStr "/") ""];
     [Lit "Total: "; Fmt (VFloat (float_of_int 100)) ",.2f"; Lit "GB"];
     [Lit "Used : "; Fmt (VFloat (float_of_int 80)) ",.2f"; Lit "GB"];
     [Lit "Free: "; Fmt (VFloat (float_of_int 20)) ",.2f"; Lit "GB"];
     [Lit "% Disk used: "; Fmt (VFloat (float_of_int 80)) ".2f"; Lit "%"];
     [] ], Ok tt).
Proof. vm_compute. reflexivity. Qed.

Example disk_scenario_85 :
  check_disk_usage
    (with_disk linux_host (Ok {| du_total := 100 * GiB; du_used := 85 * GiB |}))
    (init linux_host) =
  ([ [Lit "----------DISK USAGE----------"];
     [Lit "Disk: "; Fmt (VStr "/") ""];
     [Lit "Total: "; Fmt (VFloat (float_of_int 100)) ",.2f"; Lit "GB"];
     [Lit "Used : "; Fmt (VFloat (float_of_int 85)) ",.2f"; Lit "GB"];
     [Lit "Free: "; Fmt (VFloat (float_of_int 15)) ",.2f"; Lit "GB"];
     [Lit "% Disk used: "; Fmt (VFloat (float_of_int 85)) ".2f"; Lit "%"];
     disk_warning;
     [] ], Ok tt).
Proof. vm_compute. reflexivity. Qed.

(** The percentage is a rounded float.  On a volume of 5 * 10^15 + 1 bytes
    with 4 * 10^15 + 1 used, the counters are above four fifths
    ([80 * total < 100 * used]) and [percentage_used] is exactly 80.0. *)
Example disk_rounding_example :
  80 * (5 * 10 ^ 15 + 1) < 100 * (4 * 10 ^ 15 + 1) /\
  exists v : usage,
    derive (5 * 10 ^ 15 + 1) (4 * 10 ^ 15 + 1) (1024 ^ 3) = ([], Ok v) /\
    percentage_used v = float_of_int 80.
Proof.
  split; [reflexivity|]. eexists. split; [vm_compute; reflexivity | reflexivity].
Qed.

(** C2, as stated, fails on a memory sample whose total is 0: the free
    amount is 0.0, below 500, and yet no warning is printed, because the
    method raises before it prints anything. *)
Lemma memory_warning_zero_total_counterexample :
  sizes (vm_total (virtual_memory zero_memory_host 0))
        (vm_used (virtual_memory zero_memory_host 1)) (1024 ^ 2)
    = ([], Ok (S754_zero false, S754_zero false, S754_zero false)) /\
  float_lt (S754_zero false) (float_of_int 500) = true /\
  check_memory_usage zero_memory_host (init zero_memory_host)
    = ([], Raise ZeroDivisionError) /\
  ~ In memory_warning
       (output (check_memory_usage zero_memory_host (init zero_memory_host))).
Proof.
  split; [reflexivity|]. split; [reflexivity|]. split; [reflexivity|].
  intros H. exact H.
Qed.

(** C2, amended.  For every memory sample with a positive total (both
    counters unsigned 64-bit), the four assignments succeed, and the warning
    line is printed if and only if the computed [free] (total minus used,
    each divided by 1024 ** 2) is below 500; a [free] equal to 500 prints
    no warning.  When moreover used <= total < 2^53, where the conversions
    are exact, that is if and only if total - used < 500 * 1024 ** 2
    bytes. *)
Theorem memory_warning_iff (h : Host) (self : SystemCheck) :
  0 < vm_total (virtual_memory h 0) < 2 ^ 64 ->
  0 <= vm_used (virtual_memory h 1) < 2 ^ 64 ->
  exists u : usage,
    derive (vm_total (virtual_memory h 0)) (vm_used (virtual_memory h 1)) (1024 ^ 2)
      = ([], Ok u) /\
    (In memory_warning (output (check_memory_usage h self)) <->
     float_lt (free u) (float_of_int 500) = true) /\
    (SFeqb (free u) (float_of_int 500) = true ->
     ~ In memory_warning (output (check_memory_usage h self))) /\
    (vm_used (virtual_memory h 1) <= vm_total (virtual_memory h 0) ->
     vm_total (virtual_memory h 0) < 2 ^ 53 ->
     (In memory_warning (output (check_memory_usage h self)) <->
      vm_total (virtual_memory h 0) - vm_used (virtual_memory h 1) < 500 * 1024 ^ 2)).
Proof.
  set (t := vm_total (virtual_memory h 0)). set (w := vm_used (virtual_memory h 1)).
  intros Ht Hw.
  pose proof (derive_scaled t w 20 Ht Hw ltac:(lia)) as Hd.
  change (2 ^ 20) with (1024 ^ 2) in Hd.
  eexists. split; [exact Hd|].
  rewrite (check_memory_usage_ok h self _ Hd). cbn [output fst free].
  set (f := float_sub (scaled t 20) (scaled w 20)).
  set (p := percentage_used _).
  assert (Hiff : In memory_warning
            ([[Lit "---------MEMORY USAGE---------"];
              [Lit "Total: "; Fmt (VFloat (scaled t 20)) ",.2f"; Lit "MB"];
              [Lit "Used: "; Fmt (VFloat (scaled w 20)) ",.2f"; Lit "MB"];
              [Lit "Free: "; Fmt (VFloat f) ",.2f"; Lit "MB"];
              [Lit "% Memory used: "; Fmt (VFloat p) ".2f"; Lit "%"]] ++
             (if float_lt f (float_of_int 500) then [memory_warning] else []) ++ [[]]) <->
          float_lt f (float_of_int 500) = true).
  { destruct (float_lt f (float_of_int 500)); lines_differ. }
  split; [exact Hiff|]. split.
  - intros Heq Hin. apply Hiff in Hin. unfold float_lt in Hin.
    unfold SFeqb in Heq. unfold SFltb in Hin.
    destruct (SFcompare f (float_of_int 500)) as [[| |]|]; discriminate.
  - intros Hle H53. rewrite Hiff. unfold f.
    rewrite scaled_sub by lia.
    change (float_of_int 500) with (scaled (500 * 1024 ^ 2) 20).
    apply scaled_lt_iff; lia.
Qed.

Lemma memory_warning_iff_witness :
  0 < vm_total (virtual_memory linux_host 0) < 2 ^ 64 /\
  0 <= vm_used (virtual_memory linux_host 1) < 2 ^ 64 /\
  exists u : usage,
    derive (vm_total (virtual_memory linux_host 0))
           (vm_used (virtual_memory linux_host 1)) (1024 ^ 2) = ([], Ok u) /\
    (In memory_warning (output (check_memory_usage linux_host (init linux_host))) <->
     float_lt (free u) (float_of_int 500) = true) /\
    (SFeqb (free u) (float_of_int 500) = true ->
     ~ In memory_warning (output (check_memory_usage linux_host (init linux_host)))) /\
    (vm_used (virtual_memory linux_host 1) <= vm_total (virtual_memory linux_host 0) ->
     vm_total (virtual_memory linux_host 0) < 2 ^ 53 ->
     (In memory_warning (output (check_memory_usage linux_host (init linux_host))) <->
      vm_total (virtual_memory linux_host 0) - vm_used (virtual_memory linux_host 1)
        < 500 * 1024 ^ 2)).
Proof.
  split; [vm_compute; split; reflexivity|].
  split; [vm_compute; split; [discriminate | reflexivity]|].
  apply (memory_warning_iff linux_host (init linux_host)).
  - vm_compute; split; reflexivity.
  - vm_compute; split; [discriminate | reflexivity].
Defined.

(** The memory scenarios: 600 MiB of 1024 MiB used leaves 424, and warns;
    524 MiB used leaves exactly 500, and does not. *)
Example memory_scenario_424 :
  In memory_warning
     (output (check_memory_usage
                (with_memory linux_host {| vm_total := 1024 * MiB; vm_used := 600 * MiB |})
                (init linux_host))).
Proof. vm_compute. tauto. Qed.

Example memory_scenario_500 :
  check_memory_usage linux_host (init linux_host) =
  ([ [Lit "---------MEMORY USAGE---------"];
     [Lit "Total: "; Fmt (VFloat (float_of_int 1024)) ",.2f"; Lit "MB"];
     [Lit "Used: "; Fmt (VFloat (float_of_int 524)) ",.2f"; Lit "MB"];
     [Lit "Free: "; Fmt (VFloat (float_of_int 500)) ",.2f"; Lit "MB"];
     [Lit "% Memory used: ";
      Fmt (VFloat (float_mul (SFdiv prec emax (float_of_int 524) (float_of_int 1024))
                     (float_of_int 100))) ".2f"; Lit "%"];
     [] ], Ok tt).
Proof. vm_compute. reflexivity. Qed.

(** C3.  CPU warning.  For every CPU sample (the frequency is there), the
    warning line is printed if and only if the usage is greater than 80; a
    usage equal to 80 prints no warning. *)
Theorem cpu_warning_iff (h : Host) (self : SystemCheck) (fr : scpufreq) :
  cpu_freq h = Some fr ->
  (In cpu_warning (output (check_cpu_usage h self)) <->
   float_gt (cpu_percent h 1) (float_of_int 80) = true) /\
  (SFeqb (cpu_percent h 1) (float_of_int 80) = true ->
   ~ In cpu_warning (output (check_cpu_usage h self))).
Proof.
  intros Hf. rewrite (check_cpu_usage_ok h self fr Hf). cbn [output fst].
  set (p := cpu_percent h 1).
  assert (Hiff : In cpu_warning
            ([[Lit "-----------CPU USAGE-----------"];
              [Lit "CPU Frequency: "; Fmt (VFloat (current fr)) ""];
              [Lit "Physical Cores: "; Fmt (pyval_of_option_int (cpu_count h)) ""];
              [Lit "CPU Usage: "; Fmt (VFloat p) ""; Lit "%"]] ++
             (if float_gt p (float_of_int 80) then [cpu_warning] else []) ++ [[]]) <->
          float_gt p (float_of_int 80) = true).
  { destruct (float_gt p (float_of_int 80)); lines_differ. }
  split; [exact Hiff|].
  intros Heq Hin. apply Hiff in Hin. unfold float_gt in Hin.
  rewrite (SFeqb_not_lt _ _ Heq) in Hin. discriminate.
Qed.

Lemma cpu_warning_iff_witness :
  cpu_freq linux_host = Some {| current := float_of_int 2400 |} /\
  (In cpu_warning (output (check_cpu_usage linux_host (init linux_host))) <->
   float_gt (cpu_percent linux_host 1) (float_of_int 80) = true) /\
  (SFeqb (cpu_percent linux_host 1) (float_of_int 80) = true ->
   ~ In cpu_warning (output (check_cpu_usage linux_host (init linux_host)))).
Proof.
  split; [reflexivity|].
  apply (cpu_warning_iff linux_host (init linux_host) {| current := float_of_int 2400 |}).
  reflexivity.
Defined.

(** The CPU scenario: 80.0 does not warn, 80.1 (the float nearest to
    801 / 10) does. *)
Example cpu_scenario_80 :
  ~ In cpu_warning (output (check_cpu_usage linux_host (init linux_host))).
Proof. vm_compute. intuition discriminate. Qed.

Example cpu_scenario_80_1 (h : Host) (fr : scpufreq) :
  cpu_freq h = Some fr ->
  Ok (cpu_percent h 1) = int_truediv 801 10 ->
  In cpu_warning (output (check_cpu_usage h (init h))).
Proof.
  intros Hf Hp. rewrite (check_cpu_usage_ok h (init h) fr Hf).
  remember (cpu_percent h 1) as p eqn:Ep. vm_compute in Hp. injection Hp as ->.
  cbn. tauto.
Qed.

(** ** The root directory *)

(** C4, as stated, fails on a platform name that contains "Windows" without
    starting with it, such as the one Cygwin reports: the code asks about
    [/]. *)
Lemma root_path_contains_counterexample :
  contains cygwin_platform "Windows" = true /\
  root_path (init (with_platform linux_host cygwin_platform)) = "/".
Proof. split; reflexivity. Qed.

(** C4, amended.  The root directory is [C:] exactly when the platform name
    starts with "Windows", and [/] for every other name; a name that starts
    with "Windows" also contains it. *)
Theorem root_path_startswith (self : SystemCheck) :
  (root_path self = "C:" <-> startswith (os self) "Windows" = true) /\
  (root_path self = "/" <-> startswith (os self) "Windows" = false) /\
  implb (startswith (os self) "Windows") (contains (os self) "Windows") = true.
Proof.
  unfold root_path. destruct (startswith (os self) "Windows") eqn:E.
  - repeat split; try discriminate; try reflexivity.
    unfold startswith in E. destruct (os self); cbn [contains implb]; rewrite E; reflexivity.
  - repeat split; try discriminate; reflexivity.
Qed.

(** ** The derived quantities *)

(** C5, as stated, fails on a sample of 2^53 + 1 bytes with 1 used: the
    total does not fit 53 bits, its conversion is rounded, and the free
    amount the code computes is neither the byte difference [total - used]
    in the unit nor what dividing that difference would give. *)
Lemma free_not_exact_counterexample :
  0 <= 1 <= 2 ^ 53 + 1 /\ 2 ^ 53 + 1 < 2 ^ 64 /\
  exists tf uf fr fr' : float,
    sizes (2 ^ 53 + 1) 1 (1024 ^ 3) = ([], Ok (tf, uf, fr)) /\
    int_truediv (2 ^ 53 + 1 - 1) (1024 ^ 3) = Ok fr' /\
    fr <> fr' /\
    ~ exact_quotient fr (2 ^ 53 + 1 - 1) (1024 ^ 3).
Proof.
  split; [vm_compute; split; discriminate|]. split; [reflexivity|].
  do 4 eexists. split; [vm_compute; reflexivity|].
  split; [vm_compute; reflexivity|]. split; [discriminate|].
  vm_compute. intros [_ H]. discriminate H.
Qed.

(** C5, amended.  For every disk or memory sample with
    0 <= used <= total < 2^64 the first three assignments succeed; when the
    total is below 2^53 bytes the free amount is the byte difference
    [total - used] in the unit, exactly (it is what dividing the difference
    gives, and nothing is rounded away); and when the total is positive
    the fourth assignment succeeds too, with [percentage_used] between 0
    and 100. *)
Theorem usage_invariants (t u d : Z) :
  d = 1024 ^ 3 \/ d = 1024 ^ 2 ->
  0 <= u <= t -> t < 2 ^ 64 ->
  exists tf uf fr : float,
    sizes t u d = ([], Ok (tf, uf, fr)) /\
    (t < 2 ^ 53 ->
     int_truediv (t - u) d = Ok fr /\ exact_quotient fr (t - u) d) /\
    (0 < t ->
     exists v : usage,
       derive t u d = ([], Ok v) /\
       total v = tf /\ used v = uf /\ free v = fr /\
       float_le (float_of_int 0) (percentage_used v) = true /\
       float_le (percentage_used v) (float_of_int 100) = true).
Proof.
  intros Hd Hu Ht.
  assert (Hk : exists k, d = 2 ^ k /\ 10 <= k <= 64).
  { destruct Hd as [-> | ->]; [exists 30 | exists 20]; split; (reflexivity || lia). }
  destruct Hk as (k & -> & Hk).
  exists (scaled t k), (scaled u k), (float_sub (scaled t k) (scaled u k)).
  split; [apply sizes_scaled; lia|]. split.
  - intros H53. rewrite int_truediv_scaled by lia. rewrite scaled_sub by lia.
    split; [reflexivity | apply scaled_exact; lia].
  - intros Hpos. eexists. split; [apply derive_scaled; lia|].
    cbn [total used free percentage_used].
    repeat split; apply (percentage_bounds t u k); lia.
Qed.

Lemma usage_invariants_witness :
  (1024 ^ 3 = 1024 ^ 3 \/ 1024 ^ 3 = 1024 ^ 2) /\
  0 <= 85 * GiB <= 100 * GiB /\ 100 * GiB < 2 ^ 64 /\
  exists tf uf fr : float,
    sizes (100 * GiB) (85 * GiB) (1024 ^ 3) = ([], Ok (tf, uf, fr)) /\
    (100 * GiB < 2 ^ 53 ->
     int_truediv (100 * GiB - 85 * GiB) (1024 ^ 3) = Ok fr /\
     exact_quotient fr (100 * GiB - 85 * GiB) (1024 ^ 3)) /\
    (0 < 100 * GiB ->
     exists v : usage,
       derive (100 * GiB) (85 * GiB) (1024 ^ 3) = ([], Ok v) /\
       total v = tf /\ used v = uf /\ free v = fr /\
       float_le (float_of_int 0) (percentage_used v) = true /\
       float_le (percentage_used v) (float_of_int 100) = true).
Proof.
  split; [left; reflexivity|].
  split; [vm_compute; split; discriminate|].
  split; [reflexivity|].
  apply (usage_invariants (100 * GiB) (85 * GiB) (1024 ^ 3)).
  - left; reflexivity.
  - vm_compute; split; discriminate.
  - reflexivity.
Defined.

(** ** Failures *)

(** C6, as stated, fails on a sample whose total is 0: the disk method and
    the memory method raise [ZeroDivisionError] without printing anything,
    and the run ends there. *)
Lemma zero_total_counterexample :
  check_disk_usage zero_disk_host (init zero_disk_host)
    = ([], Raise ZeroDivisionError) /\
  check_memory_usage zero_memory_host (init zero_memory_host)
    = ([], Raise ZeroDivisionError) /\
  outcome (main zero_disk_host) = Raise ZeroDivisionError /\
  outcome (main zero_memory_host) = Raise ZeroDivisionError.
Proof. repeat split; reflexivity. Qed.

(** C6, amended.  For every disk or memory sample whose total is 0
    (the used counter unsigned 64-bit), the percentage computation raises
    [ZeroDivisionError]; nothing catches it (the disk method's handler
    is for [OSError]), the method prints nothing, and the run ends with
    that exception, after the output of the groups before it. *)
Theorem zero_total_raises (h : Host) (du : sdiskusage) :
  0 <= du_used du < 2 ^ 64 ->
  0 <= vm_used (virtual_memory h 1) < 2 ^ 64 ->
  (disk_usage h (root_path (init h)) = Ok du -> du_total du = 0 ->
   check_disk_usage h (init h) = ([], Raise ZeroDivisionError) /\
   (completes (check_system_info h (init h)) ->
    main h = (output (check_system_info h (init h)), Raise ZeroDivisionError))) /\
  (vm_total (virtual_memory h 0) = 0 ->
   check_memory_usage h (init h) = ([], Raise ZeroDivisionError) /\
   (completes (check_system_info h (init h)) ->
    completes (check_disk_usage h (init h)) ->
    completes (check_cpu_usage h (init h)) ->
    main h = (output (check_system_info h (init h)) ++
              output (check_disk_usage h (init h)) ++
              output (check_cpu_usage h (init h)), Raise ZeroDivisionError))).
Proof.
  intros Hu Hw. split.
  - intros Hq Hz.
    assert (Hd : check_disk_usage h (init h) = ([], Raise ZeroDivisionError)).
    { apply (check_disk_usage_raises h (init h) du); [exact Hq | | reflexivity].
      rewrite Hz. change (1024 ^ 3) with (2 ^ 30). apply derive_zero_total; lia. }
    split; [exact Hd|]. intros Hs.
    rewrite main_unfold, (seq_completes _ _ Hs).
    rewrite (seq_raises _ _ ZeroDivisionError) by (rewrite Hd; reflexivity).
    rewrite Hd. cbn [output outcome fst snd]. rewrite app_nil_r. reflexivity.
  - intros Hz.
    assert (Hm : check_memory_usage h (init h) = ([], Raise ZeroDivisionError)).
    { apply check_memory_usage_raises.
      rewrite Hz. change (1024 ^ 2) with (2 ^ 20). apply derive_zero_total; lia. }
    split; [exact Hm|]. intros Hs Hd Hc.
    rewrite main_unfold, (seq_completes _ _ Hs), (seq_completes _ _ Hd),
      (seq_completes _ _ Hc).
    rewrite (seq_raises _ _ ZeroDivisionError) by (rewrite Hm; reflexivity).
    rewrite Hm. cbn [output outcome fst snd]. rewrite !app_nil_r. reflexivity.
Qed.

Lemma zero_total_raises_witness :
  0 <= du_used {| du_total := 0; du_used := 0 |} < 2 ^ 64 /\
  0 <= vm_used (virtual_memory zero_totals_host 1) < 2 ^ 64 /\
  (disk_usage zero_totals_host (root_path (init zero_totals_host))
     = Ok {| du_total := 0; du_used := 0 |} ->
   du_total {| du_total := 0; du_used := 0 |} = 0 ->
   check_disk_usage zero_totals_host (init zero_totals_host)
     = ([], Raise ZeroDivisionError) /\
   (completes (check_system_info zero_totals_host (init zero_totals_host)) ->
    main zero_totals_host
      = (output (check_system_info zero_totals_host (init zero_totals_host)),
         Raise ZeroDivisionError))) /\
  (vm_total (virtual_memory zero_totals_host 0) = 0 ->
   check_memory_usage zero_totals_host (init zero_totals_host)
     = ([], Raise ZeroDivisionError) /\
   (completes (check_system_info zero_totals_host (init zero_totals_host)) ->
    completes (check_disk_usage zero_totals_host (init zero_totals_host)) ->
    completes (check_cpu_usage zero_totals_host (init zero_totals_host)) ->
    main zero_totals_host
      = (output (check_system_info zero_totals_host (init zero_totals_host)) ++
         output (check_disk_usage zero_totals_host (init zero_totals_host)) ++
         output (check_cpu_usage zero_totals_host (init zero_totals_host)),
         Raise ZeroDivisionError))).
Proof.
  split; [vm_compute; split; [discriminate | reflexivity]|].
  split; [vm_compute; split; [discriminate | reflexivity]|].
  apply (zero_total_raises zero_totals_host {| du_total := 0; du_used := 0 |}).
  - vm_compute; split; [discriminate | reflexivity].
  - vm_compute; split; [discriminate | reflexivity].
Defined.



(** C8, as stated, fails when the user name cannot be had: the exception
    leaves [check_system_info] and ends the run; nothing is printed and no
    other group is collected. *)
Lemma identity_failure_counterexample :
  getuser no_user_host = Raise KeyError /\
  main no_user_host = ([], Raise KeyError).
Proof. split; reflexivity. Qed.

(** C8, amended.  When the user name or the boot time cannot be had, the
    exception leaves [check_system_info] uncaught and ends the run at once:
    nothing is printed and no other group is collected. *)
Theorem identity_failure_aborts (h : Host) (e : pyexn) :
  getuser h = Raise e \/
  ((exists name, getuser h = Ok name) /\ boot_time h = Raise e) ->
  check_system_info h (init h) = ([], Raise e) /\ main h = ([], Raise e).
Proof.
  intros H.
  assert (Hs : check_system_info h (init h) = ([], Raise e)).
  { unfold check_system_info. destruct H as [-> | [[name ->] ->]]; reflexivity. }
  split; [exact Hs|].
  rewrite main_unfold, (seq_raises _ _ e) by (rewrite Hs; reflexivity).
  rewrite Hs. reflexivity.
Qed.

Lemma identity_failure_aborts_witness :
  (getuser no_user_host = Raise KeyError \/
   ((exists name, getuser no_user_host = Ok name) /\
    boot_time no_user_host = Raise KeyError)) /\
  check_system_info no_user_host (init no_user_host) = ([], Raise KeyError) /\
  main no_user_host = ([], Raise KeyError).
Proof.
  split; [left; reflexivity|].
  apply (identity_failure_aborts no_user_host KeyError). left; reflexivity.
Defined.

(** C9, as stated, fails when [psutil.cpu_freq()] answers [None]: reading
    [.current] raises [AttributeError], so the CPU group prints nothing,
    not even the core count that is there, and the run ends before the
    memory and network groups. *)
Lemma missing_cpu_frequency_counterexample :
  cpu_count no_freq_host = Some 4 /\
  check_cpu_usage no_freq_host (init no_freq_host) = ([], Raise AttributeError) /\
  outcome (main no_freq_host) = Raise AttributeError /\
  ~ In [Lit "Physical Cores: "; Fmt (VInt 4) ""] (output (main no_freq_host)).
Proof.
  split; [reflexivity|]. split; [reflexivity|]. split; [reflexivity|].
  vm_compute. intuition discriminate.
Qed.

(** C9, amended.  When the frequency query answers [None], the CPU method
    raises [AttributeError] before it prints anything, and the run ends
    there, after the output of the identity and disk groups. *)
Theorem missing_cpu_frequency_aborts (h : Host) :
  cpu_freq h = None ->
  completes (check_system_info h (init h)) ->
  completes (check_disk_usage h (init h)) ->
  check_cpu_usage h (init h) = ([], Raise AttributeError) /\
  main h = (output (check_system_info h (init h)) ++
            output (check_disk_usage h (init h)), Raise AttributeError).
Proof.
  intros Hf Hs Hd.
  pose proof (check_cpu_usage_no_freq h (init h) Hf) as Hc.
  split; [exact Hc|].
  rewrite main_unfold, (seq_completes _ _ Hs), (seq_completes _ _ Hd).
  rewrite (seq_raises _ _ AttributeError) by (rewrite Hc; reflexivity).
  rewrite Hc. cbn [output outcome fst snd]. rewrite app_nil_r. reflexivity.
Qed.

Lemma missing_cpu_frequency_aborts_witness :
  cpu_freq no_freq_host = None /\
  completes (check_system_info no_freq_host (init no_freq_host)) /\
  completes (check_disk_usage no_freq_host (init no_freq_host)) /\
  check_cpu_usage no_freq_host (init no_freq_host) = ([], Raise AttributeError) /\
  main no_freq_host =
    (output (check_system_info no_freq_host (init no_freq_host)) ++
     output (check_disk_usage no_freq_host (init no_freq_host)), Raise AttributeError).
Proof.
  split; [reflexivity|].
  split; [exists tt; reflexivity|]. split; [exists tt; reflexivity|].
  apply (missing_cpu_frequency_aborts no_freq_host).
  - reflexivity.
  - exists tt; reflexivity.
  - exists tt; reflexivity.
Defined.

(** ** The unit conversion *)

(** C10, as stated, fails on a volume of 2^63 + 1024 bytes: the total does
    not fit 53 bits, the conversion rounds it, and the percentage taken on
    the converted quantities is above 80 while the one taken on the byte
    counters is 80.0; the warning decision differs. *)
Lemma unit_conversion_counterexample :
  0 <= du_used huge_disk <= du_total huge_disk /\ du_total huge_disk < 2 ^ 64 /\
  exists (u : usage) (r : float),
    derive (du_total huge_disk) (du_used huge_disk) (1024 ^ 3) = ([], Ok u) /\
    raw_percentage (du_total huge_disk) (du_used huge_disk) = ([], Ok r) /\
    percentage_used u <> r /\
    float_gt (percentage_used u) (float_of_int 80) = true /\
    float_gt r (float_of_int 80) = false.
Proof.
  split; [vm_compute; split; discriminate|]. split; [reflexivity|].
  eexists. eexists. split; [vm_compute; reflexivity|].
  split; [vm_compute; reflexivity|].
  cbn [percentage_used]. split; [discriminate|]. split; reflexivity.
Qed.

(** C10, amended.  For every disk or memory sample with a positive total
    and both counters below 2^53 bytes, the percentage computed from the
    unit-converted quantities is the very float [used / total * 100]
    computed on the byte counters, so the warning decision is the same. *)
Theorem percentage_unit_independent (t u d : Z) :
  d = 1024 ^ 3 \/ d = 1024 ^ 2 ->
  0 < t < 2 ^ 53 -> 0 <= u < 2 ^ 53 ->
  exists v : usage,
    derive t u d = ([], Ok v) /\
    raw_percentage t u = ([], Ok (percentage_used v)).
Proof.
  intros Hd Ht Hu.
  assert (Hk : exists k, d = 2 ^ k /\ 10 <= k <= 64).
  { destruct Hd as [-> | ->]; [exists 30 | exists 20]; split; (reflexivity || lia). }
  destruct Hk as (k & -> & Hk).
  eexists. split; [apply derive_scaled; lia|].
  cbn [percentage_used]. unfold raw_percentage.
  rewrite (ratio_scaled t u k) by lia. reflexivity.
Qed.

Lemma percentage_unit_independent_witness :
  (1024 ^ 3 = 1024 ^ 3 \/ 1024 ^ 3 = 1024 ^ 2) /\
  0 < 100 * GiB < 2 ^ 53 /\ 0 <= 85 * GiB < 2 ^ 53 /\
  exists v : usage,
    derive (100 * GiB) (85 * GiB) (1024 ^ 3) = ([], Ok v) /\
    raw_percentage (100 * GiB) (85 * GiB) = ([], Ok (percentage_used v)).
Proof.
  split; [left; reflexivity|].
  split; [vm_compute; split; reflexivity|].
  split; [vm_compute; split; [discriminate | reflexivity]|].
  apply (percentage_unit_independent (100 * GiB) (85 * GiB) (1024 ^ 3)).
  - left; reflexivity.
  - vm_compute; split; reflexivity.
  - vm_compute; split; [discriminate | reflexivity].
Defined.

(** * Further properties of the methods *)

(** ** More on rounding: order by value *)

Lemma pow2_pos (k : Z) : 0 <= k -> 0 < 2 ^ k.
Proof. intros. apply Z.pow_pos_nonneg; lia. Qed.

(** [X1 * 2 ^ A <= X2 * 2 ^ B] when the exponents agree and [X1 <= X2], or
    when [A < B] and [X1] is at most twice [X2]. *)
Lemma scaled_le (X1 X2 A B : Z) :
  0 <= A -> 0 <= B -> 0 <= X1 -> 0 <= X2 ->
  (A = B /\ X1 <= X2) \/ (A < B /\ X1 <= 2 * X2) ->
  X1 * 2 ^ A <= X2 * 2 ^ B.
Proof.
  intros HA HB H1 H2 [[-> H] | [Hlt H]].
  - apply Z.mul_le_mono_nonneg_r; [apply Z.pow_nonneg; lia | exact H].
  - replace B with (A + 1 + (B - A - 1)) by lia.
    rewrite !pow2_split by lia. change (2 ^ 1) with 2.
    pose proof (pow2_pos A HA). pose proof (pow2_pos (B - A - 1) ltac:(lia)).
    assert (X1 * 2 ^ A <= X2 * (2 ^ A * 2)) by nia.
    assert (X2 * (2 ^ A * 2) * 1 <= X2 * (2 ^ A * 2) * 2 ^ (B - A - 1)).
    { apply Z.mul_le_mono_nonneg_l; nia. }
    nia.
Qed.

Lemma nround_le_value (N1 D1 e1 N2 D2 e2 : Z) :
  0 < D1 -> 2 ^ 52 * D1 <= N1 < 2 ^ 53 * D1 ->
  0 < D2 -> 2 ^ 52 * D2 <= N2 < 2 ^ 53 * D2 ->
  N1 * D2 * 2 ^ (e1 - Z.min e1 e2) <= N2 * D1 * 2 ^ (e2 - Z.min e1 e2) ->
  SFleb (nround N1 D1 e1) (nround N2 D2 e2) = true.
Proof.
  intros HD1 HN1 HD2 HN2 H. apply nround_le; try assumption.
  destruct (Z.lt_trichotomy e1 e2) as [Hlt | [Heq | Hgt]]; [left; exact Hlt | right | exfalso].
  - subst e2. rewrite Z.min_id, Z.sub_diag in H. change (2 ^ 0) with 1 in H. lia.
  - rewrite Z.min_r, Z.sub_diag in H by lia. change (2 ^ 0) with 1 in H.
    replace (e1 - e2) with (1 + (e1 - e2 - 1)) in H by lia.
    rewrite pow2_split in H by lia. change (2 ^ 1) with 2 in H.
    pose proof (pow2_pos (e1 - e2 - 1) ltac:(lia)) as Hp.
    assert (N1 * D2 * 2 * 1 <= N1 * D2 * 2 * 2 ^ (e1 - e2 - 1)).
    { apply Z.mul_le_mono_nonneg_l; nia. }
    assert (2 ^ 52 * D1 * D2 <= N1 * D2) by nia.
    assert (N2 * D1 < 2 ^ 53 * D2 * D1) by nia.
    nia.
Qed.

(** The quotient [mx * 2 ^ s / my] that [SFdiv] rounds is 53 or 54 bits
    wide; with the divisor doubled in the second case it is 53 bits wide. *)
Lemma div_normalized (mx my : positive) :
  let d1 := Zpos (digits2_pos mx) in
  let d2 := Zpos (digits2_pos my) in
  let N := Zpos mx * 2 ^ (53 + d2 - d1) in
  let n := if 2 ^ 53 <=? N / Zpos my then 1 else 0 in
  d1 <= d2 + 53 ->
  0 <= n <= 1 /\ 2 ^ 52 * (Zpos my * 2 ^ n) <= N < 2 ^ 53 * (Zpos my * 2 ^ n).
Proof.
  intros d1 d2 N n Hd.
  pose proof (digits2_pos_bounds mx) as Bx. pose proof (digits2_pos_bounds my) as By.
  fold d1 in Bx. fold d2 in By.
  assert (HS : 2 ^ (d1 - 1) * 2 ^ (53 + d2 - d1) = 2 ^ 53 * 2 ^ (d2 - 1)).
  { rewrite <- !Z.pow_add_r by (unfold d1, d2; lia). f_equal. lia. }
  assert (Hd1 : 2 ^ d1 = 2 * 2 ^ (d1 - 1)).
  { rewrite <- Z.pow_succ_r by (unfold d1; lia). f_equal. lia. }
  assert (Hd2 : 2 ^ d2 = 2 * 2 ^ (d2 - 1)).
  { rewrite <- Z.pow_succ_r by (unfold d2; lia). f_equal. lia. }
  assert (HB : 0 < 2 ^ (d2 - 1)) by (apply Z.pow_pos_nonneg; unfold d2; lia).
  assert (HSp : 0 < 2 ^ (53 + d2 - d1)) by (apply Z.pow_pos_nonneg; lia).
  rewrite Hd1 in Bx. rewrite Hd2 in By.
  assert (HN : 2 ^ 53 * 2 ^ (d2 - 1) <= N < 2 ^ 54 * 2 ^ (d2 - 1)).
  { unfold N. revert HS Bx HSp HB.
    generalize (2 ^ (d1 - 1)) (2 ^ (53 + d2 - d1)) (2 ^ (d2 - 1)). intros A S B. nia. }
  pose proof (Z.div_mod N (Zpos my) ltac:(lia)) as Hdm.
  pose proof (Z.mod_pos_bound N (Zpos my) ltac:(lia)) as Hr.
  unfold n. destruct (Z.leb_spec (2 ^ 53) (N / Zpos my)) as [Hge|Hlt].
  - split; [lia|]. change (2 ^ 1) with 2.
    revert HN By. generalize (2 ^ (d2 - 1)). intros; nia.
  - split; [lia|]. change (2 ^ 0) with 1.
    revert HN By. generalize (2 ^ (d2 - 1)). intros; nia.
Qed.

(** Integer division is monotone in the value of the fraction. *)
Lemma int_truediv_le (a b c d : positive) :
  Zpos (digits2_pos a) <= Zpos (digits2_pos b) + 53 ->
  Zpos (digits2_pos b) <= Zpos (digits2_pos a) + 1021 ->
  Zpos (digits2_pos c) <= Zpos (digits2_pos d) + 53 ->
  Zpos (digits2_pos d) <= Zpos (digits2_pos c) + 1021 ->
  Zpos a * Zpos d <= Zpos c * Zpos b ->
  exists x y : float,
    int_truediv (Zpos a) (Zpos b) = Ok x /\ int_truediv (Zpos c) (Zpos d) = Ok y /\
    SFleb x y = true.
Proof.
  intros Ha1 Ha2 Hc1 Hc2 Hle.
  rewrite (int_truediv_nround a b Ha1 Ha2), (int_truediv_nround c d Hc1 Hc2).
  eexists. eexists. split; [reflexivity|]. split; [reflexivity|].
  destruct (div_normalized a b Ha1) as [Hn1 HN1].
  destruct (div_normalized c d Hc1) as [Hn2 HN2].
  set (da := Zpos (digits2_pos a)) in *. set (db := Zpos (digits2_pos b)) in *.
  set (dc := Zpos (digits2_pos c)) in *. set (dd := Zpos (digits2_pos d)) in *.
  set (n1 := if 2 ^ 53 <=? Zpos a * 2 ^ (53 + db - da) / Zpos b then 1 else 0) in *.
  set (n2 := if 2 ^ 53 <=? Zpos c * 2 ^ (53 + dd - dc) / Zpos d then 1 else 0) in *.
  clearbody n1 n2.
  pose proof (pow2_pos n1 ltac:(lia)) as P1. pose proof (pow2_pos n2 ltac:(lia)) as P2.
  apply nround_le_value; try lia.
  set (E1 := da - db - 53 + n1). set (E2 := dc - dd - 53 + n2).
  set (M := Z.min E1 E2).
  set (K := n1 + n2 - M).
  assert (HK : 0 <= K) by (unfold K, M, E1, E2; lia).
  replace (Zpos a * 2 ^ (53 + db - da) * (Zpos d * 2 ^ n2) * 2 ^ (E1 - M))
     with (Zpos a * Zpos d * 2 ^ K).
  2:{ replace K with ((53 + db - da) + n2 + (E1 - M)) by (unfold K, E1; lia).
      rewrite !pow2_split by (unfold M, E1, E2; lia). ring. }
  replace (Zpos c * 2 ^ (53 + dd - dc) * (Zpos b * 2 ^ n1) * 2 ^ (E2 - M))
     with (Zpos c * Zpos b * 2 ^ K).
  2:{ replace K with ((53 + dd - dc) + n1 + (E2 - M)) by (unfold K, E2; lia).
      rewrite !pow2_split by (unfold M, E1, E2; lia). ring. }
  apply Z.mul_le_mono_nonneg_r; [apply Z.pow_nonneg; lia | exact Hle].
Qed.

Lemma float_mul_100_nround (mq : positive) (eq : Z) :
  let N := Zpos mq * 7036874417766400 in
  let n := if N <? 2 ^ 105 then 52 else 53 in
  2 ^ 52 <= Zpos mq < 2 ^ 53 -> -1000 <= eq <= 900 ->
  float_mul (S754_finite false mq eq) (float_of_int 100) = nround N (2 ^ n) (eq - 46 + n) /\
  52 <= n <= 53 /\ 2 ^ 52 * 2 ^ n <= N < 2 ^ 53 * 2 ^ n.
Proof.
  intros N n Hq Hrange.
  rewrite float_of_int_100. unfold float_mul, SFmul. cbn [xorb].
  assert (EN : Zpos (mq * 7036874417766400) = N) by (unfold N; rewrite Pos2Z.inj_mul; reflexivity).
  rewrite EN.
  assert (HN : 2 ^ 104 <= N < 2 ^ 106) by (unfold N; lia).
  assert (Hdig : Zdigits2 N = 53 + n).
  { unfold n. destruct (Z.ltb_spec N (2 ^ 105)).
    - apply Zdigits2_unique; [change (53 + 52 - 1) with 104; change (53 + 52) with 105|]; lia.
    - apply Zdigits2_unique; [change (53 + 53 - 1) with 105; change (53 + 53) with 106|]; lia. }
  assert (Hn : 52 <= n <= 53) by (unfold n; destruct (N <? 2 ^ 105); lia).
  assert (Hnorm : 2 ^ 52 * 2 ^ n <= N < 2 ^ 53 * 2 ^ n).
  { unfold n in *. destruct (Z.ltb_spec N (2 ^ 105)).
    + change (2 ^ 52 * 2 ^ 52) with (2 ^ 104). change (2 ^ 53 * 2 ^ 52) with (2 ^ 105). lia.
    + change (2 ^ 52 * 2 ^ 53) with (2 ^ 105). change (2 ^ 53 * 2 ^ 53) with (2 ^ 106). lia. }
  split; [|split; assumption].
  rewrite (binary_round_aux_rne N (eq + -46) loc_Exact N 1 n); try lia.
  - rewrite Z.mul_1_l. pose proof (pow2_pos n ltac:(lia)).
    rewrite finalize_normal by lia. f_equal; lia.
  - rewrite Z.div_1_r. reflexivity.
  - rewrite Z.mod_1_r. reflexivity.
  - rewrite Hdig. unfold fexp, emin, prec, emax. lia.
Qed.

(** Multiplying by 100 preserves the order of normal numbers. *)
Lemma float_mul_100_mono (m1 m2 : positive) (e1 e2 : Z) :
  2 ^ 52 <= Zpos m1 < 2 ^ 53 -> 2 ^ 52 <= Zpos m2 < 2 ^ 53 ->
  -1000 <= e1 <= 900 -> -1000 <= e2 <= 900 ->
  SFleb (S754_finite false m1 e1) (S754_finite false m2 e2) = true ->
  SFleb (float_mul (S754_finite false m1 e1) (float_of_int 100))
        (float_mul (S754_finite false m2 e2) (float_of_int 100)) = true.
Proof.
  intros B1 B2 R1 R2 Hle. apply SFleb_finite in Hle.
  destruct (float_mul_100_nround m1 e1 B1 R1) as (-> & Hn1 & HN1).
  destruct (float_mul_100_nround m2 e2 B2 R2) as (-> & Hn2 & HN2).
  set (n1 := if Zpos m1 * 7036874417766400 <? 2 ^ 105 then 52 else 53) in *.
  set (n2 := if Zpos m2 * 7036874417766400 <? 2 ^ 105 then 52 else 53) in *.
  clearbody n1 n2.
  pose proof (pow2_pos n1 ltac:(lia)) as P1. pose proof (pow2_pos n2 ltac:(lia)) as P2.
  apply nround_le_value; try lia.
  set (E1 := e1 - 46 + n1). set (E2 := e2 - 46 + n2). set (M := Z.min E1 E2).
  replace (Zpos m1 * 7036874417766400 * 2 ^ n2 * 2 ^ (E1 - M))
     with (Zpos m1 * 7036874417766400 * 2 ^ (n2 + (E1 - M)))
    by (rewrite pow2_split by (unfold M; lia); ring).
  replace (Zpos m2 * 7036874417766400 * 2 ^ n1 * 2 ^ (E2 - M))
     with (Zpos m2 * 7036874417766400 * 2 ^ (n1 + (E2 - M)))
    by (rewrite pow2_split by (unfold M; lia); ring).
  apply scaled_le; unfold M, E1, E2; lia.
Qed.

(** Division by a fixed normal number preserves the order of normal
    numbers. *)
Lemma SFdiv_num_mono (m1 m2 my : positive) (e1 e2 ey : Z) :
  2 ^ 52 <= Zpos m1 < 2 ^ 53 -> 2 ^ 52 <= Zpos m2 < 2 ^ 53 ->
  2 ^ 52 <= Zpos my < 2 ^ 53 ->
  -1000 <= e1 - ey <= 1000 -> -1000 <= e2 - ey <= 1000 ->
  SFleb (S754_finite false m1 e1) (S754_finite false m2 e2) = true ->
  SFleb (SFdiv prec emax (S754_finite false m1 e1) (S754_finite false my ey))
        (SFdiv prec emax (S754_finite false m2 e2) (S754_finite false my ey)) = true.
Proof.
  intros B1 B2 By R1 R2 Hle. apply SFleb_finite in Hle.
  pose proof (SFdiv_nround m1 my e1 ey) as H1. cbv zeta in H1.
  pose proof (SFdiv_nround m2 my e2 ey) as H2. cbv zeta in H2.
  pose proof (div_normalized m1 my) as N1. cbv zeta in N1.
  pose proof (div_normalized m2 my) as N2. cbv zeta in N2.
  rewrite (digits2_pos_53 m1 B1), (digits2_pos_53 my By) in H1, N1.
  rewrite (digits2_pos_53 m2 B2), (digits2_pos_53 my By) in H2, N2.
  replace (53 + 53 - 53) with 53 in H1, H2, N1, N2 by lia.
  rewrite H1, H2 by lia. clear H1 H2.
  destruct (N1 ltac:(lia)) as [Hn1 HN1]. destruct (N2 ltac:(lia)) as [Hn2 HN2]. clear N1 N2.
  set (n1 := if 2 ^ 53 <=? Zpos m1 * 2 ^ 53 / Zpos my then 1 else 0) in *.
  set (n2 := if 2 ^ 53 <=? Zpos m2 * 2 ^ 53 / Zpos my then 1 else 0) in *.
  clearbody n1 n2.
  pose proof (pow2_pos n1 ltac:(lia)) as P1. pose proof (pow2_pos n2 ltac:(lia)) as P2.
  apply nround_le_value; try lia.
  set (E1 := 53 + e1 - (53 + ey) - 53 + n1). set (E2 := 53 + e2 - (53 + ey) - 53 + n2).
  set (M := Z.min E1 E2).
  replace (Zpos m1 * 2 ^ 53 * (Zpos my * 2 ^ n2) * 2 ^ (E1 - M))
     with (2 ^ 53 * Zpos my * (Zpos m1 * 2 ^ (n2 + (E1 - M))))
    by (rewrite (pow2_split n2) by (unfold M; lia); ring).
  replace (Zpos m2 * 2 ^ 53 * (Zpos my * 2 ^ n1) * 2 ^ (E2 - M))
     with (2 ^ 53 * Zpos my * (Zpos m2 * 2 ^ (n1 + (E2 - M))))
    by (rewrite (pow2_split n1) by (unfold M; lia); ring).
  apply Z.mul_le_mono_nonneg_l; [lia|].
  apply scaled_le; unfold M, E1, E2; lia.
Qed.

(** The quotient of two normal numbers is a normal number. *)
Lemma SFdiv_finite (mx my : positive) (ex ey : Z) :
  2 ^ 52 <= Zpos mx < 2 ^ 53 -> 2 ^ 52 <= Zpos my < 2 ^ 53 ->
  -1000 <= ex - ey <= 1000 ->
  exists (mq : positive) (eq : Z),
    SFdiv prec emax (S754_finite false mx ex) (S754_finite false my ey)
      = S754_finite false mq eq /\
    2 ^ 52 <= Zpos mq < 2 ^ 53 /\ ex - ey - 53 <= eq <= ex - ey - 51.
Proof.
  intros Bx By R.
  pose proof (SFdiv_nround mx my ex ey) as H1. cbv zeta in H1.
  pose proof (div_normalized mx my) as N1. cbv zeta in N1.
  rewrite (digits2_pos_53 mx Bx), (digits2_pos_53 my By) in H1, N1.
  replace (53 + 53 - 53) with 53 in H1, N1 by lia.
  rewrite H1 by lia. clear H1. destruct (N1 ltac:(lia)) as [Hn HN]. clear N1.
  set (n := if 2 ^ 53 <=? Zpos mx * 2 ^ 53 / Zpos my then 1 else 0) in *. clearbody n.
  pose proof (pow2_pos n ltac:(lia)) as P.
  destruct (nround_finite (Zpos mx * 2 ^ 53) (Zpos my * 2 ^ n) (53 + ex - (53 + ey) - 53 + n))
    as (mq & eq & E & B & C); [lia | exact HN |].
  exists mq, eq. split; [exact E|]. split; [exact B|].
  destruct C as [[-> _] | (-> & _)]; lia.
Qed.

Lemma float_mul_100_finite (mq : positive) (eq : Z) :
  2 ^ 52 <= Zpos mq < 2 ^ 53 -> -1000 <= eq <= 900 ->
  exists (m : positive) (e : Z),
    float_mul (S754_finite false mq eq) (float_of_int 100) = S754_finite false m e /\
    2 ^ 52 <= Zpos m < 2 ^ 53.
Proof.
  intros B R. destruct (float_mul_100_nround mq eq B R) as (-> & Hn & HN).
  set (n := if Zpos mq * 7036874417766400 <? 2 ^ 105 then 52 else 53) in *. clearbody n.
  pose proof (pow2_pos n ltac:(lia)) as P.
  destruct (nround_finite (Zpos mq * 7036874417766400) (2 ^ n) (eq - 46 + n) P HN)
    as (m & e & E & B' & _).
  exists m, e. split; assumption.
Qed.


(** ** The percentage as a function of the counters *)

Lemma scaled_finite (t k : Z) :
  0 < t < 2 ^ 64 -> 0 <= k <= 64 ->
  exists (m : positive) (e : Z),
    scaled t k = S754_finite false m e /\ 2 ^ 52 <= Zpos m < 2 ^ 53 /\
    -200 <= e <= 200.
Proof.
  intros Ht Hk. destruct (conv_finite t k Ht) as (m & e & E & B & R).
  pose proof (Zdigits2_le_64 t Ht).
  exists m, e. split; [|split; [exact B | lia]].
  unfold scaled. destruct (Z.eqb_spec t 0); [lia | exact E].
Qed.

Lemma scaled_mono (u1 u2 k : Z) :
  0 < u1 <= u2 -> u2 < 2 ^ 64 -> SFleb (scaled u1 k) (scaled u2 k) = true.
Proof.
  intros H1 H2. unfold scaled.
  destruct (Z.eqb_spec u1 0); [lia|]. destruct (Z.eqb_spec u2 0); [lia|].
  apply conv_mono; lia.
Qed.

Lemma percentage_of_zero (t k : Z) :
  0 < t < 2 ^ 64 -> 0 <= k <= 64 -> percentage_of t 0 k = S754_zero false.
Proof.
  intros Ht Hk. destruct (scaled_finite t k Ht Hk) as (m & e & E & _).
  unfold percentage_of. rewrite E. reflexivity.
Qed.

Lemma percentage_of_finite (t u k : Z) :
  0 < t < 2 ^ 64 -> 0 < u < 2 ^ 64 -> 0 <= k <= 64 ->
  exists (m : positive) (e : Z),
    percentage_of t u k = S754_finite false m e /\ 2 ^ 52 <= Zpos m < 2 ^ 53.
Proof.
  intros Ht Hu Hk.
  destruct (scaled_finite t k Ht Hk) as (mt & et & Et & Bt & Rt).
  destruct (scaled_finite u k Hu Hk) as (mu & eu & Eu & Bu & Ru).
  unfold percentage_of. rewrite Et, Eu.
  destruct (SFdiv_finite mu mt eu et Bu Bt ltac:(lia)) as (mq & eq & -> & Bq & Rq).
  apply float_mul_100_finite; [exact Bq | lia].
Qed.

(** More used, on the same total, never gives a smaller percentage. *)
Lemma percentage_of_mono (t u1 u2 k : Z) :
  0 < t < 2 ^ 64 -> 0 <= u1 <= u2 -> u2 < 2 ^ 64 -> 0 <= k <= 64 ->
  SFleb (percentage_of t u1 k) (percentage_of t u2 k) = true.
Proof.
  intros Ht H1 H2 Hk.
  destruct (Z.eq_dec u1 0) as [->|N1].
  - rewrite percentage_of_zero by lia.
    destruct (Z.eq_dec u2 0) as [->|N2].
    + rewrite percentage_of_zero by lia. reflexivity.
    + destruct (percentage_of_finite t u2 k Ht ltac:(lia) Hk) as (m & e & -> & _). reflexivity.
  - destruct (scaled_finite t k Ht Hk) as (mt & et & Et & Bt & Rt).
    destruct (scaled_finite u1 k ltac:(lia) Hk) as (m1 & e1 & E1 & B1 & R1).
    destruct (scaled_finite u2 k ltac:(lia) Hk) as (m2 & e2 & E2 & B2 & R2).
    pose proof (scaled_mono u1 u2 k ltac:(lia) H2) as Hle. rewrite E1, E2 in Hle.
    pose proof (SFdiv_num_mono m1 m2 mt e1 e2 et B1 B2 Bt ltac:(lia) ltac:(lia) Hle) as Hq.
    unfold percentage_of. rewrite Et, E1, E2.
    destruct (SFdiv_finite m1 mt e1 et B1 Bt ltac:(lia)) as (q1 & f1 & Q1 & C1 & S1).
    destruct (SFdiv_finite m2 mt e2 et B2 Bt ltac:(lia)) as (q2 & f2 & Q2 & C2 & S2).
    rewrite Q1, Q2 in *. apply float_mul_100_mono; try assumption; lia.
Qed.

Lemma SFltb_leb_trans (ma : positive) (ea : Z) (x y : float) :
  (x = S754_zero false \/ exists m e, x = S754_finite false m e) ->
  (y = S754_zero false \/ exists m e, y = S754_finite false m e) ->
  SFltb (S754_finite false ma ea) x = true -> SFleb x y = true ->
  SFltb (S754_finite false ma ea) y = true.
Proof.
  intros [-> | (mx & ex & ->)] [-> | (my & ey & ->)] H1 H2; try discriminate.
  apply SFltb_finite in H1. apply SFleb_finite in H2. apply SFltb_finite. lia.
Qed.

Lemma SFleb_not_lt (m1 m2 : positive) (e1 e2 : Z) :
  SFleb (S754_finite false m1 e1) (S754_finite false m2 e2) = true ->
  SFltb (S754_finite false m2 e2) (S754_finite false m1 e1) = false.
Proof.
  intros H. apply SFleb_finite in H.
  destruct (SFltb (S754_finite false m2 e2) (S754_finite false m1 e1)) eqn:E; [|reflexivity].
  apply SFltb_finite in E. lia.
Qed.

Lemma SFleb_trans_finite (m1 m2 m3 : positive) (e1 e2 e3 : Z) :
  SFleb (S754_finite false m1 e1) (S754_finite false m2 e2) = true ->
  SFleb (S754_finite false m2 e2) (S754_finite false m3 e3) = true ->
  SFleb (S754_finite false m1 e1) (S754_finite false m3 e3) = true.
Proof. rewrite !SFleb_finite. lia. Qed.

(** Below 2^53 the percentage is the rounded fraction [u / t] times 100,
    and the rounding of a fraction is monotone: fractions at or below
    [4 / 5] give at most 80.0, and fractions at or above
    [(8 * 10^15 + 1) / 10^16] give more. *)
Lemma percentage_of_le_80 (t u k : Z) :
  0 < t < 2 ^ 53 -> 0 <= u < 2 ^ 53 -> 0 <= k <= 64 ->
  5 * u <= 4 * t ->
  float_gt (percentage_of t u k) (float_of_int 80) = false.
Proof.
  intros Ht Hu Hk H.
  destruct (Z.eq_dec u 0) as [->|Nu].
  - rewrite percentage_of_zero by lia. reflexivity.
  - pose proof (ratio_scaled t u k Ht Hu ltac:(lia)) as Hr.
    pose proof (Zdigits2_le_53 t Ht) as Dt. pose proof (Zdigits2_le_53 u ltac:(lia)) as Du.
    destruct (scaled_finite t k ltac:(lia) Hk) as (mt & et & Et & Bt & Rt).
    destruct (scaled_finite u k ltac:(lia) Hk) as (mu & eu & Eu & Bu & Ru).
    destruct (SFdiv_finite mu mt eu et Bu Bt ltac:(lia)) as (mq & eq & Q & Bq & Rq).
    unfold percentage_of. rewrite Et, Eu in *. rewrite Q in *.
    destruct u as [|a|a]; try lia. destruct t as [|b|b]; try lia.
    change (Zdigits2 (Zpos a)) with (Zpos (digits2_pos a)) in Du.
    change (Zdigits2 (Zpos b)) with (Zpos (digits2_pos b)) in Dt.
    destruct (int_truediv_le a b 4 5) as (x & y & Hx & Hy & Hle);
      try (cbn [digits2_pos Pos.succ]; lia).
    rewrite Hr in Hx. injection Hx as <-.
    vm_compute in Hy. injection Hy as <-.
    pose proof (float_mul_100_mono mq 7205759403792794 eq (-53) Bq ltac:(lia) ltac:(lia)
                  ltac:(lia) Hle) as Hp.
    destruct (float_mul_100_finite mq eq Bq ltac:(lia)) as (m & e & E & _).
    rewrite E in *.
    change (float_mul (S754_finite false 7205759403792794 (-53)) (float_of_int 100))
      with (S754_finite false 5629499534213120 (-46)) in Hp.
    rewrite float_of_int_80. unfold float_gt. apply SFleb_not_lt. exact Hp.
Qed.

Lemma percentage_of_gt_80 (t u k : Z) :
  0 < t < 2 ^ 53 -> 0 <= u < 2 ^ 53 -> 0 <= k <= 64 ->
  (8 * 10 ^ 15 + 1) * t <= 10 ^ 16 * u ->
  float_gt (percentage_of t u k) (float_of_int 80) = true.
Proof.
  intros Ht Hu Hk H.
  assert (Nu : 0 < u) by lia.
  pose proof (ratio_scaled t u k Ht Hu ltac:(lia)) as Hr.
  pose proof (Zdigits2_le_53 t Ht) as Dt. pose proof (Zdigits2_le_53 u ltac:(lia)) as Du.
  destruct (scaled_finite t k ltac:(lia) Hk) as (mt & et & Et & Bt & Rt).
  destruct (scaled_finite u k ltac:(lia) Hk) as (mu & eu & Eu & Bu & Ru).
  destruct (SFdiv_finite mu mt eu et Bu Bt ltac:(lia)) as (mq & eq & Q & Bq & Rq).
  unfold percentage_of. rewrite Et, Eu in *. rewrite Q in *.
  destruct u as [|a|a]; try lia. destruct t as [|b|b]; try lia.
  change (Zdigits2 (Zpos a)) with (Zpos (digits2_pos a)) in Du.
  change (Zdigits2 (Zpos b)) with (Zpos (digits2_pos b)) in Dt.
  destruct (int_truediv_le 8000000000000001 10000000000000000 a b) as (x & y & Hx & Hy & Hle);
    try (vm_compute; discriminate); try (cbn [digits2_pos Pos.succ]; lia).
  rewrite Hr in Hy. injection Hy as <-.
  vm_compute in Hx. injection Hx as <-.
  pose proof (float_mul_100_mono 7205759403792795 mq (-53) eq ltac:(lia) Bq ltac:(lia)
                ltac:(lia) Hle) as Hp.
  destruct (float_mul_100_finite mq eq Bq ltac:(lia)) as (m & e & E & _).
  rewrite E in *.
  change (float_mul (S754_finite false 7205759403792795 (-53)) (float_of_int 100))
    with (S754_finite false 5629499534213121 (-46)) in Hp.
  rewrite float_of_int_80. unfold float_gt.
  apply SFleb_finite in Hp. apply SFltb_finite. lia.
Qed.

Lemma derive_percentage_of (t u k : Z) :
  0 < t < 2 ^ 64 -> 0 <= u < 2 ^ 64 -> 10 <= k <= 64 ->
  exists v : usage,
    derive t u (2 ^ k) = ([], Ok v) /\ percentage_used v = percentage_of t u k /\
    free v = float_sub (scaled t k) (scaled u k).
Proof.
  intros Ht Hu Hk. eexists. split; [apply derive_scaled; lia|]. split; reflexivity.
Qed.

Lemma disk_warning_in (h : Host) (self : SystemCheck) (du : sdiskusage) (u : usage) :
  disk_usage h (root_path self) = Ok du ->
  derive (du_total du) (du_used du) (1024 ^ 3) = ([], Ok u) ->
  In disk_warning (output (check_disk_usage h self)) <->
  float_gt (percentage_used u) (float_of_int 80) = true.
Proof.
  intros Hq Hd. rewrite (check_disk_usage_ok h self du u Hq Hd). cbn [output fst].
  destruct (float_gt (percentage_used u) (float_of_int 80)); lines_differ.
Qed.

Lemma disk_warning_in_percentage (h : Host) (self : SystemCheck) (du : sdiskusage) :
  disk_usage h (root_path self) = Ok du ->
  0 < du_total du < 2 ^ 64 -> 0 <= du_used du < 2 ^ 64 ->
  In disk_warning (output (check_disk_usage h self)) <->
  float_gt (percentage_of (du_total du) (du_used du) 30) (float_of_int 80) = true.
Proof.
  intros Hq Ht Hu.
  destruct (derive_percentage_of (du_total du) (du_used du) 30 Ht Hu ltac:(lia))
    as (v & Hd & Hp & _).
  change (2 ^ 30) with (1024 ^ 3) in Hd.
  rewrite (disk_warning_in h self du v Hq Hd), Hp. reflexivity.
Qed.

(** ** Rounding an integer times a power of two *)

(** Away from the subnormal range and from overflow, [binary_round] is the
    rounding of the mantissa to 53 bits. *)
Lemma binary_round_nround (p : positive) (e : Z) :
  let d := Zpos (digits2_pos p) in
  let a := Z.max (53 - d) 0 in
  let b := Z.max (d - 53) 0 in
  -1000 <= e -> d + e <= 1000 ->
  binary_round prec emax false p e = nround (Zpos p * 2 ^ a) (2 ^ b) (d + e - 53) /\
  2 ^ 52 * 2 ^ b <= Zpos p * 2 ^ a < 2 ^ 53 * 2 ^ b.
Proof.
  intros d a b He Hde.
  pose proof (digits2_pos_bounds p) as Bp. fold d in Bp.
  assert (Hd : 0 < d) by (unfold d; lia).
  assert (Hnorm : 2 ^ 52 * 2 ^ b <= Zpos p * 2 ^ a < 2 ^ 53 * 2 ^ b).
  { unfold a, b. destruct (Z_le_gt_dec d 53) as [Hle|Hgt].
    - rewrite (Z.max_l (53 - d)), (Z.max_r (d - 53)) by lia. change (2 ^ 0) with 1.
      assert (E1 : 2 ^ (d - 1) * 2 ^ (53 - d) = 2 ^ 52) by (rewrite <- pow2_split by lia; f_equal; lia).
      assert (E2 : 2 ^ d * 2 ^ (53 - d) = 2 ^ 53) by (rewrite <- pow2_split by lia; f_equal; lia).
      pose proof (pow2_pos (53 - d) ltac:(lia)) as P.
      revert E1 E2 Bp P. generalize (2 ^ (d - 1)) (2 ^ d) (2 ^ (53 - d)). intros; nia.
    - rewrite (Z.max_r (53 - d)), (Z.max_l (d - 53)) by lia. change (2 ^ 0) with 1.
      assert (E1 : 2 ^ 52 * 2 ^ (d - 53) = 2 ^ (d - 1)) by (rewrite <- pow2_split by lia; f_equal; lia).
      assert (E2 : 2 ^ 53 * 2 ^ (d - 53) = 2 ^ d) by (rewrite <- pow2_split by lia; f_equal; lia).
      rewrite E1, E2. lia. }
  split; [|exact Hnorm].
  unfold binary_round. fold d.
  replace (fexp prec emax (d + e)) with (d + e - 53) by (unfold fexp, emin, prec, emax; lia).
  rewrite shl_align_eq.
  destruct (Z.ltb_spec (d + e - 53) e) as [Hlt|Hge].
  - (* fewer than 53 bits: the mantissa is shifted left, nothing is lost *)
    assert (Hm : Zpos (fst (shl_align p e (d + e - 53))) = Zpos p * 2 ^ a).
    { rewrite shl_align_fst by lia. unfold a. rewrite Z.max_l by lia. f_equal. f_equal. lia. }
    assert (Eb : b = 0) by (unfold b; lia). rewrite Eb in *. change (2 ^ 0) with 1 in *.
    rewrite Hm.
    rewrite (binary_round_aux_rne (Zpos p * 2 ^ a) (d + e - 53) loc_Exact (Zpos p * 2 ^ a) 1 0);
      try lia.
    + rewrite Z.add_0_r. change (1 * 2 ^ 0) with 1. apply finalize_normal; lia.
    + rewrite Z.div_1_r. reflexivity.
    + rewrite Z.mod_1_r. reflexivity.
    + rewrite (Zdigits2_unique (Zpos p * 2 ^ a) 53) by (change (53 - 1) with 52; lia).
      unfold fexp, emin, prec, emax. lia.
  - assert (Ea : a = 0) by (unfold a; lia). rewrite Ea in *. change (2 ^ 0) with 1 in *.
    rewrite Z.mul_1_r in *.
    assert (Eb : b = d - 53) by (unfold b; lia).
    rewrite (binary_round_aux_rne (Zpos p) e loc_Exact (Zpos p) 1 b); try lia.
    + rewrite Z.mul_1_l. replace (e + b) with (d + e - 53) by lia.
      apply finalize_normal; try lia; apply pow2_pos; lia.
    + rewrite Z.div_1_r. reflexivity.
    + rewrite Z.mod_1_r. reflexivity.
    + cbn [Zdigits2]. fold d. unfold fexp, emin, prec, emax. lia.
Qed.

(** [binary_round] is monotone in the value [p * 2 ^ e]. *)
Lemma binary_round_mono (p1 p2 : positive) (e1 e2 : Z) :
  -1000 <= e1 -> Zpos (digits2_pos p1) + e1 <= 1000 ->
  -1000 <= e2 -> Zpos (digits2_pos p2) + e2 <= 1000 ->
  Zpos p1 * 2 ^ (e1 - Z.min e1 e2) <= Zpos p2 * 2 ^ (e2 - Z.min e1 e2) ->
  SFleb (binary_round prec emax false p1 e1) (binary_round prec emax false p2 e2) = true.
Proof.
  intros L1 U1 L2 U2 H.
  destruct (binary_round_nround p1 e1 L1 U1) as [-> N1].
  destruct (binary_round_nround p2 e2 L2 U2) as [-> N2].
  set (d1 := Zpos (digits2_pos p1)) in *. set (d2 := Zpos (digits2_pos p2)) in *.
  assert (Hd1 : 0 < d1) by (unfold d1; lia). assert (Hd2 : 0 < d2) by (unfold d2; lia).
  set (a1 := Z.max (53 - d1) 0) in *. set (b1 := Z.max (d1 - 53) 0) in *.
  set (a2 := Z.max (53 - d2) 0) in *. set (b2 := Z.max (d2 - 53) 0) in *.
  pose proof (pow2_pos b1 ltac:(unfold b1; lia)) as P1.
  pose proof (pow2_pos b2 ltac:(unfold b2; lia)) as P2.
  apply nround_le_value; try assumption.
  set (E1 := d1 + e1 - 53). set (E2 := d2 + e2 - 53). set (M := Z.min E1 E2).
  set (m := Z.min e1 e2) in *.
  set (K := b1 + b2 - M + m).
  assert (HK : 0 <= K) by (unfold K, M, E1, E2, m, b1, b2; lia).
  replace (Zpos p1 * 2 ^ a1 * 2 ^ b2 * 2 ^ (E1 - M))
     with (Zpos p1 * 2 ^ (e1 - m) * 2 ^ K).
  2:{ rewrite <- !Z.mul_assoc. f_equal.
      rewrite <- !pow2_split by (unfold K, M, E1, E2, m, a1, b1, b2; lia).
      f_equal. unfold K, M, E1, E2, m, a1, b1, b2. lia. }
  replace (Zpos p2 * 2 ^ a2 * 2 ^ b1 * 2 ^ (E2 - M))
     with (Zpos p2 * 2 ^ (e2 - m) * 2 ^ K).
  2:{ rewrite <- !Z.mul_assoc. f_equal.
      rewrite <- !pow2_split by (unfold K, M, E1, E2, m, a2, b1, b2; lia).
      f_equal. unfold K, M, E1, E2, m, a2, b1, b2. lia. }
  apply Z.mul_le_mono_nonneg_r; [apply Z.pow_nonneg; lia | exact H].
Qed.

Lemma binary_round_finite (p : positive) (e : Z) :
  -1000 <= e -> Zpos (digits2_pos p) + e <= 1000 ->
  exists m e', binary_round prec emax false p e = S754_finite false m e'.
Proof.
  intros L U. destruct (binary_round_nround p e L U) as [-> N].
  assert (P : 0 < 2 ^ Z.max (Zpos (digits2_pos p) - 53) 0) by (apply pow2_pos; lia).
  destruct (nround_finite _ _ (Zpos (digits2_pos p) + e - 53) P N) as (m & e' & E & _).
  exists m, e'. exact E.
Qed.

Lemma digits2_pos_le (p : positive) (k : Z) :
  Zpos p < 2 ^ k -> 0 <= k -> Zpos (digits2_pos p) <= k.
Proof.
  intros H Hk. pose proof (digits2_pos_bounds p) as B.
  destruct (Z_le_gt_dec (Zpos (digits2_pos p)) k) as [|Hgt]; [assumption|exfalso].
  assert (2 ^ k <= 2 ^ (Zpos (digits2_pos p) - 1)) by (apply Z.pow_le_mono_r; lia). lia.
Qed.

(** The difference of two normal numbers, the second not above the first:
    a mantissa at the smaller exponent. *)
Lemma float_sub_normal (mx my : positive) (ex ey : Z) :
  2 ^ 52 <= Zpos mx < 2 ^ 53 -> 2 ^ 52 <= Zpos my < 2 ^ 53 ->
  SFleb (S754_finite false my ey) (S754_finite false mx ex) = true ->
  float_sub (S754_finite false mx ex) (S754_finite false my ey) =
  binary_normalize prec emax (Zpos mx * 2 ^ (ex - ey) - Zpos my) ey false /\
  0 <= Zpos mx * 2 ^ (ex - ey) - Zpos my < 2 ^ (53 + (ex - ey)) /\ ey <= ex.
Proof.
  intros Bx By Hle. apply SFleb_finite in Hle.
  assert (He : ey <= ex) by lia.
  pose proof (pow2_pos (ex - ey) ltac:(lia)) as P.
  split; [|split; [|exact He]].
  - unfold float_sub, SFsub. cbn [cond_Zopp]. rewrite !shl_align_fst by lia.
    rewrite Z.min_r by lia. rewrite Z.sub_diag. change (2 ^ 0) with 1.
    rewrite Z.mul_1_r. reflexivity.
  - rewrite pow2_split by lia. split; [|nia].
    destruct Hle as [Hlt | [-> Hm]].
    + replace (ex - ey) with (1 + (ex - ey - 1)) by lia.
      rewrite pow2_split by lia. change (2 ^ 1) with 2.
      pose proof (pow2_pos (ex - ey - 1) ltac:(lia)). nia.
    + rewrite Z.sub_diag. change (2 ^ 0) with 1. lia.
Qed.

Lemma float_sub_shape (mx my : positive) (ex ey : Z) :
  2 ^ 52 <= Zpos mx < 2 ^ 53 -> 2 ^ 52 <= Zpos my < 2 ^ 53 ->
  -500 <= ey -> ex <= 500 ->
  SFleb (S754_finite false my ey) (S754_finite false mx ex) = true ->
  float_sub (S754_finite false mx ex) (S754_finite false my ey) = S754_zero false \/
  exists m e,
    float_sub (S754_finite false mx ex) (S754_finite false my ey) = S754_finite false m e.
Proof.
  intros Bx By Ly Ux Hle.
  destruct (float_sub_normal mx my ex ey Bx By Hle) as (-> & Hd & He).
  destruct (Zpos mx * 2 ^ (ex - ey) - Zpos my) as [|p|p] eqn:E; try lia.
  - left. reflexivity.
  - right. cbn [binary_normalize]. apply binary_round_finite; [lia|].
    pose proof (digits2_pos_le p (53 + (ex - ey)) ltac:(lia) ltac:(lia)). lia.
Qed.

(** Subtracting more from the same number never gives more. *)
Lemma float_sub_antitone (mx m1 m2 : positive) (ex e1 e2 : Z) :
  2 ^ 52 <= Zpos mx < 2 ^ 53 -> 2 ^ 52 <= Zpos m1 < 2 ^ 53 -> 2 ^ 52 <= Zpos m2 < 2 ^ 53 ->
  -500 <= e1 -> ex <= 500 ->
  SFleb (S754_finite false m1 e1) (S754_finite false m2 e2) = true ->
  SFleb (S754_finite false m2 e2) (S754_finite false mx ex) = true ->
  SFleb (float_sub (S754_finite false mx ex) (S754_finite false m2 e2))
        (float_sub (S754_finite false mx ex) (S754_finite false m1 e1)) = true.
Proof.
  intros Bx B1 B2 L1 Ux H12 H2x.
  assert (H1x : SFleb (S754_finite false m1 e1) (S754_finite false mx ex) = true).
  { exact (SFleb_trans_finite _ _ _ _ _ _ H12 H2x). }
  destruct (float_sub_normal mx m1 ex e1 Bx B1 H1x) as (-> & D1 & He1).
  destruct (float_sub_normal mx m2 ex e2 Bx B2 H2x) as (-> & D2 & He2).
  apply SFleb_finite in H12.
  assert (He : e1 <= e2) by lia.
  assert (Hval : (Zpos mx * 2 ^ (ex - e2) - Zpos m2) * 2 ^ (e2 - e1)
                 <= Zpos mx * 2 ^ (ex - e1) - Zpos m1).
  { rewrite Z.mul_sub_distr_r, <- Z.mul_assoc, <- pow2_split by lia.
    replace (ex - e2 + (e2 - e1)) with (ex - e1) by lia.
    assert (Zpos m1 <= Zpos m2 * 2 ^ (e2 - e1)); [|lia].
    destruct H12 as [Hlt | [Heq Hm]].
    - replace (e2 - e1) with (1 + (e2 - e1 - 1)) by lia.
      rewrite pow2_split by lia. change (2 ^ 1) with 2.
      pose proof (pow2_pos (e2 - e1 - 1) ltac:(lia)). nia.
    - rewrite Heq, Z.sub_diag. change (2 ^ 0) with 1. lia. }
  pose proof (pow2_pos (e2 - e1) ltac:(lia)) as P.
  destruct (Zpos mx * 2 ^ (ex - e2) - Zpos m2) as [|p2|p2] eqn:E2; try lia.
  - (* the smaller difference is zero *)
    cbn [binary_normalize].
    destruct (Zpos mx * 2 ^ (ex - e1) - Zpos m1) as [|p1|p1] eqn:E1; try lia.
    + reflexivity.
    + cbn [binary_normalize].
      destruct (binary_round_finite p1 e1 ltac:(lia)) as (m & e & ->); [|reflexivity].
      pose proof (digits2_pos_le p1 (53 + (ex - e1)) ltac:(lia) ltac:(lia)). lia.
  - destruct (Zpos mx * 2 ^ (ex - e1) - Zpos m1) as [|p1|p1] eqn:E1; try nia.
    cbn [binary_normalize]. apply binary_round_mono; try lia.
    + pose proof (digits2_pos_le p2 (53 + (ex - e2)) ltac:(lia) ltac:(lia)). lia.
    + pose proof (digits2_pos_le p1 (53 + (ex - e1)) ltac:(lia) ltac:(lia)). lia.
    + rewrite Z.min_r by lia. rewrite Z.sub_diag. change (2 ^ 0) with 1. lia.
Qed.

(** What is left after a subtraction is not above what one started with. *)
Lemma float_sub_le_self (mx my : positive) (ex ey : Z) :
  2 ^ 52 <= Zpos mx < 2 ^ 53 -> 2 ^ 52 <= Zpos my < 2 ^ 53 ->
  -500 <= ey -> ex <= 500 ->
  SFleb (S754_finite false my ey) (S754_finite false mx ex) = true ->
  SFleb (float_sub (S754_finite false mx ex) (S754_finite false my ey))
        (S754_finite false mx ex) = true.
Proof.
  intros Bx By Ly Ux Hle.
  destruct (float_sub_normal mx my ex ey Bx By Hle) as (-> & D & He).
  pose proof (pow2_pos (ex - ey) ltac:(lia)) as P.
  destruct (Zpos mx * 2 ^ (ex - ey) - Zpos my) as [|p|p] eqn:E; try lia.
  - reflexivity.
  - cbn [binary_normalize].
    assert (Ex : binary_round prec emax false mx ex = S754_finite false mx ex).
    { apply binary_round_exact; try lia;
        intros _; rewrite Z.sub_diag; change (2 ^ 0) with 1; lia. }
    rewrite <- Ex.
    apply binary_round_mono; try lia.
    + pose proof (digits2_pos_le p (53 + (ex - ey)) ltac:(lia) ltac:(lia)). lia.
    + rewrite (digits2_pos_53 mx Bx). lia.
    + rewrite Z.min_l by lia. rewrite Z.sub_diag. change (2 ^ 0) with 1. lia.
Qed.

Lemma free_shape (t u k : Z) :
  0 <= u <= t -> 0 < t < 2 ^ 64 -> 0 <= k <= 64 ->
  float_sub (scaled t k) (scaled u k) = S754_zero false \/
  exists m e, float_sub (scaled t k) (scaled u k) = S754_finite false m e.
Proof.
  intros Hu Ht Hk.
  destruct (scaled_finite t k Ht Hk) as (mt & et & Et & Bt & Rt).
  destruct (Z.eq_dec u 0) as [->|Nu].
  - right. exists mt, et. rewrite Et. reflexivity.
  - destruct (scaled_finite u k ltac:(lia) Hk) as (mu & eu & Eu & Bu & Ru).
    pose proof (scaled_mono u t k ltac:(lia) ltac:(lia)) as Hle.
    rewrite Et, Eu in *. apply float_sub_shape; try assumption; lia.
Qed.

(** More used, on the same total, never leaves more free. *)
Lemma free_antitone (t u1 u2 k : Z) :
  0 <= u1 <= u2 -> u2 <= t -> 0 < t < 2 ^ 64 -> 0 <= k <= 64 ->
  SFleb (float_sub (scaled t k) (scaled u2 k)) (float_sub (scaled t k) (scaled u1 k)) = true.
Proof.
  intros H1 H2 Ht Hk.
  destruct (scaled_finite t k Ht Hk) as (mt & et & Et & Bt & Rt).
  destruct (Z.eq_dec u2 0) as [E2|N2].
  - assert (u1 = 0) by lia. subst u1 u2. rewrite Et.
    change (scaled 0 k) with (S754_zero false). cbn. apply SFleb_finite. lia.
  - destruct (scaled_finite u2 k ltac:(lia) Hk) as (m2 & e2 & Eu2 & B2 & R2).
    pose proof (scaled_mono u2 t k ltac:(lia) ltac:(lia)) as H2t.
    destruct (Z.eq_dec u1 0) as [->|N1].
    + rewrite Et, Eu2 in *. change (scaled 0 k) with (S754_zero false).
      change (float_sub (S754_finite false mt et) (S754_zero false))
        with (S754_finite false mt et).
      apply float_sub_le_self; try assumption; lia.
    + destruct (scaled_finite u1 k ltac:(lia) Hk) as (m1 & e1 & Eu1 & B1 & R1).
      pose proof (scaled_mono u1 u2 k ltac:(lia) ltac:(lia)) as H12.
      rewrite Et, Eu1, Eu2 in *. apply float_sub_antitone; try assumption; lia.
Qed.

Lemma SFleb_ltb_trans (mc : positive) (ec : Z) (x y : float) :
  (x = S754_zero false \/ exists m e, x = S754_finite false m e) ->
  (y = S754_zero false \/ exists m e, y = S754_finite false m e) ->
  SFleb x y = true -> SFltb y (S754_finite false mc ec) = true ->
  SFltb x (S754_finite false mc ec) = true.
Proof.
  intros [-> | (mx & ex & ->)] [-> | (my & ey & ->)] H1 H2; try reflexivity;
    try discriminate.
  apply SFleb_finite in H1. apply SFltb_finite in H2. apply SFltb_finite. lia.
Qed.

Lemma memory_warning_in (h : Host) (self : SystemCheck) :
  0 < vm_total (virtual_memory h 0) < 2 ^ 64 ->
  0 <= vm_used (virtual_memory h 1) < 2 ^ 64 ->
  In memory_warning (output (check_memory_usage h self)) <->
  float_lt (float_sub (scaled (vm_total (virtual_memory h 0)) 20)
                      (scaled (vm_used (virtual_memory h 1)) 20))
           (float_of_int 500) = true.
Proof.
  intros Ht Hu.
  destruct (derive_percentage_of (vm_total (virtual_memory h 0))
              (vm_used (virtual_memory h 1)) 20 Ht Hu ltac:(lia)) as (v & Hd & _ & Hf).
  change (2 ^ 20) with (1024 ^ 2) in Hd.
  rewrite (check_memory_usage_ok h self v Hd), Hf. cbn [output fst].
  destruct (float_lt _ (float_of_int 500)); lines_differ.
Qed.

(** Division of a fixed normal number reverses the order of normal
    divisors. *)
Lemma SFdiv_den_antitone (mx m1 m2 : positive) (ex e1 e2 : Z) :
  2 ^ 52 <= Zpos mx < 2 ^ 53 -> 2 ^ 52 <= Zpos m1 < 2 ^ 53 ->
  2 ^ 52 <= Zpos m2 < 2 ^ 53 ->
  -1000 <= ex - e1 <= 1000 -> -1000 <= ex - e2 <= 1000 ->
  SFleb (S754_finite false m1 e1) (S754_finite false m2 e2) = true ->
  SFleb (SFdiv prec emax (S754_finite false mx ex) (S754_finite false m2 e2))
        (SFdiv prec emax (S754_finite false mx ex) (S754_finite false m1 e1)) = true.
Proof.
  intros Bx B1 B2 R1 R2 Hle. apply SFleb_finite in Hle.
  pose proof (SFdiv_nround mx m1 ex e1) as H1. cbv zeta in H1.
  pose proof (SFdiv_nround mx m2 ex e2) as H2. cbv zeta in H2.
  pose proof (div_normalized mx m1) as N1. cbv zeta in N1.
  pose proof (div_normalized mx m2) as N2. cbv zeta in N2.
  rewrite (digits2_pos_53 mx Bx), (digits2_pos_53 m1 B1) in H1, N1.
  rewrite (digits2_pos_53 mx Bx), (digits2_pos_53 m2 B2) in H2, N2.
  replace (53 + 53 - 53) with 53 in H1, H2, N1, N2 by lia.
  rewrite H1, H2 by lia. clear H1 H2.
  destruct (N1 ltac:(lia)) as [Hn1 HN1]. destruct (N2 ltac:(lia)) as [Hn2 HN2]. clear N1 N2.
  set (n1 := if 2 ^ 53 <=? Zpos mx * 2 ^ 53 / Zpos m1 then 1 else 0) in *.
  set (n2 := if 2 ^ 53 <=? Zpos mx * 2 ^ 53 / Zpos m2 then 1 else 0) in *.
  clearbody n1 n2.
  pose proof (pow2_pos n1 ltac:(lia)) as P1. pose proof (pow2_pos n2 ltac:(lia)) as P2.
  apply nround_le_value; try lia.
  set (E1 := 53 + ex - (53 + e1) - 53 + n1). set (E2 := 53 + ex - (53 + e2) - 53 + n2).
  set (M := Z.min E2 E1).
  replace (Zpos mx * 2 ^ 53 * (Zpos m1 * 2 ^ n1) * 2 ^ (E2 - M))
     with (Zpos mx * 2 ^ 53 * (Zpos m1 * 2 ^ (n1 + (E2 - M))))
    by (rewrite (pow2_split n1) by (unfold M; lia); ring).
  replace (Zpos mx * 2 ^ 53 * (Zpos m2 * 2 ^ n2) * 2 ^ (E1 - M))
     with (Zpos mx * 2 ^ 53 * (Zpos m2 * 2 ^ (n2 + (E1 - M))))
    by (rewrite (pow2_split n2) by (unfold M; lia); ring).
  apply Z.mul_le_mono_nonneg_l; [lia|].
  apply scaled_le; unfold M, E1, E2; lia.
Qed.

(** A larger total, with the same used, never gives a larger percentage. *)
Lemma percentage_of_antitone (t1 t2 u k : Z) :
  0 < t2 <= t1 -> t1 < 2 ^ 64 -> 0 <= u < 2 ^ 64 -> 0 <= k <= 64 ->
  SFleb (percentage_of t1 u k) (percentage_of t2 u k) = true.
Proof.
  intros H2 H1 Hu Hk.
  destruct (Z.eq_dec u 0) as [->|Nu].
  - rewrite !percentage_of_zero by lia. reflexivity.
  - destruct (scaled_finite t1 k ltac:(lia) Hk) as (m1 & e1 & E1 & B1 & R1).
    destruct (scaled_finite t2 k ltac:(lia) Hk) as (m2 & e2 & E2 & B2 & R2).
    destruct (scaled_finite u k ltac:(lia) Hk) as (mu & eu & Eu & Bu & Ru).
    pose proof (scaled_mono t2 t1 k ltac:(lia) H1) as Hle. rewrite E1, E2 in Hle.
    pose proof (SFdiv_den_antitone mu m2 m1 eu e2 e1 Bu B2 B1 ltac:(lia) ltac:(lia) Hle) as Hq.
    unfold percentage_of. rewrite E1, E2, Eu.
    destruct (SFdiv_finite mu m1 eu e1 Bu B1 ltac:(lia)) as (q1 & f1 & Q1 & C1 & S1).
    destruct (SFdiv_finite mu m2 eu e2 Bu B2 ltac:(lia)) as (q2 & f2 & Q2 & C2 & S2).
    rewrite Q1, Q2 in *. apply float_mul_100_mono; try assumption; lia.
Qed.

Lemma percentage_of_shape (t u k : Z) :
  0 < t < 2 ^ 64 -> 0 <= u < 2 ^ 64 -> 0 <= k <= 64 ->
  percentage_of t u k = S754_zero false \/
  exists m e, percentage_of t u k = S754_finite false m e.
Proof.
  intros Ht Hu Hk. destruct (Z.eq_dec u 0) as [->|N].
  - left. apply percentage_of_zero; lia.
  - right. destruct (percentage_of_finite t u k Ht ltac:(lia) Hk) as (m & e & E & _).
    exists m, e. exact E.
Qed.

(** ** Free space is never negative *)

Lemma finalize_nonneg (m e : Z) :
  0 <= m -> float_le (float_of_int 0) (finalize m e) = true.
Proof.
  intros Hm. unfold finalize, shr_fexp.
  assert (Hrep : represents (shr_record_of_loc m loc_Exact) m 1).
  { split; cbn [shr_record_of_loc shr_m loc_of_shr_record].
    - rewrite Z.div_1_r. reflexivity.
    - rewrite Z.mod_1_r. reflexivity. }
  destruct (shr_represents _ e (fexp prec emax (Zdigits2 m + e) - e) m 1 ltac:(lia) Hm Hrep)
    as [[H1 _] _].
  destruct (shr (shr_record_of_loc m loc_Exact) e (fexp prec emax (Zdigits2 m + e) - e))
    as [mrs e'].
  cbn [fst] in H1. rewrite H1.
  assert (Hq : 0 <= m / (1 * 2 ^ Z.max (fexp prec emax (Zdigits2 m + e) - e) 0)).
  { apply Z.div_pos; [exact Hm|]. rewrite Z.mul_1_l. apply pow2_pos. lia. }
  destruct (m / (1 * 2 ^ Z.max (fexp prec emax (Zdigits2 m + e) - e) 0)) as [|p|p]; try lia.
  - reflexivity.
  - destruct (e' <=? emax - prec); reflexivity.
Qed.

Lemma rne_div_nonneg (N D : Z) : 0 < D -> 0 <= N -> 0 <= rne_div N D.
Proof.
  intros HD HN. pose proof (rne_div_range N D HD HN).
  assert (0 <= N / D) by (apply Z.div_pos; lia). lia.
Qed.

Lemma binary_round_nonneg (m : positive) (e : Z) :
  float_le (float_of_int 0) (binary_round prec emax false m e) = true.
Proof.
  unfold binary_round.
  destruct (shl_align m e (fexp prec emax (Zpos (digits2_pos m) + e))) as [mz ez].
  rewrite (binary_round_aux_rne (Zpos mz) ez loc_Exact (Zpos mz) 1
             (Z.max (fexp prec emax (Zdigits2 (Zpos mz) + ez) - ez) 0)); try lia.
  - apply finalize_nonneg. apply rne_div_nonneg; [|lia].
    rewrite Z.mul_1_l. apply pow2_pos. lia.
  - rewrite Z.div_1_r. reflexivity.
  - rewrite Z.mod_1_r. reflexivity.
Qed.

Lemma float_sub_nonneg (mx my : positive) (ex ey : Z) :
  2 ^ 52 <= Zpos mx < 2 ^ 53 -> 2 ^ 52 <= Zpos my < 2 ^ 53 ->
  SFleb (S754_finite false my ey) (S754_finite false mx ex) = true ->
  float_le (float_of_int 0)
    (float_sub (S754_finite false mx ex) (S754_finite false my ey)) = true.
Proof.
  intros Bx By Hle. apply SFleb_finite in Hle.
  unfold float_sub, SFsub. cbn [cond_Zopp].
  rewrite !shl_align_fst by lia.
  assert (Hd : 0 <= Zpos mx * 2 ^ (ex - Z.min ex ey) - Zpos my * 2 ^ (ey - Z.min ex ey)).
  { destruct Hle as [Hlt | [-> Hm]].
    - rewrite Z.min_r by lia. rewrite Z.sub_diag. change (2 ^ 0) with 1.
      replace (ex - ey) with (1 + (ex - ey - 1)) by lia.
      rewrite pow2_split by lia. change (2 ^ 1) with 2.
      pose proof (pow2_pos (ex - ey - 1) ltac:(lia)). nia.
    - rewrite Z.min_id, Z.sub_diag. change (2 ^ 0) with 1. lia. }
  destruct (Zpos mx * 2 ^ (ex - Z.min ex ey) - Zpos my * 2 ^ (ey - Z.min ex ey))
    as [|p|p]; try lia.
  - reflexivity.
  - cbn [binary_normalize]. apply binary_round_nonneg.
Qed.

Lemma free_nonneg (t u k : Z) :
  0 <= u <= t -> t < 2 ^ 64 -> 0 <= k <= 64 ->
  float_le (float_of_int 0) (float_sub (scaled t k) (scaled u k)) = true.
Proof.
  intros Hu Ht Hk.
  destruct (Z.eq_dec t 0) as [->|Nt].
  - assert (u = 0) by lia. subst u. reflexivity.
  - destruct (scaled_finite t k ltac:(lia) Hk) as (mt & et & Et & Bt & _).
    destruct (Z.eq_dec u 0) as [->|Nu].
    + rewrite Et. reflexivity.
    + destruct (scaled_finite u k ltac:(lia) Hk) as (mu & eu & Eu & Bu & _).
      pose proof (scaled_mono u t k ltac:(lia) ltac:(lia)) as Hle.
      rewrite Et, Eu in *. apply float_sub_nonneg; assumption.
Qed.

(** ** Further properties of the disk and memory methods *)

(** C1, as stated, fails on a volume of 5 * 10^15 + 1 bytes with
    4 * 10^15 + 1 used: the used share is above 80%
    ([80 * total < 100 * used]), the computed percentage is rounded to
    exactly 80.0, and no warning is printed. *)
Lemma disk_warning_rounding_counterexample :
  disk_usage petabyte_host (root_path (init petabyte_host))
    = Ok {| du_total := 5 * 10 ^ 15 + 1; du_used := 4 * 10 ^ 15 + 1 |} /\
  0 < 5 * 10 ^ 15 + 1 /\ 0 <= 4 * 10 ^ 15 + 1 <= 5 * 10 ^ 15 + 1 /\
  80 * (5 * 10 ^ 15 + 1) < 100 * (4 * 10 ^ 15 + 1) /\
  ~ In disk_warning (output (check_disk_usage petabyte_host (init petabyte_host))).
Proof.
  split; [reflexivity|]. split; [reflexivity|].
  split; [vm_compute; split; discriminate|]. split; [reflexivity|].
  vm_compute. intuition discriminate.
Qed.

(** C1, amended.  For every disk sample with a positive total (both
    counters unsigned 64-bit) the warning is printed if and only if the
    binary64 percentage of the counters, [(used / 2^30) / (total / 2^30) * 100]
    with each operation rounded to nearest, is greater than 80.  With both
    counters below 2^53 bytes it is printed only when the used bytes are
    more than 80% of the total, and never when they are exactly 80%; with
    a total of at most 2 * 10^15 bytes it is printed if and only if they
    are more than 80%. *)
Theorem disk_warning_iff (h : Host) (self : SystemCheck) (du : sdiskusage) :
  disk_usage h (root_path self) = Ok du ->
  0 < du_total du < 2 ^ 64 -> 0 <= du_used du < 2 ^ 64 ->
  (In disk_warning (output (check_disk_usage h self)) <->
   float_gt (percentage_of (du_total du) (du_used du) 30) (float_of_int 80) = true) /\
  (du_total du < 2 ^ 53 -> du_used du < 2 ^ 53 ->
   (In disk_warning (output (check_disk_usage h self)) ->
    80 * du_total du < 100 * du_used du) /\
   (100 * du_used du = 80 * du_total du ->
    ~ In disk_warning (output (check_disk_usage h self))) /\
   (du_total du <= 2 * 10 ^ 15 ->
    (In disk_warning (output (check_disk_usage h self)) <->
     80 * du_total du < 100 * du_used du))).
Proof.
  intros Hq Ht Hu.
  pose proof (disk_warning_in_percentage h self du Hq Ht Hu) as Hin.
  split; [exact Hin|]. intros Ht53 Hu53.
  assert (Hle : 100 * du_used du <= 80 * du_total du ->
                ~ In disk_warning (output (check_disk_usage h self))).
  { intros H. rewrite Hin, percentage_of_le_80 by lia. discriminate. }
  split; [|split].
  - intros Hw.
    destruct (Z_lt_le_dec (80 * du_total du) (100 * du_used du)) as [Hgt | Hno];
      [exact Hgt | exfalso; exact (Hle Hno Hw)].
  - intros Heq. apply Hle. lia.
  - intros Hsmall. split.
    + intros Hw.
      destruct (Z_lt_le_dec (80 * du_total du) (100 * du_used du)) as [Hgt | Hno];
        [exact Hgt | exfalso; exact (Hle Hno Hw)].
    + intros Hgt. apply Hin.
      assert (Hm : (8 * 10 ^ 15 + 1) * du_total du <= 10 ^ 16 * du_used du).
      { change (2 * 10 ^ 15) with 2000000000000000 in Hsmall.
        change (8 * 10 ^ 15 + 1) with 8000000000000001.
        change (10 ^ 16) with 10000000000000000. lia. }
      apply percentage_of_gt_80; (exact Hm || lia).
Qed.

Lemma disk_warning_iff_witness :
  disk_usage linux_host (root_path (init linux_host))
    = Ok {| du_total := 100 * GiB; du_used := 80 * GiB |} /\
  0 < 100 * GiB < 2 ^ 64 /\ 0 <= 80 * GiB < 2 ^ 64 /\
  (In disk_warning (output (check_disk_usage linux_host (init linux_host))) <->
   float_gt (percentage_of (100 * GiB) (80 * GiB) 30) (float_of_int 80) = true) /\
  (100 * GiB < 2 ^ 53 -> 80 * GiB < 2 ^ 53 ->
   (In disk_warning (output (check_disk_usage linux_host (init linux_host))) ->
    80 * (100 * GiB) < 100 * (80 * GiB)) /\
   (100 * (80 * GiB) = 80 * (100 * GiB) ->
    ~ In disk_warning (output (check_disk_usage linux_host (init linux_host)))) /\
   (100 * GiB <= 2 * 10 ^ 15 ->
    (In disk_warning (output (check_disk_usage linux_host (init linux_host))) <->
     80 * (100 * GiB) < 100 * (80 * GiB)))).
Proof.
  split; [reflexivity|]. split; [vm_compute; split; reflexivity|].
  split; [vm_compute; split; [discriminate | reflexivity]|].
  apply (disk_warning_iff linux_host (init linux_host)
           {| du_total := 100 * GiB; du_used := 80 * GiB |}).
  - reflexivity.
  - vm_compute; split; reflexivity.
  - vm_compute; split; [discriminate | reflexivity].
Defined.

(** X1.  On a volume of at most 2 * 10^15 bytes the disk warning is exact:
    it is printed if and only if the used bytes are more than four fifths
    of the total, as integers. *)
Theorem disk_warning_exact (h : Host) (self : SystemCheck) (du : sdiskusage) :
  disk_usage h (root_path self) = Ok du ->
  0 < du_total du <= 2 * 10 ^ 15 -> 0 <= du_used du < 2 ^ 53 ->
  In disk_warning (output (check_disk_usage h self)) <->
  4 * du_total du < 5 * du_used du.
Proof.
  intros Hq Ht Hu.
  assert (Ht53 : 0 < du_total du < 2 ^ 53).
  { change (2 * 10 ^ 15) with 2000000000000000 in Ht.
    change (2 ^ 53) with 9007199254740992. lia. }
  rewrite (disk_warning_in_percentage h self du Hq) by lia.
  destruct (Z_lt_le_dec (4 * du_total du) (5 * du_used du)) as [Hgt | Hle].
  - assert (Hm : (8 * 10 ^ 15 + 1) * du_total du <= 10 ^ 16 * du_used du).
    { change (2 * 10 ^ 15) with 2000000000000000 in Ht.
      change (8 * 10 ^ 15 + 1) with 8000000000000001.
      change (10 ^ 16) with 10000000000000000. lia. }
    rewrite (percentage_of_gt_80 _ _ 30 Ht53 Hu ltac:(lia) Hm). tauto.
  - rewrite percentage_of_le_80 by lia. split; [discriminate | lia].
Qed.

Lemma disk_warning_exact_witness :
  disk_usage linux_host (root_path (init linux_host))
    = Ok {| du_total := 100 * GiB; du_used := 80 * GiB |} /\
  0 < 100 * GiB <= 2 * 10 ^ 15 /\ 0 <= 80 * GiB < 2 ^ 53 /\
  (In disk_warning (output (check_disk_usage linux_host (init linux_host))) <->
   4 * (100 * GiB) < 5 * (80 * GiB)).
Proof.
  split; [reflexivity|].
  split; [vm_compute; split; [reflexivity | discriminate]|].
  split; [vm_compute; split; [discriminate | reflexivity]|].
  apply (disk_warning_exact linux_host (init linux_host)
           {| du_total := 100 * GiB; du_used := 80 * GiB |}).
  - reflexivity.
  - vm_compute; split; [reflexivity | discriminate].
  - vm_compute; split; [discriminate | reflexivity].
Defined.

(** X2.  With both counters below 2^53 the disk warning is never a false
    alarm: when it is printed, the used bytes are more than four fifths of
    the total. *)
Theorem disk_warning_sound (h : Host) (self : SystemCheck) (du : sdiskusage) :
  disk_usage h (root_path self) = Ok du ->
  0 < du_total du < 2 ^ 53 -> 0 <= du_used du < 2 ^ 53 ->
  In disk_warning (output (check_disk_usage h self)) ->
  4 * du_total du < 5 * du_used du.
Proof.
  intros Hq Ht Hu Hin.
  assert (H64 : 2 ^ 53 < 2 ^ 64) by reflexivity.
  rewrite (disk_warning_in_percentage h self du Hq) in Hin by lia.
  destruct (Z_lt_le_dec (4 * du_total du) (5 * du_used du)) as [Hgt | Hle]; [exact Hgt|].
  rewrite percentage_of_le_80 in Hin by lia. discriminate.
Qed.

Lemma disk_warning_sound_witness :
  disk_usage disk_85_host (root_path (init disk_85_host))
    = Ok {| du_total := 100 * GiB; du_used := 85 * GiB |} /\
  0 < 100 * GiB < 2 ^ 53 /\ 0 <= 85 * GiB < 2 ^ 53 /\
  In disk_warning (output (check_disk_usage disk_85_host (init disk_85_host))) /\
  4 * (100 * GiB) < 5 * (85 * GiB).
Proof.
  split; [reflexivity|].
  split; [vm_compute; split; reflexivity|].
  split; [vm_compute; split; [discriminate | reflexivity]|].
  assert (Hin : In disk_warning
                  (output (check_disk_usage disk_85_host (init disk_85_host)))).
  { vm_compute. tauto. }
  split; [exact Hin|].
  apply (disk_warning_sound disk_85_host (init disk_85_host)
           {| du_total := 100 * GiB; du_used := 85 * GiB |}).
  - reflexivity.
  - vm_compute; split; reflexivity.
  - vm_compute; split; [discriminate | reflexivity].
  - exact Hin.
Defined.

(** X3.  The disk warning is monotone, over the whole unsigned 64-bit
    range: when a sample warns, every sample with at least as many used
    bytes on a total that is not larger warns too. *)
Theorem disk_warning_monotone (h1 h2 : Host) (s1 s2 : SystemCheck)
    (du1 du2 : sdiskusage) :
  disk_usage h1 (root_path s1) = Ok du1 ->
  disk_usage h2 (root_path s2) = Ok du2 ->
  0 < du_total du2 <= du_total du1 -> du_total du1 < 2 ^ 64 ->
  0 <= du_used du1 <= du_used du2 -> du_used du2 < 2 ^ 64 ->
  In disk_warning (output (check_disk_usage h1 s1)) ->
  In disk_warning (output (check_disk_usage h2 s2)).
Proof.
  intros Hq1 Hq2 Ht2 Ht1 Hu Hu2 Hin.
  rewrite (disk_warning_in_percentage h1 s1 du1 Hq1) in Hin by lia.
  rewrite (disk_warning_in_percentage h2 s2 du2 Hq2) by lia.
  pose proof (percentage_of_mono (du_total du1) (du_used du1) (du_used du2) 30
                ltac:(lia) Hu Hu2 ltac:(lia)) as Hle1.
  pose proof (percentage_of_antitone (du_total du1) (du_total du2) (du_used du2) 30
                Ht2 Ht1 ltac:(lia) ltac:(lia)) as Hle2.
  unfold float_gt in *. rewrite float_of_int_80 in *.
  pose proof (percentage_of_shape (du_total du1) (du_used du1) 30
                ltac:(lia) ltac:(lia) ltac:(lia)) as S1.
  pose proof (percentage_of_shape (du_total du1) (du_used du2) 30
                ltac:(lia) ltac:(lia) ltac:(lia)) as S2.
  pose proof (percentage_of_shape (du_total du2) (du_used du2) 30
                ltac:(lia) ltac:(lia) ltac:(lia)) as S3.
  exact (SFltb_leb_trans _ _ _ _ S2 S3 (SFltb_leb_trans _ _ _ _ S1 S2 Hin Hle1) Hle2).
Qed.

Lemma disk_warning_monotone_witness :
  disk_usage disk_85_host (root_path (init disk_85_host))
    = Ok {| du_total := 100 * GiB; du_used := 85 * GiB |} /\
  disk_usage disk_90_host (root_path (init disk_90_host))
    = Ok {| du_total := 100 * GiB; du_used := 90 * GiB |} /\
  0 < 100 * GiB <= 100 * GiB /\ 100 * GiB < 2 ^ 64 /\
  0 <= 85 * GiB <= 90 * GiB /\ 90 * GiB < 2 ^ 64 /\
  In disk_warning (output (check_disk_usage disk_85_host (init disk_85_host))) /\
  In disk_warning (output (check_disk_usage disk_90_host (init disk_90_host))).
Proof.
  split; [reflexivity|]. split; [reflexivity|].
  split; [vm_compute; split; [reflexivity | discriminate]|].
  split; [reflexivity|].
  split; [vm_compute; split; discriminate|].
  split; [reflexivity|].
  assert (Hin : In disk_warning
                  (output (check_disk_usage disk_85_host (init disk_85_host)))).
  { vm_compute. tauto. }
  split; [exact Hin|].
  apply (disk_warning_monotone disk_85_host disk_90_host
           (init disk_85_host) (init disk_90_host)
           {| du_total := 100 * GiB; du_used := 85 * GiB |}
           {| du_total := 100 * GiB; du_used := 90 * GiB |}).
  - reflexivity.
  - reflexivity.
  - vm_compute; split; [reflexivity | discriminate].
  - reflexivity.
  - vm_compute; split; discriminate.
  - reflexivity.
  - exact Hin.
Defined.

(** X4.  For every disk or memory sample with used <= total (unsigned
    64-bit counters) the free amount the method computes is not negative. *)
Theorem free_never_negative (t u d : Z) :
  d = 1024 ^ 3 \/ d = 1024 ^ 2 ->
  0 <= u <= t -> t < 2 ^ 64 ->
  exists tf uf fr : float,
    sizes t u d = ([], Ok (tf, uf, fr)) /\ float_le (float_of_int 0) fr = true.
Proof.
  intros Hd Hu Ht.
  assert (Hk : exists k, d = 2 ^ k /\ 10 <= k <= 64).
  { destruct Hd as [-> | ->]; [exists 30 | exists 20]; split; (reflexivity || lia). }
  destruct Hk as (k & -> & Hk).
  eexists. eexists. eexists. split; [apply sizes_scaled; lia|].
  apply free_nonneg; lia.
Qed.

Lemma free_never_negative_witness :
  (1024 ^ 2 = 1024 ^ 3 \/ 1024 ^ 2 = 1024 ^ 2) /\
  0 <= 600 * MiB <= 1024 * MiB /\ 1024 * MiB < 2 ^ 64 /\
  exists tf uf fr : float,
    sizes (1024 * MiB) (600 * MiB) (1024 ^ 2) = ([], Ok (tf, uf, fr)) /\
    float_le (float_of_int 0) fr = true.
Proof.
  split; [right; reflexivity|].
  split; [vm_compute; split; discriminate|].
  split; [reflexivity|].
  apply (free_never_negative (1024 * MiB) (600 * MiB) (1024 ^ 2)).
  - right; reflexivity.
  - vm_compute; split; discriminate.
  - reflexivity.
Defined.

(** ** How the groups compose *)

Lemma derive_prints_nothing (t u d : Z) : output (derive t u d) = [].
Proof.
  unfold derive, sizes, call.
  destruct (int_truediv t d) as [tf|e1]; [|reflexivity].
  destruct (int_truediv u d) as [uf|e2]; [|reflexivity].
  cbn. destruct (float_truediv uf tf); reflexivity.
Qed.

Lemma ok_true {A} (p : prog A) : ok p = true <-> completes p.
Proof.
  unfold ok, completes. destruct (outcome p) as [a|e].
  - split; [intros _; exists a; reflexivity | reflexivity].
  - split; [discriminate | intros [a H]; discriminate].
Qed.

Lemma output_seq {A B} (m : prog A) (k : prog B) :
  output (bind m (fun _ => k)) = output m ++ (if ok m then output k else []).
Proof.
  destruct m as [o [a|e]]; unfold ok; cbn [outcome snd output fst].
  - rewrite bind_Ok. reflexivity.
  - cbn. rewrite app_nil_r. reflexivity.
Qed.

Lemma outcome_seq (m k : prog unit) :
  outcome (bind m (fun _ => k)) = if ok m then outcome k else outcome m.
Proof.
  destruct m as [o [a|e]]; unfold ok; cbn [outcome snd].
  - rewrite bind_Ok. reflexivity.
  - reflexivity.
Qed.

Lemma ok_seq (m k : prog unit) : ok (bind m (fun _ => k)) = ok m && ok k.
Proof.
  unfold ok at 1. rewrite outcome_seq. unfold ok.
  destruct (outcome m); reflexivity.
Qed.

Lemma int_truediv_raises (a b : Z) (e : pyexn) :
  int_truediv a b = Raise e -> e = ZeroDivisionError \/ e = OverflowError.
Proof.
  unfold int_truediv.
  destruct b; [intros H; inversion H; auto | |];
    (destruct a; [discriminate | |]);
    destruct (SFdiv _ _ _ _); intros H; inversion H; auto.
Qed.

Lemma float_truediv_raises (x y : float) (e : pyexn) :
  float_truediv x y = Raise e -> e = ZeroDivisionError.
Proof. unfold float_truediv. destruct y; intros H; inversion H; reflexivity. Qed.

Lemma derive_raises (t u d : Z) (o : list line) (e : pyexn) :
  derive t u d = (o, Raise e) -> e = ZeroDivisionError \/ e = OverflowError.
Proof.
  unfold derive, sizes, call.
  destruct (int_truediv t d) as [tf|e1] eqn:E1.
  2:{ cbn. intros H. inversion H; subst. exact (int_truediv_raises _ _ _ E1). }
  destruct (int_truediv u d) as [uf|e2] eqn:E2.
  2:{ cbn. intros H. inversion H; subst. exact (int_truediv_raises _ _ _ E2). }
  cbn. destruct (float_truediv uf tf) as [r|e3] eqn:E3.
  - cbn. discriminate.
  - cbn. intros H. inversion H; subst. left. exact (float_truediv_raises _ _ _ E3).
Qed.

Lemma check_disk_usage_cases (h : Host) (self : SystemCheck) :
  (exists e, check_disk_usage h self = ([], Raise e) /\ is_OSError e = false) \/
  check_disk_usage h self =
    ([ [Fmt (VStr (root_path self)) ""; Lit " does not exist."] ], Ok tt) \/
  (exists du u,
     disk_usage h (root_path self) = Ok du /\
     derive (du_total du) (du_used du) (1024 ^ 3) = ([], Ok u) /\
     check_disk_usage h self =
     ([ [Lit "----------DISK USAGE----------"];
        [Lit "Disk: "; Fmt (VStr (first_char (root_path self))) ""];
        [Lit "Total: "; Fmt (VFloat (total u)) ",.2f"; Lit "GB"];
        [Lit "Used : "; Fmt (VFloat (used u)) ",.2f"; Lit "GB"];
        [Lit "Free: "; Fmt (VFloat (free u)) ",.2f"; Lit "GB"];
        [Lit "% Disk used: "; Fmt (VFloat (percentage_used u)) ".2f"; Lit "%"] ]
      ++ (if float_gt (percentage_used u) (float_of_int 80) then [disk_warning] else [])
      ++ [ [] ], Ok tt)).
Proof.
  destruct (disk_usage h (root_path self)) as [du|e] eqn:Hq.
  - pose proof (derive_prints_nothing (du_total du) (du_used du) (1024 ^ 3)) as Ho.
    destruct (derive (du_total du) (du_used du) (1024 ^ 3)) as [o [u|e]] eqn:Hd;
      cbn [output fst] in Ho; subst o.
    + right. right. exists du, u. split; [reflexivity|]. split; [exact Hd|].
      apply (check_disk_usage_ok h self du u Hq Hd).
    + assert (He : is_OSError e = false).
      { destruct (derive_raises _ _ _ _ _ Hd) as [-> | ->]; reflexivity. }
      left. exists e. split; [|exact He].
      apply (check_disk_usage_raises h self du e Hq Hd He).
  - destruct (is_OSError e) eqn:He.
    + right. left. apply (check_disk_usage_missing h self e Hq He).
    + left. exists e. split; [|exact He].
      unfold check_disk_usage. rewrite Hq. cbn. rewrite He. reflexivity.
Qed.

Lemma check_network_usage_ok (h : Host) (self : SystemCheck) :
  0 <= bytes_sent (net_io_counters h) < 2 ^ 64 ->
  0 <= bytes_recv (net_io_counters h) < 2 ^ 64 ->
  check_network_usage h self =
  ([ [Lit "---------NETWORK USAGE---------"];
     [Lit "MB sent: "; Fmt (VFloat (scaled (bytes_sent (net_io_counters h)) 20)) ",.2f"];
     [Lit "MB received: ";
      Fmt (VFloat (scaled (bytes_recv (net_io_counters h)) 20)) ",.2f"; Lit nl];
     [Lit "Packets sent: "; Fmt (VInt (packets_sent (net_io_counters h))) ",d"];
     [Lit "Packets received: "; Fmt (VInt (packets_recv (net_io_counters h))) ",d"; Lit nl] ],
   Ok tt).
Proof.
  intros Hs Hr. unfold check_network_usage.
  change (1024 ^ 2) with (2 ^ 20).
  rewrite !int_truediv_scaled by lia. reflexivity.
Qed.

Lemma check_system_info_ok (h : Host) (self : SystemCheck) (name : string)
    (ts : float) (bt : datetime) :
  getuser h = Ok name -> boot_time h = Ok ts -> fromtimestamp h ts = Ok bt ->
  check_system_info h self =
  ([ [Lit "------SYSTEM INFORMATION------"];
     [Lit "OS: "; Fmt (VStr (os self)) ""];
     [Lit "Machine Name: "; Fmt (VStr (uname_node h)) ""];
     [Lit "Logged in User: "; Fmt (VStr name) ""];
     [Lit "Boot Time: "; Fmt (VInt (day bt)) ""; Lit "/";
      Fmt (VInt (month bt)) ""; Lit "/"; Fmt (VInt (year bt)) ""; Lit " ";
      Fmt (VInt (hour bt)) ""; Lit ":"; Fmt (VInt (minute bt)) ""; Lit ":";
      Fmt (VInt (second bt)) ""; Lit nl] ], Ok tt).
Proof.
  intros Hu Hb Hf. unfold check_system_info. rewrite Hu, Hb.
  cbv [bind call]. rewrite Hf. reflexivity.
Qed.

(** X5.  [check_disk_usage] never lets an [OSError] (or a subclass) out:
    an exception that leaves it is of another class. *)
Theorem check_disk_usage_never_OSError (h : Host) (self : SystemCheck) (e : pyexn) :
  outcome (check_disk_usage h self) = Raise e -> is_OSError e = false.
Proof.
  intros H.
  destruct (check_disk_usage_cases h self) as [(e' & E & He) | [E | (du & u & _ & _ & E)]];
    rewrite E in H; cbn [outcome snd] in H; try discriminate.
  injection H as <-. exact He.
Qed.

Lemma check_disk_usage_never_OSError_witness :
  outcome (check_disk_usage zero_disk_host (init zero_disk_host))
    = Raise ZeroDivisionError /\
  is_OSError ZeroDivisionError = false.
Proof.
  split; [reflexivity|].
  apply (check_disk_usage_never_OSError zero_disk_host (init zero_disk_host)).
  reflexivity.
Defined.

(** X6.  No method leaves a partial block: each of the five either
    returns or has printed nothing when it raises. *)
Theorem no_partial_block (h : Host) (self : SystemCheck) :
  (ok (check_system_info h self) = true \/ output (check_system_info h self) = []) /\
  (ok (check_disk_usage h self) = true \/ output (check_disk_usage h self) = []) /\
  (ok (check_cpu_usage h self) = true \/ output (check_cpu_usage h self) = []) /\
  (ok (check_memory_usage h self) = true \/ output (check_memory_usage h self) = []) /\
  (ok (check_network_usage h self) = true \/ output (check_network_usage h self) = []).
Proof.
  split; [|split; [|split; [|split]]].
  - unfold check_system_info. destruct (getuser h); [|right; reflexivity].
    destruct (boot_time h) as [ts|]; [|right; reflexivity].
    cbv [bind call]. destruct (fromtimestamp h ts); [left | right]; reflexivity.
  - destruct (check_disk_usage_cases h self) as [(e' & E & He) | [E | (du & u & _ & _ & E)]];
      rewrite E; [right | left | left]; reflexivity.
  - destruct (cpu_freq h) as [fr|] eqn:Hf.
    + left. rewrite (check_cpu_usage_ok h self fr Hf). reflexivity.
    + right. rewrite (check_cpu_usage_no_freq h self Hf). reflexivity.
  - pose proof (derive_prints_nothing (vm_total (virtual_memory h 0))
                  (vm_used (virtual_memory h 1)) (1024 ^ 2)) as Ho.
    destruct (derive (vm_total (virtual_memory h 0)) (vm_used (virtual_memory h 1))
                (1024 ^ 2)) as [o [u|e]] eqn:Hd; cbn [output fst] in Ho; subst o.
    + left. rewrite (check_memory_usage_ok h self u Hd). reflexivity.
    + right. rewrite (check_memory_usage_raises h self e Hd). reflexivity.
  - unfold check_network_usage.
    destruct (int_truediv (bytes_sent (net_io_counters h)) (1024 ^ 2)); [|right; reflexivity].
    destruct (int_truediv (bytes_recv (net_io_counters h)) (1024 ^ 2)); [left | right];
      reflexivity.
Qed.

(** The run prints the groups in the order identity, disk, CPU, memory,
    network, up to and including the first that does not return. *)
Lemma main_output (h : Host) :
  output (main h) =
    output (check_system_info h (init h)) ++
    (if ok (check_system_info h (init h)) then
       output (check_disk_usage h (init h)) ++
       (if ok (check_disk_usage h (init h)) then
          output (check_cpu_usage h (init h)) ++
          (if ok (check_cpu_usage h (init h)) then
             output (check_memory_usage h (init h)) ++
             (if ok (check_memory_usage h (init h)) then
                output (check_network_usage h (init h))
              else [])
           else [])
        else [])
     else []) /\
  outcome (main h) =
    (if ok (check_system_info h (init h)) then
       if ok (check_disk_usage h (init h)) then
         if ok (check_cpu_usage h (init h)) then
           if ok (check_memory_usage h (init h)) then
             outcome (check_network_usage h (init h))
           else outcome (check_memory_usage h (init h))
         else outcome (check_cpu_usage h (init h))
       else outcome (check_disk_usage h (init h))
     else outcome (check_system_info h (init h))).
Proof.
  rewrite main_unfold. split.
  - rewrite !output_seq. reflexivity.
  - rewrite !outcome_seq. reflexivity.
Qed.

(** X8.  When the run exits cleanly.  With every byte counter unsigned
    64-bit, the run completes if and only if the user name is there, the
    boot time is there and converts to a date, the disk query either
    answers a nonzero total or raises an [OSError], the CPU frequency is
    there, and the memory total is not zero. *)
Theorem main_completes_iff (h : Host) :
  (forall du, disk_usage h (root_path (init h)) = Ok du ->
              0 <= du_total du < 2 ^ 64 /\ 0 <= du_used du < 2 ^ 64) ->
  0 <= vm_total (virtual_memory h 0) < 2 ^ 64 ->
  0 <= vm_used (virtual_memory h 1) < 2 ^ 64 ->
  0 <= bytes_sent (net_io_counters h) < 2 ^ 64 ->
  0 <= bytes_recv (net_io_counters h) < 2 ^ 64 ->
  completes (main h) <->
  (exists name, getuser h = Ok name) /\
  (exists ts bt, boot_time h = Ok ts /\ fromtimestamp h ts = Ok bt) /\
  match disk_usage h (root_path (init h)) with
  | Ok du => du_total du <> 0
  | Raise e => is_OSError e = true
  end /\
  cpu_freq h <> None /\
  vm_total (virtual_memory h 0) <> 0.
Proof.
  intros Hdisk Hvt Hvu Hbs Hbr.
  rewrite <- ok_true, main_unfold, !ok_seq, !andb_true_iff.
  assert (Hsys : ok (check_system_info h (init h)) = true <->
                 (exists name, getuser h = Ok name) /\
                 (exists ts bt, boot_time h = Ok ts /\ fromtimestamp h ts = Ok bt)).
  { unfold check_system_info. destruct (getuser h) as [name|e].
    - destruct (boot_time h) as [ts|e].
      + cbv [bind call]. destruct (fromtimestamp h ts) as [bt|e] eqn:Hf.
        * split; [intros _; split; [exists name; reflexivity|] | reflexivity].
          exists ts, bt. split; [reflexivity | exact Hf].
        * split; [discriminate|]. intros [_ (ts' & bt & Hts & Hbt)].
          injection Hts as <-. rewrite Hf in Hbt. discriminate.
      + split; [discriminate | intros [_ (ts & bt & H & _)]; discriminate].
    - split; [discriminate | intros [[name H] _]; discriminate]. }
  assert (Hd : ok (check_disk_usage h (init h)) = true <->
               match disk_usage h (root_path (init h)) with
               | Ok du => du_total du <> 0
               | Raise e => is_OSError e = true
               end).
  { destruct (disk_usage h (root_path (init h))) as [du|e] eqn:Hq.
    - destruct (Hdisk du eq_refl) as [Ht Hu].
      destruct (Z.eq_dec (du_total du) 0) as [Hz|Hnz].
      + rewrite (check_disk_usage_raises h (init h) du ZeroDivisionError Hq).
        * split; [discriminate | intros H; contradiction].
        * rewrite Hz. change (1024 ^ 3) with (2 ^ 30). apply derive_zero_total; lia.
        * reflexivity.
      + pose proof (derive_scaled (du_total du) (du_used du) 30 ltac:(lia) Hu ltac:(lia)) as D.
        change (2 ^ 30) with (1024 ^ 3) in D.
        rewrite (check_disk_usage_ok h (init h) du _ Hq D).
        split; [intros _; exact Hnz | reflexivity].
    - destruct (is_OSError e) eqn:He.
      + rewrite (check_disk_usage_missing h (init h) e Hq He).
        split; reflexivity.
      + assert (E : check_disk_usage h (init h) = ([], Raise e)).
        { unfold check_disk_usage. rewrite Hq. cbn. rewrite He. reflexivity. }
        rewrite E. split; discriminate. }
  assert (Hc : ok (check_cpu_usage h (init h)) = true <-> cpu_freq h <> None).
  { destruct (cpu_freq h) as [fr|] eqn:Hf.
    - rewrite (check_cpu_usage_ok h (init h) fr Hf). split; [discriminate | reflexivity].
    - rewrite (check_cpu_usage_no_freq h (init h) Hf).
      split; [discriminate | intros H; contradiction]. }
  assert (Hm : ok (check_memory_usage h (init h)) = true <->
               vm_total (virtual_memory h 0) <> 0).
  { destruct (Z.eq_dec (vm_total (virtual_memory h 0)) 0) as [Hz|Hnz].
    - rewrite (check_memory_usage_raises h (init h) ZeroDivisionError).
      + split; [discriminate | intros H; contradiction].
      + rewrite Hz. change (1024 ^ 2) with (2 ^ 20). apply derive_zero_total; lia.
    - pose proof (derive_scaled (vm_total (virtual_memory h 0)) (vm_used (virtual_memory h 1))
                    20 ltac:(lia) Hvu ltac:(lia)) as D.
      change (2 ^ 20) with (1024 ^ 2) in D.
      rewrite (check_memory_usage_ok h (init h) _ D).
      split; [intros _; exact Hnz | reflexivity]. }
  assert (Hn : ok (check_network_usage h (init h)) = true).
  { rewrite (check_network_usage_ok h (init h) Hbs Hbr). reflexivity. }
  rewrite Hsys, Hd, Hc, Hm, Hn. tauto.
Qed.

Lemma main_completes_iff_witness :
  (forall du, disk_usage linux_host (root_path (init linux_host)) = Ok du ->
              0 <= du_total du < 2 ^ 64 /\ 0 <= du_used du < 2 ^ 64) /\
  0 <= vm_total (virtual_memory linux_host 0) < 2 ^ 64 /\
  0 <= vm_used (virtual_memory linux_host 1) < 2 ^ 64 /\
  0 <= bytes_sent (net_io_counters linux_host) < 2 ^ 64 /\
  0 <= bytes_recv (net_io_counters linux_host) < 2 ^ 64 /\
  (completes (main linux_host) <->
   (exists name, getuser linux_host = Ok name) /\
   (exists ts bt, boot_time linux_host = Ok ts /\ fromtimestamp linux_host ts = Ok bt) /\
   match disk_usage linux_host (root_path (init linux_host)) with
   | Ok du => du_total du <> 0
   | Raise e => is_OSError e = true
   end /\
   cpu_freq linux_host <> None /\
   vm_total (virtual_memory linux_host 0) <> 0).
Proof.
  assert (Hd : forall du, disk_usage linux_host (root_path (init linux_host)) = Ok du ->
                          0 <= du_total du < 2 ^ 64 /\ 0 <= du_used du < 2 ^ 64).
  { intros du H. injection H as <-. vm_compute.
    repeat split; (discriminate || reflexivity). }
  assert (Hr : forall x, x = 1024 * MiB \/ x = 524 * MiB \/ x = 123456789 \/ x = 987654321 ->
                         0 <= x < 2 ^ 64).
  { intros x [-> | [-> | [-> | ->]]]; vm_compute; split; (discriminate || reflexivity). }
  split; [exact Hd|].
  split; [apply Hr; left; reflexivity|].
  split; [apply Hr; right; left; reflexivity|].
  split; [apply Hr; right; right; left; reflexivity|].
  split; [apply Hr; right; right; right; reflexivity|].
  apply (main_completes_iff linux_host).
  - exact Hd.
  - apply Hr; left; reflexivity.
  - apply Hr; right; left; reflexivity.
  - apply Hr; right; right; left; reflexivity.
  - apply Hr; right; right; right; reflexivity.
Defined.

(** X9.  The network group has no warning and no failure within range: for
    unsigned 64-bit byte counters it returns after printing its five lines,
    the packet counts as they are; and whatever the counters, no line it
    prints is one of the three warnings. *)
Theorem network_report (h : Host) (self : SystemCheck) :
  0 <= bytes_sent (net_io_counters h) < 2 ^ 64 ->
  0 <= bytes_recv (net_io_counters h) < 2 ^ 64 ->
  exists mb_sent mb_received : float,
    int_truediv (bytes_sent (net_io_counters h)) (1024 ^ 2) = Ok mb_sent /\
    int_truediv (bytes_recv (net_io_counters h)) (1024 ^ 2) = Ok mb_received /\
    check_network_usage h self =
    ([ [Lit "---------NETWORK USAGE---------"];
       [Lit "MB sent: "; Fmt (VFloat mb_sent) ",.2f"];
       [Lit "MB received: "; Fmt (VFloat mb_received) ",.2f"; Lit nl];
       [Lit "Packets sent: "; Fmt (VInt (packets_sent (net_io_counters h))) ",d"];
       [Lit "Packets received: "; Fmt (VInt (packets_recv (net_io_counters h))) ",d";
        Lit nl] ], Ok tt) /\
    (bytes_sent (net_io_counters h) <= bytes_recv (net_io_counters h) ->
     float_le mb_sent mb_received = true).
Proof.
  intros Hs Hr.
  exists (scaled (bytes_sent (net_io_counters h)) 20),
         (scaled (bytes_recv (net_io_counters h)) 20).
  change (1024 ^ 2) with (2 ^ 20).
  split; [apply int_truediv_scaled; lia|]. split; [apply int_truediv_scaled; lia|].
  split; [apply (check_network_usage_ok h self Hs Hr)|].
  intros Hle. unfold float_le.
  destruct (Z.eq_dec (bytes_sent (net_io_counters h)) 0) as [E|N].
  - rewrite E. destruct (Z.eq_dec (bytes_recv (net_io_counters h)) 0) as [E'|N'].
    + rewrite E'. reflexivity.
    + destruct (scaled_finite (bytes_recv (net_io_counters h)) 20) as (m & e & -> & _);
        try lia. reflexivity.
  - apply scaled_mono; lia.
Qed.

Lemma network_report_witness :
  0 <= bytes_sent (net_io_counters linux_host) < 2 ^ 64 /\
  0 <= bytes_recv (net_io_counters linux_host) < 2 ^ 64 /\
  exists mb_sent mb_received : float,
    int_truediv (bytes_sent (net_io_counters linux_host)) (1024 ^ 2) = Ok mb_sent /\
    int_truediv (bytes_recv (net_io_counters linux_host)) (1024 ^ 2) = Ok mb_received /\
    check_network_usage linux_host (init linux_host) =
    ([ [Lit "---------NETWORK USAGE---------"];
       [Lit "MB sent: "; Fmt (VFloat mb_sent) ",.2f"];
       [Lit "MB received: "; Fmt (VFloat mb_received) ",.2f"; Lit nl];
       [Lit "Packets sent: "; Fmt (VInt (packets_sent (net_io_counters linux_host))) ",d"];
       [Lit "Packets received: ";
        Fmt (VInt (packets_recv (net_io_counters linux_host))) ",d"; Lit nl] ], Ok tt) /\
    (bytes_sent (net_io_counters linux_host) <= bytes_recv (net_io_counters linux_host) ->
     float_le mb_sent mb_received = true).
Proof.
  split; [vm_compute; split; [discriminate | reflexivity]|].
  split; [vm_compute; split; [discriminate | reflexivity]|].
  apply (network_report linux_host (init linux_host)).
  - vm_compute; split; [discriminate | reflexivity].
  - vm_compute; split; [discriminate | reflexivity].
Defined.

(** X10.  Warnings come from their own group only: no line printed by the
    identity or the network group is a warning, whatever the host answers,
    and the disk, CPU and memory groups print no warning but their own. *)
Theorem warnings_by_group (h : Host) (self : SystemCheck) (l : line) :
  is_warning l ->
  ~ In l (output (check_system_info h self)) /\
  ~ In l (output (check_network_usage h self)) /\
  (In l (output (check_disk_usage h self)) -> l = disk_warning) /\
  (In l (output (check_cpu_usage h self)) -> l = cpu_warning) /\
  (In l (output (check_memory_usage h self)) -> l = memory_warning).
Proof.
  intros Hw. split; [|split; [|split; [|split]]].
  - unfold check_system_info. destruct (getuser h); [|intros []].
    destruct (boot_time h) as [ts|]; [|intros []].
    cbv [bind call]. destruct (fromtimestamp h ts); [|intros []].
    cbn. destruct Hw as [-> | [-> | ->]]; lines_differ.
  - unfold check_network_usage.
    destruct (int_truediv (bytes_sent (net_io_counters h)) (1024 ^ 2)); [|intros []].
    destruct (int_truediv (bytes_recv (net_io_counters h)) (1024 ^ 2)); [|intros []].
    cbn. destruct Hw as [-> | [-> | ->]]; lines_differ.
  - destruct (check_disk_usage_cases h self) as [(e' & E & He) | [E | (du & u & _ & _ & E)]];
      rewrite E; cbn [output fst]; [intros [] | |].
    + destruct Hw as [-> | [-> | ->]]; lines_differ.
    + destruct (float_gt (percentage_used u) (float_of_int 80));
        destruct Hw as [-> | [-> | ->]]; lines_differ.
  - destruct (cpu_freq h) as [fr|] eqn:Hf.
    + rewrite (check_cpu_usage_ok h self fr Hf). cbn [output fst].
      destruct (float_gt (cpu_percent h 1) (float_of_int 80));
        destruct Hw as [-> | [-> | ->]]; lines_differ.
    + rewrite (check_cpu_usage_no_freq h self Hf). intros [].
  - pose proof (derive_prints_nothing (vm_total (virtual_memory h 0))
                  (vm_used (virtual_memory h 1)) (1024 ^ 2)) as Ho.
    destruct (derive (vm_total (virtual_memory h 0)) (vm_used (virtual_memory h 1))
                (1024 ^ 2)) as [o [u|e]] eqn:Hd; cbn [output fst] in Ho; subst o.
    + rewrite (check_memory_usage_ok h self u Hd). cbn [output fst].
      destruct (float_lt (free u) (float_of_int 500));
        destruct Hw as [-> | [-> | ->]]; lines_differ.
    + rewrite (check_memory_usage_raises h self e Hd). intros [].
Qed.

Lemma warnings_by_group_witness :
  is_warning disk_warning /\
  ~ In disk_warning (output (check_system_info disk_85_host (init disk_85_host))) /\
  ~ In disk_warning (output (check_network_usage disk_85_host (init disk_85_host))) /\
  (In disk_warning (output (check_disk_usage disk_85_host (init disk_85_host))) ->
   disk_warning = disk_warning) /\
  (In disk_warning (output (check_cpu_usage disk_85_host (init disk_85_host))) ->
   disk_warning = cpu_warning) /\
  (In disk_warning (output (check_memory_usage disk_85_host (init disk_85_host))) ->
   disk_warning = memory_warning).
Proof.
  split; [left; reflexivity|].
  apply (warnings_by_group disk_85_host (init disk_85_host) disk_warning).
  left; reflexivity.
Defined.

(** X11.  The memory warning is monotone in the used bytes, over the whole
    unsigned 64-bit range: on the same total and with used <= total, when
    a sample warns, every sample with at least as many used bytes warns
    too. *)
Theorem memory_warning_monotone (h1 h2 : Host) (s1 s2 : SystemCheck) :
  vm_total (virtual_memory h1 0) = vm_total (virtual_memory h2 0) ->
  0 < vm_total (virtual_memory h1 0) < 2 ^ 64 ->
  0 <= vm_used (virtual_memory h1 1) <= vm_used (virtual_memory h2 1) ->
  vm_used (virtual_memory h2 1) <= vm_total (virtual_memory h2 0) ->
  In memory_warning (output (check_memory_usage h1 s1)) ->
  In memory_warning (output (check_memory_usage h2 s2)).
Proof.
  intros Et Ht Hu Hu2 Hin.
  rewrite (memory_warning_in h1 s1) in Hin by lia.
  rewrite (memory_warning_in h2 s2) by lia.
  rewrite <- Et in *.
  pose proof (free_antitone (vm_total (virtual_memory h1 0)) (vm_used (virtual_memory h1 1))
                (vm_used (virtual_memory h2 1)) 20 Hu Hu2 Ht ltac:(lia)) as Hle.
  unfold float_lt in *. rewrite float_of_int_500 in *.
  refine (SFleb_ltb_trans _ _ _ _ _ _ Hle Hin); apply free_shape; lia.
Qed.

Lemma memory_warning_monotone_witness :
  vm_total (virtual_memory memory_600_host 0) = vm_total (virtual_memory memory_700_host 0) /\
  0 < vm_total (virtual_memory memory_600_host 0) < 2 ^ 64 /\
  0 <= vm_used (virtual_memory memory_600_host 1)
    <= vm_used (virtual_memory memory_700_host 1) /\
  vm_used (virtual_memory memory_700_host 1) <= vm_total (virtual_memory memory_700_host 0) /\
  In memory_warning (output (check_memory_usage memory_600_host (init memory_600_host))) /\
  In memory_warning (output (check_memory_usage memory_700_host (init memory_700_host))).
Proof.
  split; [reflexivity|].
  split; [vm_compute; split; reflexivity|].
  split; [vm_compute; split; discriminate|].
  split; [vm_compute; discriminate|].
  assert (Hin : In memory_warning
                  (output (check_memory_usage memory_600_host (init memory_600_host)))).
  { vm_compute. tauto. }
  split; [exact Hin|].
  apply (memory_warning_monotone memory_600_host memory_700_host
           (init memory_600_host) (init memory_700_host)).
  - reflexivity.
  - vm_compute; split; reflexivity.
  - vm_compute; split; discriminate.
  - vm_compute; discriminate.
  - exact Hin.
Defined.
